(** * mundi: dependency-graph rebuild analysis and conda-forge shard sync

    A shallow embedding of the three scripts of the repository

      - [recipes/scripts/gen_deps.py]          (module [GenDeps])
      - [recipes/scripts/dep_graph.py]         (module [DepGraph])
      - [recipes/scripts/sync_conda_forge.py]  (module [SyncCondaForge])

    followed by the properties of the specification, each stated against
    these definitions.

    Modelling conventions.
    - A Python [str] is a [string] (a sequence of bytes); the version and
      package-name strings handled here are ASCII, where [str.isdigit] is
      the test for ['0'..'9'] and [sorted] on [str] is the byte-wise
      lexicographic order. [int] is given the value of a digit string;
      Python itself refuses a digit string of more than 4300 characters
      and the digits outside ASCII that [str.isdigit] accepts, so
      statements about every version string carry these two bounds.
    - [rdeps] and [deps] write the queried name between single quotes
      into the query text and hand a non-empty edge table to the engine;
      the model is the query for that name, and statements that give the
      exact answer carry the two conditions.
    - A [dict] that is only looked up is a [gmap]; a [dict] that is iterated
      or serialised is an insertion-ordered association list ([pydict]).
    - Files and directories are explicit state; the network, the digest and
      the decompress-and-unpack codec are fields of an environment record. *)

From Stdlib Require Import ZArith String Ascii List Bool Lia Sorted Permutation.
From Stdlib.Strings Require Import Byte.
From stdpp Require Import gmap strings list sorting.

Local Open Scope string_scope.
Local Open Scope Z_scope.

(** ** Python built-ins used by the scripts *)

Module Py.

(** [c.isdigit()] on an ASCII character. *)
Definition isdigit (c : ascii) : bool :=
  ((48 <=? N_of_ascii c)%N && (N_of_ascii c <=? 57)%N)%bool.

Definition digit_value (c : ascii) : Z := Z.of_N (N_of_ascii c) - 48.

(** [int(s)] for a string of decimal digits (Python converts one of at
    most 4300 digits, and raises on a longer one). *)
Fixpoint int_acc (acc : Z) (s : string) : Z :=
  match s with
  | EmptyString => acc
  | String c s' => int_acc (10 * acc + digit_value c) s'
  end.

Definition int (s : string) : Z := int_acc 0 s.

(** [c.isascii()], and the longest digit string [int] converts
    ([sys.int_info.default_max_str_digits]). *)
Definition isascii (c : ascii) : bool := (N_of_ascii c <? 128)%N.

Definition MAX_STR_DIGITS : nat := 4300.

(** [s.replace(old, new)] for one-character [old] and [new]. *)
Fixpoint replace (old new : ascii) (s : string) : string :=
  match s with
  | EmptyString => EmptyString
  | String c s' =>
      String (if Ascii.eqb c old then new else c) (replace old new s')
  end.

(** [s.split(sep)] for a one-character separator: always at least one
    segment, empty segments are kept. *)
Fixpoint split (sep : ascii) (s : string) : list string :=
  match s with
  | EmptyString => [EmptyString]
  | String c s' =>
      if Ascii.eqb c sep then EmptyString :: split sep s'
      else match split sep s' with
           | [] => [String c EmptyString]
           | w :: ws => String c w :: ws
           end
  end.

(** [s.count(c)] for a one-character pattern. *)
Fixpoint count (c : ascii) (s : string) : nat :=
  match s with
  | EmptyString => O
  | String d s' => ((if Ascii.eqb d c then 1 else 0) + count c s')%nat
  end.

(** ["".join(c for c in s if p(c))] *)
Fixpoint filter_chars (p : ascii -> bool) (s : string) : string :=
  match s with
  | EmptyString => EmptyString
  | String c s' =>
      if p c then String c (filter_chars p s') else filter_chars p s'
  end.

(** The loop [for c in s: if p(c): num += c else: break]. *)
Fixpoint take_while (p : ascii -> bool) (s : string) : string :=
  match s with
  | EmptyString => EmptyString
  | String c s' => if p c then String c (take_while p s') else EmptyString
  end.

(** Truthiness of a possibly-[None] string: [None] and [""] are falsy. *)
Definition truthy (o : option string) : bool :=
  match o with
  | Some (String _ _) => true
  | _ => false
  end.

(** Insertion-ordered dictionaries. *)
Abbreviation pydict V := (list (string * V)).

Fixpoint dget {V} (k : string) (d : pydict V) : option V :=
  match d with
  | [] => None
  | (k', v) :: d' => if String.eqb k k' then Some v else dget k d'
  end.

Definition dmem {V} (k : string) (d : pydict V) : bool :=
  match dget k d with Some _ => true | None => false end.

(** [d[k] = v]: an existing key keeps its position, a new key goes last. *)
Fixpoint dset {V} (k : string) (v : V) (d : pydict V) : pydict V :=
  match d with
  | [] => [(k, v)]
  | (k', v') :: d' =>
      if String.eqb k k' then (k, v) :: d' else (k', v') :: dset k v d'
  end.

(** [d.update(e)] *)
Definition dupdate {V} (d e : pydict V) : pydict V :=
  fold_left (fun acc kv => dset (fst kv) (snd kv) acc) e d.

Definition dkeys {V} (d : pydict V) : list string := fst <$> d.
Definition dvalues {V} (d : pydict V) : list V := snd <$> d.

(** [set(l)] followed by iteration: every element once. *)
Definition distinct (l : list string) : list string := remove_dups l.

(** [sorted] on a list of [str]. *)
Definition sorted (l : list string) : list string := merge_sort String.le l.

(** Comparison of tuples of three strings, component by component. *)
Definition compare3 (a b : string * string * string) : comparison :=
  match String.compare (fst (fst a)) (fst (fst b)) with
  | Eq => match String.compare (snd (fst a)) (snd (fst b)) with
          | Eq => String.compare (snd a) (snd b)
          | c => c
          end
  | c => c
  end.

Definition le3 (a b : string * string * string) : Prop := compare3 a b <> Gt.

#[global] Instance le3_dec : RelDecision le3.
Proof. intros a b. unfold le3. apply _. Defined.

(** [sorted] on a list of triples of [str]. *)
Definition sorted3 (l : list (string * string * string)) :=
  merge_sort le3 l.

(** Comparison of tuples of integers: [a > b]. *)
Fixpoint tuple_gtb (a b : list Z) : bool :=
  match a, b with
  | [], _ => false
  | _ :: _, [] => true
  | x :: a', y :: b' => (y <? x) || ((x =? y) && tuple_gtb a' b')
  end.

(** [c.isspace()] on an ASCII character: tab to carriage return, the
    four separators 0x1c to 0x1f, and the space. The class [\s] of [re]
    on [str] patterns is the same set. *)
Definition isspace (c : ascii) : bool :=
  ((9 <=? N_of_ascii c)%N && (N_of_ascii c <=? 13)%N)
  || ((28 <=? N_of_ascii c)%N && (N_of_ascii c <=? 32)%N).

Fixpoint drop_while (p : ascii -> bool) (s : string) : string :=
  match s with
  | EmptyString => EmptyString
  | String c s' => if p c then drop_while p s' else s
  end.

(** [s.lstrip()], [s.rstrip()] and [s.strip()] *)
Definition lstrip (s : string) : string := drop_while isspace s.

Fixpoint rstrip (s : string) : string :=
  match s with
  | EmptyString => EmptyString
  | String c s' =>
      match rstrip s' with
      | EmptyString => if isspace c then EmptyString else String c EmptyString
      | r => String c r
      end
  end.

Definition strip (s : string) : string := lstrip (rstrip s).

(** [sep.join(parts)] *)
Fixpoint join (sep : string) (parts : list string) : string :=
  match parts with
  | [] => EmptyString
  | [p] => p
  | p :: ps => p ++ sep ++ join sep ps
  end.

End Py.

(** ** gen_deps.py *)

Module GenDeps.
Import Py.

(** The two shapes [parse_run_export] produces, with the [kind] that
    [resolve_recipe] adds. [PinSubpackage] always carries the keys
    [lower_bound] and [upper_bound], possibly [None]; [SpecExport] has
    no such key. *)
Inductive run_export : Type :=
| PinSubpackage (name : option string) (exact : bool)
                (lower_bound upper_bound : option string) (kind : string)
| SpecExport (name : option string) (spec : string) (kind : string).

(** One element of the list [resolve_recipe] returns. *)
Record output : Type := mkOutput {
  name : string;
  version : string;
  build_string : string;
  host_deps : pydict string;
  run_exports : list run_export;
}.

(** One value of the dictionary printed by [main] in JSON mode. *)
Record entry : Type := mkEntry {
  e_version : string;
  e_host_deps : pydict string;
  e_run_exports : list run_export;
}.

(** The value [main] stores for a record. *)
Definition entry_of (pkg : output) : entry :=
  mkEntry (version pkg) (host_deps pkg) (run_exports pkg).

(** The JSON branch of [main]: [result[name]] is written only when
    [name not in result]. *)
Definition main_json (all_pkgs : list output) : pydict entry :=
  fold_left
    (fun result pkg =>
       if dmem (name pkg) result then result
       else dset (name pkg) (entry_of pkg) result)
    all_pkgs [].

(** A requirement as the renderer prints it: a string, a dictionary
    with the key [pin_subpackage], or anything else. *)
Record pin : Type := mkPin {
  pin_name : option string;
  pin_exact : bool;
  pin_lower_bound : option string;
  pin_upper_bound : option string;
}.

Inductive dep_value : Type :=
| DepStr (s : string)
| DepPin (ps : pin)
| DepOther.

(** The character class [[a-zA-Z0-9_-]] of [PKG_SPEC_PAT]. *)
Definition is_name_char (c : ascii) : bool :=
  ((97 <=? N_of_ascii c)%N && (N_of_ascii c <=? 122)%N)
  || ((65 <=? N_of_ascii c)%N && (N_of_ascii c <=? 90)%N)
  || isdigit c
  || Ascii.eqb c "_" || Ascii.eqb c "-".

(** [PKG_SPEC_PAT.match(s)]: group 1 is the longest run of name
    characters at the start (at least one); then [\s*] skips white
    space; group 2 is the rest of that line. *)
Definition pkg_spec_match (s : string) : option (string * string) :=
  match take_while is_name_char s with
  | EmptyString => None
  | g1 =>
      Some (g1,
            take_while (fun c => negb (Ascii.eqb c "010"))
                       (drop_while isspace (drop_while is_name_char s)))
  end.

(** [extract_pkg_spec] *)
Definition extract_pkg_spec (dep : dep_value) : option (string * string) :=
  match dep with
  | DepStr s =>
      match pkg_spec_match (strip s) with
      | Some (g1, g2) => Some (g1, strip g2)
      | None => None
      end
  | DepPin ps =>
      match pin_name ps with
      | Some (String c n) =>
          if pin_exact ps then Some (String c n, "exact")
          else
            Some (String c n,
                  join ","
                    (app
                       (if truthy (pin_lower_bound ps)
                        then ["lb=" ++ default "" (pin_lower_bound ps)]
                        else [])
                       (if truthy (pin_upper_bound ps)
                        then ["ub=" ++ default "" (pin_upper_bound ps)]
                        else [])))
      | _ => None
      end
  | DepOther => None
  end.

(** [extract_pkg_name] *)
Definition extract_pkg_name (dep : dep_value) : option string :=
  match extract_pkg_spec dep with
  | Some spec => Some (fst spec)
  | None => None
  end.

(** [parse_run_export], with the [kind] that [resolve_recipe] stores in
    the parsed dictionary. *)
Definition parse_run_export (kind : string) (dep : dep_value)
  : option run_export :=
  match dep with
  | DepPin ps =>
      Some (PinSubpackage (pin_name ps) (pin_exact ps) (pin_lower_bound ps)
                          (pin_upper_bound ps) kind)
  | DepStr s => Some (SpecExport (extract_pkg_name dep) s kind)
  | DepOther => None
  end.

(** One element of the renderer's JSON output, reduced to the keys
    [resolve_recipe] reads; an absent key is [None]. *)
Record rendered : Type := mkRendered {
  r_name : option string;
  r_version : option string;
  r_build_string : option string;
  r_cache_host : option (list dep_value);
  r_host : option (list dep_value);
  r_run_exports : option (pydict (list dep_value));
}.

(** The loop over [host_raw]: a name is written when it is new, or when
    the new constraint is not empty and the stored one is. *)
Definition host_step (host_deps : pydict string) (d : dep_value)
  : pydict string :=
  match extract_pkg_spec d with
  | Some (n, constraint) =>
      if negb (dmem n host_deps)
         || (truthy (Some constraint) && negb (truthy (dget n host_deps)))
      then dset n constraint host_deps
      else host_deps
  | None => host_deps
  end.

Definition merge_host_deps (host_raw : list dep_value) : pydict string :=
  fold_left host_step host_raw [].

(** The loop over [run_exports]. *)
Definition collect_run_exports (re : pydict (list dep_value))
  : list run_export :=
  kd ← re; omap (parse_run_export (fst kd)) (snd kd).

(** The body of the loop of [resolve_recipe] over the rendered items. *)
Definition resolve_item (item : rendered) : output :=
  mkOutput (default "" (r_name item)) (default "" (r_version item))
           (default "" (r_build_string item))
           (merge_host_deps (default [] (r_cache_host item)
                             ++ default [] (r_host item))%list)
           (collect_run_exports (default [] (r_run_exports item))).

(** What running the renderer on one recipe gives: a non-zero exit
    status, output that [json.loads] rejects, or the rendered items. *)
Inductive render_result : Type :=
| RenderFailed
| RenderMalformed
| Rendered (items : list rendered).

(** [resolve_recipe]; [None] when it raises. *)
Definition resolve_recipe (r : render_result) : option (list output) :=
  match r with
  | RenderFailed => Some []
  | RenderMalformed => None
  | Rendered items => Some (resolve_item <$> items)
  end.

(** The loop of [main] over the recipes: a recipe that raises is
    reported and skipped. *)
Definition collect_outputs (recipes : list render_result) : list output :=
  r ← recipes; default [] (resolve_recipe r).

(** One host dependency as the table mode of [main] prints it. *)
Definition format_host_dep (n c : string) : string :=
  match c with
  | EmptyString => n
  | _ => n ++ " " ++ c
  end.

End GenDeps.

(** ** dep_graph.py *)

Module DepGraph.
Import Py.

(** Rows of the two datasets. The JSON text columns [host_deps] and
    [run_exports] are kept in decoded form. *)
Record pkg_row : Type := mkPkg {
  name : string;
  version : string;
  host_deps : pydict string;
  run_exports : list GenDeps.run_export;
}.

Record edge_row : Type := mkEdge {
  src : string;
  dst : string;
  constraint : string;
}.

(** [build_graph], from the decoded output of gen_deps.py. *)
Definition build_graph (data : pydict GenDeps.entry)
  : list pkg_row * list edge_row :=
  ((fun ni : string * GenDeps.entry =>
      mkPkg (fst ni) (GenDeps.e_version (snd ni))
            (GenDeps.e_host_deps (snd ni))
            (GenDeps.e_run_exports (snd ni))) <$> data,
   ni ← data;
   (fun dc : string * string => mkEdge (fst ni) (fst dc) (snd dc))
     <$> GenDeps.e_host_deps (snd ni)).

(** [_all_nodes]: the set of package names, updated with every edge
    destination, listed once each. *)
Definition _all_nodes (packages : list pkg_row) (edges : list edge_row)
  : list string :=
  distinct ((name <$> packages) ++ (dst <$> edges))%list.

(** The pattern [(p:Pkg)-[:DEP]->(d:Pkg)] evaluated by the query engine
    over the node table and the edge table: one match for every edge row
    joined with the node rows named by its two ends. *)
Definition match_dep (nodes : list string) (edges : list edge_row)
  : list (string * string) :=
  e ← edges;
  p ← filter (fun p => p = src e) nodes;
  d ← filter (fun d => d = dst e) nodes;
  [(p, d)].

(** The pattern [(p:Pkg)-[:DEP]->(d1:Pkg)-[:DEP]->(d2:Pkg)]. *)
Definition match_dep2 (nodes : list string) (edges : list edge_row)
  : list (string * string * string) :=
  pd1 ← match_dep nodes edges;
  d1d2 ← filter (fun q : string * string => fst q = snd pd1)
                (match_dep nodes edges);
  [(fst pd1, snd pd1, snd d1d2)].

(** [rdeps]: [RETURN DISTINCT p.name] where [d.name = name], sorted;
    [name] stands between single quotes in the query text and is taken
    to hold no quote. *)
Definition rdeps (packages : list pkg_row) (edges : list edge_row)
           (n : string) : list string :=
  sorted (distinct
    (fst <$> filter (fun pd : string * string => snd pd = n)
                    (match_dep (_all_nodes packages edges) edges))).

(** [deps]: [RETURN DISTINCT d.name] where [p.name = name], sorted, with
    [name] written into the query as in [rdeps]. *)
Definition deps (packages : list pkg_row) (edges : list edge_row)
           (n : string) : list string :=
  sorted (distinct
    (snd <$> filter (fun pd : string * string => fst pd = n)
                    (match_dep (_all_nodes packages edges) edges))).

(** [dep_chain_2hop]: the rows of the match where [p.name = name], as
    the engine returns them. *)
Definition dep_chain_2hop (packages : list pkg_row) (edges : list edge_row)
           (n : string) : list (string * string * string) :=
  filter (fun t : string * string * string => fst (fst t) = n)
         (match_dep2 (_all_nodes packages edges) edges).

(** [parse_version]: every digit of a segment is kept. *)
Definition parse_version (ver : string) : list Z :=
  (fun p => let num := filter_chars isdigit p in
            match num with
            | EmptyString => 0
            | _ => int num
            end)
    <$> split "." (replace "-" "." ver).

(** [version_bound] *)
Definition version_bound (version upper_bound : string) : list Z :=
  let n := count "x" upper_bound in
  match n with
  | O => []
  | _ => firstn n (parse_version version ++ repeat 0 n)
  end.

(** What [check_rebuilds] reads of an upstream snapshot entry:
    [upstream[name].get("version", "")]. *)
Record upstream_info : Type := mkUp { up_version : option string }.

Definition get_version (u : upstream_info) : string :=
  default "" (up_version u).

(** [exp.get("upper_bound", "")] *)
Definition get_upper_bound (exp : GenDeps.run_export) : option string :=
  match exp with
  | GenDeps.PinSubpackage _ _ _ ub _ => ub
  | GenDeps.SpecExport _ _ _ => Some ""
  end.

Definition trigger : Type := string * string * string.

Definition reason (n local_ver upstream_ver ub : string) : string :=
  n ++ " " ++ local_ver ++ " -> " ++ upstream_ver ++ " (ub=" ++ ub ++ ")".

(** State of the loops of [check_rebuilds]: [rebuilds] and [seen]. *)
Definition state : Type := list trigger * gset (string * string).

(** [for dep in rdeps(...)]: append unless [(dep, name)] was seen. *)
Definition dep_loop (n local_ver upstream_ver ub : string)
           (rd : list string) (st : state) : state :=
  fold_left
    (fun (st : state) (dep : string) =>
       if decide ((dep, n) ∈ snd st) then st
       else ((fst st ++ [(dep, n, reason n local_ver upstream_ver ub)])%list,
             {[ (dep, n) ]} ∪ snd st))
    rd st.

(** Does an export rule trigger for the two versions? *)
Definition triggers (local_ver upstream_ver : string)
           (exp : GenDeps.run_export) : bool :=
  match get_upper_bound exp with
  | Some ub =>
      truthy (Some ub)
      && negb (bool_decide (version_bound local_ver ub
                            = version_bound upstream_ver ub))
  | None => false
  end.

(** [for exp in run_exports] *)
Definition export_loop (packages : list pkg_row) (edges : list edge_row)
           (n local_ver upstream_ver : string)
           (exports : list GenDeps.run_export) (st : state) : state :=
  fold_left
    (fun st exp =>
       if triggers local_ver upstream_ver exp
       then dep_loop n local_ver upstream_ver
                     (default "" (get_upper_bound exp))
                     (rdeps packages edges n) st
       else st)
    exports st.

(** Is a package row examined at all (neither [continue] taken)? *)
Definition examined (upstream : gmap string upstream_info) (r : pkg_row)
  : option string :=
  match upstream !! name r, run_exports r with
  | None, _ => None
  | Some _, [] => None
  | Some u, _ :: _ =>
      let upstream_ver := get_version u in
      if negb (truthy (Some upstream_ver))
         || String.eqb (version r) upstream_ver
      then None else Some upstream_ver
  end.

(** [for i in range(len(pkgs["name"]))] *)
Definition package_loop (packages : list pkg_row) (edges : list edge_row)
           (upstream : gmap string upstream_info)
           (rows : list pkg_row) (st : state) : state :=
  fold_left
    (fun st r =>
       match examined upstream r with
       | Some upstream_ver =>
           export_loop packages edges (name r) (version r) upstream_ver
                       (run_exports r) st
       | None => st
       end)
    rows st.

(** [check_rebuilds] with an explicit [upstream]. *)
Definition check_rebuilds (packages : list pkg_row) (edges : list edge_row)
           (upstream : gmap string upstream_info) : list trigger :=
  sorted3 (fst (package_loop packages edges upstream packages ([], ∅))).

(** Loop invariant: [seen] holds exactly the (dependent, name) pairs of
    [rebuilds], and no pair occurs twice in [rebuilds]. *)
Definition consistent (st : state) : Prop :=
  NoDup (fst <$> fst st)
  /\ forall q : string * string, q ∈ snd st <-> q ∈ fst <$> fst st.

(** A trigger is justified when some package row that is examined has an
    export rule that triggers, the dependent is a reverse dependency of
    the package, and the reason is the one formatted for that rule. *)
Definition justified (packages : list pkg_row) (edges : list edge_row)
           (upstream : gmap string upstream_info) (t : trigger) : Prop :=
  exists (r : pkg_row) (upstream_ver ub dep : string)
         (exp : GenDeps.run_export),
    r ∈ packages
    /\ examined upstream r = Some upstream_ver
    /\ exp ∈ run_exports r
    /\ triggers (version r) upstream_ver exp = true
    /\ get_upper_bound exp = Some ub
    /\ dep ∈ rdeps packages edges (name r)
    /\ t = (dep, name r, reason (name r) (version r) upstream_ver ub).

End DepGraph.

(** ** sync_conda_forge.py *)

Module SyncCondaForge.
Import Py.

Definition bytes : Type := list byte.

#[global] Instance byte_eq_dec : EqDecision byte := Byte.byte_eq_dec.

(** [bytes.hex()]: two lower-case hexadecimal digits per byte. *)
Definition hexdigit (n : N) : ascii :=
  ascii_of_N (if (n <? 10)%N then 48 + n else 87 + n)%N.

Definition hex_byte (b : byte) : string :=
  String (hexdigit (Byte.to_N b / 16)%N)
         (String (hexdigit (Byte.to_N b mod 16)%N) EmptyString).

Fixpoint hex (bs : bytes) : string :=
  match bs with
  | [] => EmptyString
  | b :: bs' => hex_byte b ++ hex bs'
  end.

Definition CHANNEL_URL : string :=
  "https://conda.anaconda.org/conda-forge/linux-64".

(** The index: [index.get("shards", {})] and [index.get("info", {})]. *)
Record index_info : Type := mkInfo { shards_base_url : option string }.

Record index : Type := mkIndex {
  shards : gmap string bytes;
  info : index_info;
}.

(** [get_shard_url] *)
Definition get_shard_url (ii : index_info) (shard_hash : bytes) : string :=
  let hash_hex := hex shard_hash in
  let base_url := default "" (shards_base_url ii) in
  if truthy (Some base_url) then base_url ++ hash_hex ++ ".msgpack.zst"
  else CHANNEL_URL ++ "/" ++ hash_hex ++ ".msgpack.zst".

(** One build variant inside a shard; every key is optional, and
    [other_keys] lists the keys the scripts never read. *)
Record package_record : Type := mkRecord {
  version : option string;
  build_number : option Z;
  build : option string;
  depends : option (list string);
  other_keys : list string;
}.

Record shard : Type := mkShard {
  packages : option (pydict package_record);
  packages_conda : option (pydict package_record);
}.

(** One value of the upstream snapshot deps.json. *)
Record snapshot_entry : Type := mkSnap {
  s_version : string;
  s_build_number : Z;
  s_build : string;
  s_depends : list string;
}.

(** The world outside the script: [urllib.request.urlopen(url).read()]
    ([None] when it raises), [hashlib.sha256(data).digest()], and
    [msgpack.unpackb(zstandard.decompress(data))] ([None] when either
    raises). *)
Record Env : Type := mkEnv {
  urlopen : string -> option bytes;
  sha256 : bytes -> bytes;
  unpack : bytes -> option shard;
}.

Inductive error : Type :=
| TransportError
| HashMismatch (expected actual : string)
| DecodeError.

(** [download_shard]. The shard directory is a map from the hexadecimal
    hash (the file name stem) to the file's bytes; the result pairs the
    returned value or raised exception with the directory afterwards. *)
Definition download_shard (E : Env) (shards_dir : gmap string bytes)
           (url : string) (shard_hash : bytes)
  : (error + shard) * gmap string bytes :=
  let hash_hex := hex shard_hash in
  match shards_dir !! hash_hex with
  | Some cached =>
      (match unpack E cached with
       | Some sh => inr sh
       | None => inl DecodeError
       end, shards_dir)
  | None =>
      match urlopen E url with
      | None => (inl TransportError, shards_dir)
      | Some data =>
          let actual_hash := sha256 E data in
          if decide (actual_hash = shard_hash) then
            let shards_dir' := <[hash_hex := data]> shards_dir in
            (match unpack E data with
             | Some sh => inr sh
             | None => inl DecodeError
             end, shards_dir')
          else (inl (HashMismatch hash_hex (hex actual_hash)), shards_dir)
      end
  end.

(** [parse_version]: the leading digits of a segment are kept. *)
Definition parse_version (ver : string) : list Z :=
  (fun p => let num := take_while isdigit p in
            match num with
            | EmptyString => 0
            | _ => int num
            end)
    <$> split "." (replace "-" "." ver).

(** [key > latest_key] on pairs (parsed version, build number). *)
Definition key_gtb (k1 k2 : list Z * Z) : bool :=
  tuple_gtb (fst k1) (fst k2)
  || (bool_decide (fst k1 = fst k2) && (snd k2 <? snd k1)).

(** Truthiness of a record: a non-empty dict. *)
Definition record_truthy (r : package_record) : bool :=
  match version r, build_number r, build r, depends r, other_keys r with
  | None, None, None, None, [] => false
  | _, _, _, _, _ => true
  end.

(** [extract_latest_from_shard] *)
Definition extract_latest_from_shard (sh : shard) : option snapshot_entry :=
  let pkgs := dupdate (default [] (packages sh))
                      (default [] (packages_conda sh)) in
  match pkgs with
  | [] => None
  | _ :: _ =>
      let '(latest, _) :=
        fold_left
          (fun (acc : option package_record * (list Z * Z)) r =>
             let key := (parse_version (default "" (version r)),
                         default 0 (build_number r)) in
             if key_gtb key (snd acc) then (Some r, key) else acc)
          (dvalues pkgs) (None, ([], 0)) in
      match latest with
      | Some r =>
          if record_truthy r then
            Some (mkSnap (default "" (version r))
                         (default 0 (build_number r))
                         (default "" (build r))
                         (default [] (depends r)))
          else None
      | None => None
      end
  end.

Record update : Type := mkUpdate {
  u_name : string; u_old : string; u_new : string;
}.

(** [find_updates] *)
Definition find_updates (old_deps new_deps : pydict snapshot_entry)
  : list update :=
  kv ← new_deps;
  let old_ver := match dget (fst kv) old_deps with
                 | Some e => s_version e
                 | None => "(new)"
                 end in
  if String.eqb old_ver (s_version (snd kv)) then []
  else [mkUpdate (fst kv) old_ver (s_version (snd kv))].

(** The local durable state: deps.json and tracked_hashes.json (which
    may not exist yet) and the shard directory. *)
Record state : Type := mkState {
  deps_file : option (pydict snapshot_entry);
  hashes_file : option (gmap string string);
  shards_dir : gmap string bytes;
}.

(** The four accumulators of the classification loop of [main]. *)
Record diff : Type := mkDiff {
  new_hashes : gmap string string;
  missing : list string;
  changed : list string;
  unchanged : nat;
}.

(** The test [old_hashes.get(name) == hash_hex and name in old_deps]. *)
Definition hash_unchanged (old_hashes : gmap string string)
           (old_deps : pydict snapshot_entry) (n hash_hex : string) : bool :=
  bool_decide (old_hashes !! n = Some hash_hex) && dmem n old_deps.

Definition classify_step (shards_map : gmap string bytes)
           (old_hashes : gmap string string)
           (old_deps : pydict snapshot_entry) (d : diff) (n : string)
  : diff :=
  match shards_map !! n with
  | None => mkDiff (new_hashes d) (missing d ++ [n])%list (changed d)
                   (unchanged d)
  | Some shard_hash =>
      let hash_hex := hex shard_hash in
      let nh := <[n := hash_hex]> (new_hashes d) in
      if hash_unchanged old_hashes old_deps n hash_hex
      then mkDiff nh (missing d) (changed d) (S (unchanged d))
      else mkDiff nh (missing d) (changed d ++ [n])%list (unchanged d)
  end.

(** The branch of the loop body a name takes. *)
Inductive class : Type := Missing | Unchanged | Changed.

#[global] Instance class_eq_dec : EqDecision class.
Proof. solve_decision. Defined.

Definition classify_name (shards_map : gmap string bytes)
           (old_hashes : gmap string string)
           (old_deps : pydict snapshot_entry) (n : string) : class :=
  match shards_map !! n with
  | None => Missing
  | Some shard_hash =>
      if hash_unchanged old_hashes old_deps n (hex shard_hash)
      then Unchanged else Changed
  end.

(** [for name in sorted(package_names)] *)
Definition classify (shards_map : gmap string bytes)
           (old_hashes : gmap string string)
           (old_deps : pydict snapshot_entry)
           (package_names : gset string) : diff :=
  fold_left (classify_step shards_map old_hashes old_deps)
            (sorted (elements package_names))
            (mkDiff ∅ [] [] O).

(** One iteration of [for name in changed]: any exception is caught and
    the name is skipped. *)
Definition fetch_step (E : Env) (idx : index)
           (acc : pydict snapshot_entry * gmap string bytes) (n : string)
  : pydict snapshot_entry * gmap string bytes :=
  match shards idx !! n with
  | None => acc
  | Some shard_hash =>
      let url := get_shard_url (info idx) shard_hash in
      let '(r, dir') := download_shard E (snd acc) url shard_hash in
      match r with
      | inr sh =>
          match extract_latest_from_shard sh with
          | Some e => (dset n e (fst acc), dir')
          | None => (fst acc, dir')
          end
      | inl _ => (fst acc, dir')
      end
  end.

Definition fetch_loop (E : Env) (idx : index) (names : list string)
           (acc : pydict snapshot_entry * gmap string bytes) :=
  fold_left (fetch_step E idx) names acc.

Record args : Type := mkArgs { check : bool; list_changed : bool }.

Record outcome : Type := mkOutcome {
  final : state;
  report : option diff;
  updates : list update;
}.

(** [main], after argument parsing and [download_shards_index]: the
    tracked names and the index are given. *)
Definition main (E : Env) (a : args) (package_names : gset string)
           (idx : index) (st : state) : outcome :=
  if bool_decide (package_names = ∅) then mkOutcome st None []
  else
    let old_deps := default [] (deps_file st) in
    let old_hashes := default ∅ (hashes_file st) in
    let d := classify (shards idx) old_hashes old_deps package_names in
    if list_changed a then mkOutcome st (Some d) []
    else
      let '(new_deps, dir') :=
        fetch_loop E idx (changed d) (old_deps, shards_dir st) in
      let ups := find_updates old_deps new_deps in
      if check a
      then mkOutcome (mkState (deps_file st) (hashes_file st) dir')
                     (Some d) ups
      else mkOutcome (mkState (Some new_deps) (Some (new_hashes d)) dir')
                     (Some d) ups.

(** The bytes [download_shard] ends up decoding for a hash, if any: the
    cached file when there is one, otherwise the download when it arrives
    and its digest is the expected one. *)
Definition resolve (E : Env) (ii : index_info) (dir : gmap string bytes)
           (shard_hash : bytes) : option bytes :=
  match dir !! hex shard_hash with
  | Some cached => Some cached
  | None =>
      match urlopen E (get_shard_url ii shard_hash) with
      | Some data =>
          if decide (sha256 E data = shard_hash) then Some data else None
      | None => None
      end
  end.

(** The snapshot entry those bytes yield, if any. *)
Definition entry_of_bytes (E : Env) (o : option bytes)
  : option snapshot_entry :=
  match o with
  | Some data =>
      match unpack E data with
      | Some sh => extract_latest_from_shard sh
      | None => None
      end
  | None => None
  end.

(** A hash is settled in a shard directory when whatever would be decoded
    for it is already cached. *)
Definition settled (E : Env) (ii : index_info) (dir : gmap string bytes)
           (shard_hash : bytes) : Prop :=
  forall data, resolve E ii dir shard_hash = Some data ->
               dir !! hex shard_hash = Some data.

(** The records of a shard after [packages.update(packages.conda)], the
    key [(parse_version(ver), bn)] of a record, and the snapshot entry
    built from a record. *)
Definition merged_packages (sh : shard) : pydict package_record :=
  dupdate (default [] (packages sh)) (default [] (packages_conda sh)).

Definition record_key (r : package_record) : list Z * Z :=
  (parse_version (default "" (version r)), default 0 (build_number r)).

Definition entry_of_record (r : package_record) : snapshot_entry :=
  mkSnap (default "" (version r)) (default 0 (build_number r))
         (default "" (build r)) (default [] (depends r)).

(** What [urlopen] does with the request for the shard index: a
    response with a body and possibly an [ETag] header, an [HTTPError]
    with its status code, or any other exception. *)
Inductive response : Type :=
| Success (body : bytes) (etag : option string)
| HTTPError (code : Z)
| OtherError.

(** The remote index as a function of the [If-None-Match] header sent,
    and [msgpack.unpackb(zstandard.decompress(data))] for the index
    ([None] when either raises). *)
Record IndexEnv : Type := mkIndexEnv {
  http_get : option string -> response;
  unpack_index : bytes -> option index;
}.

(** The files repodata_shards.msgpack.zst and shards_index_etag. *)
Record index_files : Type := mkIndexFiles {
  index_cache : option bytes;
  etag_cache : option string;
}.

Inductive index_error : Type :=
| IndexHTTPError (code : Z)
| IndexOtherError
| IndexCacheMissing
| IndexDecodeError.

(** The [If-None-Match] header of the request, if any. *)
Definition if_none_match (force : bool) (f : index_files) : option string :=
  match force, etag_cache f, index_cache f with
  | false, Some etag, Some _ => Some (strip etag)
  | _, _, _ => None
  end.

(** [download_shards_index]: the value returned or the exception
    raised, and the two files afterwards. *)
Definition download_shards_index (IE : IndexEnv) (force : bool)
           (f : index_files)
  : (index_error + index * bool) * index_files :=
  match http_get IE (if_none_match force f) with
  | Success data etag =>
      let f' := mkIndexFiles (Some data)
                  (if truthy etag then etag else etag_cache f) in
      (match unpack_index IE data with
       | Some idx => inr (idx, true)
       | None => inl IndexDecodeError
       end, f')
  | HTTPError code =>
      if code =? 304 then
        (match index_cache f with
         | Some cached =>
             match unpack_index IE cached with
             | Some idx => inr (idx, false)
             | None => inl IndexDecodeError
             end
         | None => inl IndexCacheMissing
         end, f)
      else (inl (IndexHTTPError code), f)
  | OtherError => (inl IndexOtherError, f)
  end.


End SyncCondaForge.

(** ** The version semantics in the words of the specification *)

Module Spec.
Import Py.

(** Split on every character accepted by [is_sep]. *)
Fixpoint split_on (is_sep : ascii -> bool) (s : string) : list string :=
  match s with
  | EmptyString => [EmptyString]
  | String c s' =>
      if is_sep c then EmptyString :: split_on is_sep s'
      else match split_on is_sep s' with
           | [] => [String c EmptyString]
           | w :: ws => String c w :: ws
           end
  end.

Definition is_separator (c : ascii) : bool :=
  Ascii.eqb c "." || Ascii.eqb c "-".

(** The leading maximal run of decimal digits of a segment, as a
    number; 0 when the segment does not start with a digit. *)
Fixpoint leading_run (acc : Z) (seg : string) : Z :=
  match seg with
  | EmptyString => acc
  | String c seg' =>
      if isdigit c then leading_run (10 * acc + digit_value c) seg'
      else acc
  end.

(** [parseVersion] of section 4.1. *)
Definition parseVersion (s : string) : list Z :=
  leading_run 0 <$> split_on is_separator s.

End Spec.

(** ** Concrete inputs used below *)

Module Examples.
Import Py.

(** Package [B] at 1.2.0 exporting itself with [upper_bound] x.x, and
    package [A] with host dependency [B]. *)
Definition data_AB : pydict GenDeps.entry :=
  [("A", GenDeps.mkEntry "0.1" [("B", "")] []);
   ("B", GenDeps.mkEntry "1.2.0" []
           [GenDeps.PinSubpackage (Some "B") false None (Some "x.x")
                                  "weak"])].

Definition packages_AB : list DepGraph.pkg_row :=
  fst (DepGraph.build_graph data_AB).
Definition edges_AB : list DepGraph.edge_row :=
  snd (DepGraph.build_graph data_AB).

Definition upstream_B (v : string) : gmap string DepGraph.upstream_info :=
  {[ "B" := DepGraph.mkUp (Some v) ]}.

(** Package [A] with host dependency [B], and [B] with host dependencies
    [C] and [D]: two chains of two hops start at [A]. *)
Definition data_chain : pydict GenDeps.entry :=
  [("A", GenDeps.mkEntry "1" [("B", "")] []);
   ("B", GenDeps.mkEntry "1" [("C", ""); ("D", ">=2")] [])].

Definition packages_chain : list DepGraph.pkg_row :=
  fst (DepGraph.build_graph data_chain).
Definition edges_chain : list DepGraph.edge_row :=
  snd (DepGraph.build_graph data_chain).


(** A remote that serves one byte whose digest is not the expected one. *)
Definition env_corrupt : SyncCondaForge.Env :=
  SyncCondaForge.mkEnv (fun _ => Some [x01]) (fun _ => [xff])
                       (fun _ => Some (SyncCondaForge.mkShard None None)).

(** A remote that serves, for every shard, verified bytes that decode to
    a shard without any package. *)
Definition env_empty_shard : SyncCondaForge.Env :=
  SyncCondaForge.mkEnv (fun _ => Some [x01]) (fun _ => [xab])
                       (fun _ => Some (SyncCondaForge.mkShard (Some []) None)).

Definition index_zlib : SyncCondaForge.index :=
  SyncCondaForge.mkIndex {[ "zlib" := [xab] ]} (SyncCondaForge.mkInfo None).

Definition full_sync : SyncCondaForge.args :=
  SyncCondaForge.mkArgs false false.

Definition fresh_state : SyncCondaForge.state :=
  SyncCondaForge.mkState None None ∅.

(** A shard with two builds of one package, in [packages.conda]. *)
Definition shard_two_builds : SyncCondaForge.shard :=
  SyncCondaForge.mkShard None
    (Some [("zlib-1.2.0-h0.conda",
            SyncCondaForge.mkRecord (Some "1.2.0") (Some 0) (Some "h0")
                                    (Some ["libgcc"]) ["name"]);
           ("zlib-1.10.0-h1.conda",
            SyncCondaForge.mkRecord (Some "1.10.0") (Some 1) (Some "h1")
                                    (Some ["libgcc"]) ["name"])]).

(** A remote that serves verified bytes decoding to that shard. *)
Definition env_two_builds : SyncCondaForge.Env :=
  SyncCondaForge.mkEnv (fun _ => Some [x01]) (fun _ => [xab])
                       (fun _ => Some shard_two_builds).

(** The same codec with the network down. *)
Definition env_offline : SyncCondaForge.Env :=
  SyncCondaForge.mkEnv (fun _ => None) (fun _ => [])
                       (fun _ => Some shard_two_builds).

(** An index server that knows one version of the index, tagged v1. *)
Definition index_env : SyncCondaForge.IndexEnv :=
  SyncCondaForge.mkIndexEnv
    (fun h => match h with
              | None => SyncCondaForge.Success [x01] (Some " v1 ")
              | Some "v1" => SyncCondaForge.HTTPError 304
              | Some _ => SyncCondaForge.Success [x01] (Some " v1 ")
              end)
    (fun _ => Some index_zlib).

Definition no_index_files : SyncCondaForge.index_files :=
  SyncCondaForge.mkIndexFiles None None.

(** The same remote, with a body that cannot be decoded. *)
Definition index_env_garbled : SyncCondaForge.IndexEnv :=
  SyncCondaForge.mkIndexEnv (SyncCondaForge.http_get index_env)
                            (fun _ => None).

(** The rows of [packages_AB] with the export rule of [B] marked exact
    and strong. *)
Definition packages_AB_exact : list DepGraph.pkg_row :=
  [DepGraph.mkPkg "A" "0.1" [("B", "")] [];
   DepGraph.mkPkg "B" "1.2.0" []
     [GenDeps.PinSubpackage None true (Some "x.x.x") (Some "x.x") "strong"]].

(** Two renderer outputs with the same package name. *)
Definition out_first : GenDeps.output :=
  GenDeps.mkOutput "p" "1.0" "h0" [("zlib", "")] [].
Definition out_last : GenDeps.output :=
  GenDeps.mkOutput "p" "2.0" "h1" [("openssl", ">=3")] [].

End Examples.

(** * Properties *)

(** ** Lists, sorting and dictionaries *)

Lemma sorted_perm (l : list string) : Py.sorted l ≡ₚ l.
Proof. apply merge_sort_Permutation. Qed.

Lemma sorted_elem_of (l : list string) (x : string) :
  x ∈ Py.sorted l <-> x ∈ l.
Proof. by rewrite sorted_perm. Qed.

Lemma sorted_NoDup (l : list string) : NoDup l -> NoDup (Py.sorted l).
Proof. by rewrite sorted_perm. Qed.

Lemma sorted_StronglySorted (l : list string) :
  StronglySorted String.le (Py.sorted l).
Proof. apply StronglySorted_merge_sort; apply _. Qed.

Lemma string_compare_refl (s : string) : String.compare s s = Eq.
Proof.
  induction s as [|a s IH]; simpl; [done|].
  unfold Ascii.compare. by rewrite N.compare_refl.
Qed.

Lemma string_compare_Lt_trans (s1 s2 s3 : string) :
  String.compare s1 s2 = Lt -> String.compare s2 s3 = Lt ->
  String.compare s1 s3 = Lt.
Proof.
  revert s2 s3.
  induction s1 as [|a1 s1 IH]; intros [|a2 s2] [|a3 s3] H12 H23;
    simpl in *; try done.
  destruct (Ascii.compare a1 a2) eqn:Ha12; try done.
  - apply Ascii.compare_eq_iff in Ha12 as ->.
    destruct (Ascii.compare a2 a3); try done. eauto.
  - destruct (Ascii.compare a2 a3) eqn:Ha23; try done.
    + apply Ascii.compare_eq_iff in Ha23 as ->. by rewrite Ha12.
    + assert (Ascii.compare a1 a3 = Lt) as ->; [|done].
      unfold Ascii.compare in *.
      apply N.compare_lt_iff. etrans; by apply N.compare_lt_iff.
Qed.

Lemma string_compare_Gt_Lt (s1 s2 : string) :
  String.compare s1 s2 = Gt <-> String.compare s2 s1 = Lt.
Proof.
  rewrite (String.compare_antisym s2 s1).
  destruct (String.compare s1 s2); simpl; split; congruence.
Qed.

Lemma compare3_antisym (a b : string * string * string) :
  Py.compare3 a b = CompOpp (Py.compare3 b a).
Proof.
  unfold Py.compare3.
  rewrite (String.compare_antisym (b.1.1) (a.1.1)).
  rewrite (String.compare_antisym (b.1.2) (a.1.2)).
  rewrite (String.compare_antisym (b.2) (a.2)).
  destruct (String.compare (a.1.1) (b.1.1)); simpl; try done.
  destruct (String.compare (a.1.2) (b.1.2)); simpl; try done.
  by destruct (String.compare (a.2) (b.2)).
Qed.

Lemma compare3_Lt_trans (a b c : string * string * string) :
  Py.compare3 a b = Lt -> Py.compare3 b c = Lt -> Py.compare3 a c = Lt.
Proof.
  unfold Py.compare3.
  destruct (String.compare a.1.1 b.1.1) eqn:H1; try done.
  - apply String.compare_eq_iff in H1 as ->.
    destruct (String.compare b.1.1 c.1.1) eqn:H1'; try done.
    destruct (String.compare a.1.2 b.1.2) eqn:H2; try done.
    + apply String.compare_eq_iff in H2 as ->.
      destruct (String.compare b.1.2 c.1.2); try done.
      apply string_compare_Lt_trans.
    + destruct (String.compare b.1.2 c.1.2) eqn:H2'; try done.
      * apply String.compare_eq_iff in H2' as <-. by rewrite H2.
      * by rewrite (string_compare_Lt_trans _ _ _ H2 H2').
  - destruct (String.compare b.1.1 c.1.1) eqn:H1'; try done.
    + apply String.compare_eq_iff in H1' as <-. by rewrite H1.
    + by rewrite (string_compare_Lt_trans _ _ _ H1 H1').
Qed.

Lemma compare3_eq (a b : string * string * string) :
  Py.compare3 a b = Eq -> a = b.
Proof.
  destruct a as [[a1 a2] a3], b as [[b1 b2] b3]. unfold Py.compare3; simpl.
  destruct (String.compare a1 b1) eqn:H1; try done.
  destruct (String.compare a2 b2) eqn:H2; try done.
  intros H3.
  apply String.compare_eq_iff in H1, H2, H3. by subst.
Qed.

#[local] Instance le3_total : Total Py.le3.
Proof.
  intros a b. unfold Py.le3. rewrite (compare3_antisym b a).
  destruct (Py.compare3 a b); simpl; [left|left|right]; done.
Qed.

#[local] Instance le3_trans : Transitive Py.le3.
Proof.
  intros a b c. unfold Py.le3. intros Hab Hbc.
  destruct (Py.compare3 a b) eqn:H1; try done.
  - apply compare3_eq in H1 as ->. done.
  - destruct (Py.compare3 b c) eqn:H2; try done.
    + apply compare3_eq in H2 as <-. by rewrite H1.
    + by rewrite (compare3_Lt_trans _ _ _ H1 H2).
Qed.

Lemma sorted3_perm (l : list (string * string * string)) :
  Py.sorted3 l ≡ₚ l.
Proof. apply merge_sort_Permutation. Qed.

Lemma sorted3_StronglySorted (l : list (string * string * string)) :
  StronglySorted Py.le3 (Py.sorted3 l).
Proof. apply StronglySorted_merge_sort; apply _. Qed.

Lemma dget_dset_eq {V} (k : string) (v : V) (d : Py.pydict V) :
  Py.dget k (Py.dset k v d) = Some v.
Proof.
  induction d as [|[k' v'] d IH]; simpl.
  - by rewrite String.eqb_refl.
  - destruct (String.eqb k k') eqn:E; simpl; rewrite ?E.
    + by rewrite String.eqb_refl.
    + done.
Qed.

Lemma dget_dset_ne {V} (k k0 : string) (v : V) (d : Py.pydict V) :
  k <> k0 -> Py.dget k0 (Py.dset k v d) = Py.dget k0 d.
Proof.
  intros Hne. induction d as [|[k' v'] d IH]; simpl.
  - destruct (String.eqb k0 k) eqn:E; [|done].
    apply String.eqb_eq in E. congruence.
  - destruct (String.eqb k k') eqn:E; simpl.
    + apply String.eqb_eq in E as <-.
      destruct (String.eqb k0 k) eqn:E'; [|done].
      apply String.eqb_eq in E'. congruence.
    + by rewrite IH.
Qed.

Lemma dmem_dset {V} (k k0 : string) (v : V) (d : Py.pydict V) :
  Py.dmem k0 (Py.dset k v d) = (String.eqb k0 k || Py.dmem k0 d).
Proof.
  unfold Py.dmem. destruct (String.eqb k0 k) eqn:E.
  - apply String.eqb_eq in E as ->. by rewrite dget_dset_eq.
  - apply String.eqb_neq in E. by rewrite dget_dset_ne.
Qed.

(** ** Version Pattern Evaluator *)

Lemma split_replace_split_on (s : string) :
  Py.split "." (Py.replace "-" "." s) = Spec.split_on Spec.is_separator s.
Proof.
  induction s as [|c s IH]; simpl; [done|].
  unfold Spec.is_separator.
  destruct (Ascii.eqb c "-") eqn:Hd.
  - rewrite orb_true_r. simpl. by rewrite IH.
  - rewrite orb_false_r. destruct (Ascii.eqb c "."); by rewrite IH.
Qed.

Lemma int_acc_take_while (acc : Z) (seg : string) :
  Py.int_acc acc (Py.take_while Py.isdigit seg) = Spec.leading_run acc seg.
Proof.
  revert acc. induction seg as [|c seg IH]; intros acc; simpl; [done|].
  destruct (Py.isdigit c); simpl; [apply IH|done].
Qed.

(** The parser of sync_conda_forge.py is the parser of the specification. *)
Lemma sync_parse_version_spec (s : string) :
  SyncCondaForge.parse_version s = Spec.parseVersion s.
Proof.
  unfold SyncCondaForge.parse_version, Spec.parseVersion.
  rewrite split_replace_split_on. apply list_fmap_ext. intros _ seg _.
  rewrite <- int_acc_take_while. unfold Py.int.
  by destruct (Py.take_while Py.isdigit seg).
Qed.

Lemma leading_run_nonneg (acc : Z) (seg : string) :
  0 <= acc -> 0 <= Spec.leading_run acc seg.
Proof.
  revert acc. induction seg as [|c seg IH]; intros acc Hacc; simpl; [done|].
  destruct (Py.isdigit c) eqn:Hc; [|done].
  apply IH. unfold Py.isdigit in Hc. unfold Py.digit_value.
  apply andb_true_iff in Hc as [H1 H2].
  apply N.leb_le in H1. lia.
Qed.

(** The parser of the specification is total and never negative, and
    never returns the empty tuple. *)
Lemma parseVersion_nonneg (s : string) :
  Forall (fun z => 0 <= z) (Spec.parseVersion s)
  /\ Spec.parseVersion s <> [].
Proof.
  split.
  - unfold Spec.parseVersion. apply Forall_fmap, Forall_true.
    intros seg. by apply leading_run_nonneg.
  - unfold Spec.parseVersion. destruct s as [|c s]; simpl; [done|].
    destruct (Spec.is_separator c); [done|].
    by destruct (Spec.split_on Spec.is_separator s).
Qed.

(** C2: on the spec's own example the parser of dep_graph.py keeps the
    digit after "rc" and returns (2024,1,1), where the specification (and
    the parser of sync_conda_forge.py) returns (2024,1,0). *)
Theorem dep_graph_parse_version_keeps_inner_digits :
  DepGraph.parse_version "2024-01-rc1" = [2024; 1; 1]
  /\ Spec.parseVersion "2024-01-rc1" = [2024; 1; 0]
  /\ SyncCondaForge.parse_version "2024-01-rc1" = [2024; 1; 0]
  /\ DepGraph.parse_version "1.2.3" = [1; 2; 3].
Proof. repeat split; vm_compute; reflexivity. Qed.

(** C9: the two parsers return different tuples for "1.2rc3":
    dep_graph.py gives (1,23), sync_conda_forge.py gives (1,2). *)
Theorem parse_version_copies_differ :
  DepGraph.parse_version "1.2rc3" = [1; 23]
  /\ SyncCondaForge.parse_version "1.2rc3" = [1; 2]
  /\ DepGraph.parse_version "1.2rc3" <> SyncCondaForge.parse_version "1.2rc3".
Proof. repeat split; vm_compute; [reflexivity..|discriminate]. Qed.

Lemma digit_segments (s : string) :
  Forall (fun c => Py.isdigit c = true \/ c = "."%char)
         (list_ascii_of_string s) ->
  Forall (fun seg => Py.filter_chars Py.isdigit seg
                     = Py.take_while Py.isdigit seg)
         (Py.split "." s).
Proof.
  induction s as [|c s IH]; simpl; intros H.
  - by constructor.
  - apply Forall_cons in H as [Hc Hs]. specialize (IH Hs).
    destruct (Ascii.eqb c ".") eqn:Hdot.
    + by constructor.
    + destruct Hc as [Hc| ->]; [|by rewrite Ascii.eqb_refl in Hdot].
      destruct (Py.split "." s) as [|w ws]; simpl.
      * constructor; [simpl; by rewrite Hc|done].
      * apply Forall_cons in IH as [Hw Hws].
        constructor; [|done]. simpl. by rewrite Hc, Hw.
Qed.

Lemma replace_dash_chars (s : string) :
  Forall (fun c => Py.isdigit c = true \/ c = "."%char \/ c = "-"%char)
         (list_ascii_of_string s) ->
  Forall (fun c => Py.isdigit c = true \/ c = "."%char)
         (list_ascii_of_string (Py.replace "-" "." s)).
Proof.
  induction s as [|c s IH]; simpl; intros H; [done|].
  apply Forall_cons in H as [Hc Hs]. constructor; [|by apply IH].
  destruct (Ascii.eqb c "-") eqn:Hd; [by right|].
  destruct Hc as [?|[?| ->]]; [by left|by right|].
  by rewrite Ascii.eqb_refl in Hd.
Qed.

(** The two parsers agree on versions made of digits, "." and "-" only. *)
Lemma parse_version_copies_agree_on_numeric (v : string) :
  Forall (fun c => Py.isdigit c = true \/ c = "."%char \/ c = "-"%char)
         (list_ascii_of_string v) ->
  DepGraph.parse_version v = SyncCondaForge.parse_version v.
Proof.
  intros H. apply replace_dash_chars, digit_segments in H.
  unfold DepGraph.parse_version, SyncCondaForge.parse_version.
  induction H as [|seg segs Hseg _ IH]; [done|].
  rewrite !fmap_cons, IH. by rewrite Hseg.
Qed.

Lemma firstn_repeat_le {A} (x : A) (k n : nat) :
  (k <= n)%nat -> firstn k (repeat x n) = repeat x k.
Proof.
  revert n. induction k as [|k IH]; intros [|n] Hk; simpl; try done; try lia.
  f_equal. apply IH. lia.
Qed.

Lemma version_bound_fold (v p : string) :
  DepGraph.version_bound v p
  = (firstn (Py.count "x" p) (DepGraph.parse_version v)
     ++ repeat 0 (Py.count "x" p - length (DepGraph.parse_version v)))%list.
Proof.
  unfold DepGraph.version_bound.
  set (n := Py.count "x" p). set (pv := DepGraph.parse_version v).
  assert (Heq : firstn n (pv ++ repeat 0 n)
                = (firstn n pv ++ repeat 0 (n - length pv))%list).
  { rewrite firstn_app. f_equal. apply firstn_repeat_le. lia. }
  destruct n as [|n'] eqn:Hn; [by destruct pv|done].
Qed.

(** With n the number of "x" in the pattern, [version_bound] is the
    first n components of [parse_version] of dep_graph.py, padded with
    zeros to length exactly n (the empty tuple when n = 0). *)
Lemma version_bound_prefix_padded :
  (forall v p : string,
      DepGraph.version_bound v p
      = (firstn (Py.count "x" p) (DepGraph.parse_version v)
         ++ repeat 0 (Py.count "x" p - length (DepGraph.parse_version v)))%list
      /\ length (DepGraph.version_bound v p) = Py.count "x" p)
  /\ DepGraph.version_bound "1.2" "x.x" = [1; 2]
  /\ DepGraph.version_bound "1" "x.x" = [1; 0]
  /\ (forall v : string, DepGraph.version_bound v "" = []).
Proof.
  split; [|repeat split; done].
  intros v p. split; [apply version_bound_fold|].
  rewrite version_bound_fold.
  rewrite length_app, length_firstn, repeat_length. lia.
Qed.

(** C3: for the version "1.2rc3" and the pattern "x.x" (two
    placeholders) [version_bound] returns (1,23), where the first two
    components of the specification's [parseVersion], and of the parser
    of sync_conda_forge.py, are (1,2): [version_bound] takes its
    components from [parse_version] of dep_graph.py, which keeps the
    digit after "rc". The examples of the specification, which have no
    such segment, evaluate as stated. *)
Theorem version_bound_keeps_inner_digits :
  Py.count "x" "x.x" = 2%nat
  /\ DepGraph.version_bound "1.2rc3" "x.x" = [1; 23]
  /\ firstn 2 (Spec.parseVersion "1.2rc3" ++ repeat 0 2)%list = [1; 2]
  /\ firstn 2 (SyncCondaForge.parse_version "1.2rc3" ++ repeat 0 2)%list
     = [1; 2]
  /\ DepGraph.version_bound "1.2" "x.x" = [1; 2]
  /\ DepGraph.version_bound "1" "x.x" = [1; 0].
Proof. repeat split; vm_compute; reflexivity. Qed.

(** Against the parser of the specification the prefix property holds
    for versions made of digits, "." and "-"; elsewhere [version_bound]
    inherits the digits that [parse_version] of dep_graph.py keeps. *)
Lemma version_bound_spec_numeric (v p : string) :
  Forall (fun c => Py.isdigit c = true \/ c = "."%char \/ c = "-"%char)
         (list_ascii_of_string v) ->
  DepGraph.version_bound v p
  = (firstn (Py.count "x" p) (Spec.parseVersion v)
     ++ repeat 0 (Py.count "x" p - length (Spec.parseVersion v)))%list.
Proof.
  intros H. rewrite <- sync_parse_version_spec.
  rewrite <- (parse_version_copies_agree_on_numeric v H).
  apply version_bound_fold.
Qed.

Lemma version_bound_inner_digits :
  DepGraph.version_bound "1.2rc3" "x.x" = [1; 23]
  /\ firstn 2 (Spec.parseVersion "1.2rc3") = [1; 2].
Proof. split; vm_compute; reflexivity. Qed.

(** ** Graph Builder *)

Lemma main_json_fold (l : list GenDeps.output) (acc : Py.pydict GenDeps.entry)
      (n : string) :
  Py.dget n
    (fold_left (fun result pkg =>
                  if Py.dmem (GenDeps.name pkg) result then result
                  else Py.dset (GenDeps.name pkg) (GenDeps.entry_of pkg) result)
               l acc)
  = match Py.dget n acc with
    | Some e => Some e
    | None => option_map GenDeps.entry_of
                (List.find (fun pkg => String.eqb n (GenDeps.name pkg)) l)
    end.
Proof.
  revert acc. induction l as [|pkg l IH]; intros acc; simpl.
  - by destruct (Py.dget n acc).
  - rewrite IH. unfold Py.dmem.
    destruct (String.eqb n (GenDeps.name pkg)) eqn:E.
    + apply String.eqb_eq in E as <-.
      destruct (Py.dget n acc) eqn:Hacc; [by rewrite Hacc|].
      by rewrite dget_dset_eq.
    + apply String.eqb_neq in E.
      destruct (Py.dget (GenDeps.name pkg) acc); [done|].
      by rewrite dget_dset_ne.
Qed.

(** C8, as the code has it: the record emitted for a package name is the
    first renderer output with that name; later outputs with the same
    name are ignored. *)
Theorem main_json_first_record_wins (all_pkgs : list GenDeps.output)
        (n : string) :
  Py.dget n (GenDeps.main_json all_pkgs)
  = option_map GenDeps.entry_of
      (List.find (fun pkg => String.eqb n (GenDeps.name pkg)) all_pkgs).
Proof. unfold GenDeps.main_json. by rewrite main_json_fold. Qed.

(** C8, as stated, fails: of two outputs named "p" the emitted record is
    not the last one. *)
Lemma main_json_last_record_not_emitted :
  Py.dget "p" (GenDeps.main_json [Examples.out_first; Examples.out_last])
  <> Some (GenDeps.entry_of Examples.out_last).
Proof. vm_compute. discriminate. Qed.

(** ** Metadata Store queries *)

Lemma all_nodes_NoDup (packages : list DepGraph.pkg_row)
      (edges : list DepGraph.edge_row) :
  NoDup (DepGraph._all_nodes packages edges).
Proof. apply NoDup_remove_dups. Qed.

Lemma all_nodes_elem (packages : list DepGraph.pkg_row)
      (edges : list DepGraph.edge_row) (x : string) :
  x ∈ DepGraph._all_nodes packages edges
  <-> x ∈ DepGraph.name <$> packages \/ x ∈ DepGraph.dst <$> edges.
Proof.
  unfold DepGraph._all_nodes, Py.distinct.
  by rewrite elem_of_remove_dups, elem_of_app.
Qed.

Lemma match_dep_elem (nodes : list string) (edges : list DepGraph.edge_row)
      (p d : string) :
  (p, d) ∈ DepGraph.match_dep nodes edges
  <-> exists e, e ∈ edges /\ DepGraph.src e = p /\ DepGraph.dst e = d
                /\ p ∈ nodes /\ d ∈ nodes.
Proof.
  unfold DepGraph.match_dep. rewrite list_elem_of_bind. split.
  - intros (e & H & He). exists e.
    apply list_elem_of_bind in H as (p' & H & Hp).
    apply list_elem_of_filter in Hp as [-> Hp].
    apply list_elem_of_bind in H as (d' & H & Hd).
    apply list_elem_of_filter in Hd as [-> Hd].
    apply list_elem_of_singleton in H. by simplify_eq.
  - intros (e & He & <- & <- & Hp & Hd). exists e. split; [|done].
    apply list_elem_of_bind. exists (DepGraph.src e). split.
    + apply list_elem_of_bind. exists (DepGraph.dst e). split.
      * by apply list_elem_of_singleton.
      * by apply list_elem_of_filter.
    + by apply list_elem_of_filter.
Qed.

Lemma rdeps_elem (packages : list DepGraph.pkg_row)
      (edges : list DepGraph.edge_row) (n p : string) :
  p ∈ DepGraph.rdeps packages edges n
  <-> (p, n) ∈ DepGraph.match_dep (DepGraph._all_nodes packages edges) edges.
Proof.
  unfold DepGraph.rdeps, Py.distinct.
  rewrite sorted_elem_of, elem_of_remove_dups, list_elem_of_fmap. split.
  - intros ([p' d] & -> & H). by apply list_elem_of_filter in H as [<- H].
  - intros H. exists (p, n). split; [done|]. by apply list_elem_of_filter.
Qed.

Lemma deps_elem (packages : list DepGraph.pkg_row)
      (edges : list DepGraph.edge_row) (n d : string) :
  d ∈ DepGraph.deps packages edges n
  <-> (n, d) ∈ DepGraph.match_dep (DepGraph._all_nodes packages edges) edges.
Proof.
  unfold DepGraph.deps, Py.distinct.
  rewrite sorted_elem_of, elem_of_remove_dups, list_elem_of_fmap. split.
  - intros ([p' d'] & -> & H). by apply list_elem_of_filter in H as [<- H].
  - intros H. exists (n, d). split; [done|]. by apply list_elem_of_filter.
Qed.

Lemma dep_chain_2hop_elem (packages : list DepGraph.pkg_row)
      (edges : list DepGraph.edge_row) (n p d1 d2 : string) :
  (p, d1, d2) ∈ DepGraph.dep_chain_2hop packages edges n
  <-> p = n
      /\ (p, d1) ∈ DepGraph.match_dep (DepGraph._all_nodes packages edges) edges
      /\ (d1, d2) ∈ DepGraph.match_dep (DepGraph._all_nodes packages edges)
                                       edges.
Proof.
  unfold DepGraph.dep_chain_2hop, DepGraph.match_dep2.
  rewrite list_elem_of_filter, list_elem_of_bind. simpl. split.
  - intros (-> & [p' d1'] & H & H1). split; [done|].
    apply list_elem_of_bind in H as ([d1'' d2'] & H & H2).
    apply list_elem_of_filter in H2 as [Heq H2].
    apply list_elem_of_singleton in H. simpl in *. by simplify_eq.
  - intros (-> & H1 & H2). split; [done|]. exists (n, d1). split; [|done].
    apply list_elem_of_bind. exists (d1, d2). split.
    + by apply list_elem_of_singleton.
    + by apply list_elem_of_filter.
Qed.

(** An edge row whose source is a package has both ends in the node
    table, so it is matched. *)
Lemma match_dep_edge (packages : list DepGraph.pkg_row)
      (edges : list DepGraph.edge_row) (e : DepGraph.edge_row) :
  e ∈ edges -> DepGraph.src e ∈ DepGraph.name <$> packages ->
  (DepGraph.src e, DepGraph.dst e)
    ∈ DepGraph.match_dep (DepGraph._all_nodes packages edges) edges.
Proof.
  intros He Hs. apply match_dep_elem. exists e. repeat split; try done.
  - apply all_nodes_elem. by left.
  - apply all_nodes_elem. right. by apply list_elem_of_fmap_2.
Qed.

(** What the four queries do give: [rdeps] and [deps] return sorted
    lists without duplicates; [_all_nodes] lists every package name and
    every edge destination once; [dep_chain_2hop] returns the chains the
    engine matched. *)
Lemma graph_queries_results (packages : list DepGraph.pkg_row)
        (edges : list DepGraph.edge_row) (n : string) :
  (NoDup (DepGraph.rdeps packages edges n)
   /\ StronglySorted String.le (DepGraph.rdeps packages edges n))
  /\ (NoDup (DepGraph.deps packages edges n)
      /\ StronglySorted String.le (DepGraph.deps packages edges n))
  /\ (NoDup (DepGraph._all_nodes packages edges)
      /\ forall x, x ∈ DepGraph._all_nodes packages edges
                   <-> x ∈ DepGraph.name <$> packages
                       \/ x ∈ DepGraph.dst <$> edges)
  /\ (forall p d1 d2,
         (p, d1, d2) ∈ DepGraph.dep_chain_2hop packages edges n
         <-> p = n
             /\ (p, d1) ∈ DepGraph.match_dep
                            (DepGraph._all_nodes packages edges) edges
             /\ (d1, d2) ∈ DepGraph.match_dep
                             (DepGraph._all_nodes packages edges) edges).
Proof.
  split; [split; [apply sorted_NoDup, NoDup_remove_dups
                 |apply sorted_StronglySorted]|].
  split; [split; [apply sorted_NoDup, NoDup_remove_dups
                 |apply sorted_StronglySorted]|].
  split; [split; [apply all_nodes_NoDup|intros x; apply all_nodes_elem]|].
  intros p d1 d2. apply dep_chain_2hop_elem.
Qed.


(** ** Rebuild Analyzer *)

Section check_rebuilds_loops.
Variables (packages : list DepGraph.pkg_row)
          (edges : list DepGraph.edge_row)
          (upstream : gmap string DepGraph.upstream_info).

Lemma dep_loop_spec (n lv uv ub : string) (rd : list string)
      (st : DepGraph.state) :
  DepGraph.consistent st ->
  let st' := DepGraph.dep_loop n lv uv ub rd st in
  DepGraph.consistent st'
  /\ (forall q, q ∈ snd st -> q ∈ snd st')
  /\ (forall dep, dep ∈ rd -> (dep, n) ∈ snd st')
  /\ (forall t, t ∈ fst st' ->
        t ∈ fst st
        \/ exists dep, dep ∈ rd /\ t = (dep, n, DepGraph.reason n lv uv ub)).
Proof.
  revert st. induction rd as [|dep rd IH]; intros st Hc; simpl.
  { split_and!; auto. intros ? H. by apply elem_of_nil in H. }
  unfold DepGraph.dep_loop in *. simpl.
  set (st1 := if decide ((dep, n) ∈ snd st) then st else _).
  assert (H1 : DepGraph.consistent st1
               /\ (forall q, q ∈ snd st -> q ∈ snd st1)
               /\ (dep, n) ∈ snd st1
               /\ (forall t, t ∈ fst st1 ->
                     t ∈ fst st \/ t = (dep, n, DepGraph.reason n lv uv ub))).
  { subst st1. destruct (decide ((dep, n) ∈ snd st)) as [Hin|Hni].
    - split_and!; auto.
    - destruct Hc as [Hnd Hseen]. simpl. split_and!.
      + split; simpl.
        * rewrite fmap_app. simpl. apply NoDup_app. split_and!; [done| |].
          -- intros q Hq Hq'. apply list_elem_of_singleton in Hq' as ->.
             by apply Hni, Hseen.
          -- apply NoDup_singleton.
        * intros q.
          rewrite fmap_app, elem_of_app, elem_of_union, elem_of_singleton.
          simpl. rewrite list_elem_of_singleton, Hseen. tauto.
      + intros q Hq. apply elem_of_union. by right.
      + apply elem_of_union. left. by apply elem_of_singleton.
      + intros t Ht. apply elem_of_app in Ht as [Ht|Ht]; [by left|].
        right. by apply list_elem_of_singleton in Ht. }
  destruct H1 as (Hc1 & Hmono1 & Hdep1 & Hnew1).
  destruct (IH st1 Hc1) as (Hc' & Hmono & Hall & Hnew).
  split; [done|]. split; [auto|]. split.
  - intros d Hd. apply elem_of_cons in Hd as [->|Hd]; auto.
  - intros t Ht. destruct (Hnew t Ht) as [Ht1|(d & Hd & ->)].
    + destruct (Hnew1 t Ht1) as [?| ->]; [by left|].
      right. exists dep. split; [apply elem_of_cons; by left|done].
    + right. exists d. split; [apply elem_of_cons; by right|done].
Qed.

Lemma triggers_upper_bound (lv uv : string) (exp : GenDeps.run_export) :
  DepGraph.triggers lv uv exp = true ->
  exists ub, DepGraph.get_upper_bound exp = Some ub.
Proof.
  unfold DepGraph.triggers.
  destruct (DepGraph.get_upper_bound exp); [eauto|done].
Qed.

Lemma export_loop_spec (n lv uv : string)
      (exports : list GenDeps.run_export) (st : DepGraph.state) :
  DepGraph.consistent st ->
  let st' := DepGraph.export_loop packages edges n lv uv exports st in
  DepGraph.consistent st'
  /\ (forall q, q ∈ snd st -> q ∈ snd st')
  /\ (forall exp dep,
        exp ∈ exports -> DepGraph.triggers lv uv exp = true ->
        dep ∈ DepGraph.rdeps packages edges n -> (dep, n) ∈ snd st')
  /\ (forall t, t ∈ fst st' ->
        t ∈ fst st
        \/ exists exp ub dep,
             exp ∈ exports /\ DepGraph.triggers lv uv exp = true
             /\ DepGraph.get_upper_bound exp = Some ub
             /\ dep ∈ DepGraph.rdeps packages edges n
             /\ t = (dep, n, DepGraph.reason n lv uv ub)).
Proof.
  revert st. induction exports as [|exp exports IH]; intros st Hc; simpl.
  { split_and!; auto. intros ? ? H. by apply elem_of_nil in H. }
  unfold DepGraph.export_loop in *. simpl.
  set (st1 := if DepGraph.triggers lv uv exp then _ else st).
  assert (H1 : DepGraph.consistent st1
               /\ (forall q, q ∈ snd st -> q ∈ snd st1)
               /\ (DepGraph.triggers lv uv exp = true ->
                   forall dep, dep ∈ DepGraph.rdeps packages edges n ->
                               (dep, n) ∈ snd st1)
               /\ (forall t, t ∈ fst st1 ->
                     t ∈ fst st
                     \/ exists ub dep,
                          DepGraph.triggers lv uv exp = true
                          /\ DepGraph.get_upper_bound exp = Some ub
                          /\ dep ∈ DepGraph.rdeps packages edges n
                          /\ t = (dep, n, DepGraph.reason n lv uv ub))).
  { subst st1. destruct (DepGraph.triggers lv uv exp) eqn:Htr.
    - destruct (triggers_upper_bound _ _ _ Htr) as [ub Hub]. rewrite Hub.
      simpl.
      destruct (dep_loop_spec n lv uv ub (DepGraph.rdeps packages edges n)
                              st Hc) as (Hc' & Hmono & Hall & Hnew).
      split_and!; auto.
      intros t Ht. destruct (Hnew t Ht) as [?|(dep & Hd & ->)]; [by left|].
      right. by exists ub, dep.
    - split_and!; auto. done. }
  destruct H1 as (Hc1 & Hmono1 & Hdep1 & Hnew1).
  destruct (IH st1 Hc1) as (Hc' & Hmono & Hall & Hnew).
  split; [done|]. split; [auto|]. split.
  - intros e dep He Htr Hdep. apply elem_of_cons in He as [->|He]; eauto.
  - intros t Ht. destruct (Hnew t Ht) as [Ht1|(e & ub & d & He & ?)].
    + destruct (Hnew1 t Ht1) as [?|(ub & d & ?)]; [by left|].
      right. exists exp, ub, d. split; [apply elem_of_cons; by left|done].
    + right. exists e, ub, d. split; [apply elem_of_cons; by right|done].
Qed.

Lemma package_loop_spec (rows : list DepGraph.pkg_row)
      (st : DepGraph.state) :
  DepGraph.consistent st ->
  let st' := DepGraph.package_loop packages edges upstream rows st in
  DepGraph.consistent st'
  /\ (forall q, q ∈ snd st -> q ∈ snd st')
  /\ (forall r uv exp dep,
        r ∈ rows -> DepGraph.examined upstream r = Some uv ->
        exp ∈ DepGraph.run_exports r ->
        DepGraph.triggers (DepGraph.version r) uv exp = true ->
        dep ∈ DepGraph.rdeps packages edges (DepGraph.name r) ->
        (dep, DepGraph.name r) ∈ snd st')
  /\ (forall t, t ∈ fst st' ->
        t ∈ fst st
        \/ exists r uv ub dep exp,
             r ∈ rows /\ DepGraph.examined upstream r = Some uv
             /\ exp ∈ DepGraph.run_exports r
             /\ DepGraph.triggers (DepGraph.version r) uv exp = true
             /\ DepGraph.get_upper_bound exp = Some ub
             /\ dep ∈ DepGraph.rdeps packages edges (DepGraph.name r)
             /\ t = (dep, DepGraph.name r,
                     DepGraph.reason (DepGraph.name r) (DepGraph.version r)
                                     uv ub)).
Proof.
  revert st. induction rows as [|r rows IH]; intros st Hc; simpl.
  { split_and!; auto. intros ? ? ? ? H. by apply elem_of_nil in H. }
  unfold DepGraph.package_loop in *. simpl.
  set (st1 := match DepGraph.examined upstream r with
              | Some _ => _ | None => st end).
  assert (H1 : DepGraph.consistent st1
               /\ (forall q, q ∈ snd st -> q ∈ snd st1)
               /\ (forall uv exp dep,
                     DepGraph.examined upstream r = Some uv ->
                     exp ∈ DepGraph.run_exports r ->
                     DepGraph.triggers (DepGraph.version r) uv exp = true ->
                     dep ∈ DepGraph.rdeps packages edges (DepGraph.name r) ->
                     (dep, DepGraph.name r) ∈ snd st1)
               /\ (forall t, t ∈ fst st1 ->
                     t ∈ fst st
                     \/ exists uv ub dep exp,
                          DepGraph.examined upstream r = Some uv
                          /\ exp ∈ DepGraph.run_exports r
                          /\ DepGraph.triggers (DepGraph.version r) uv exp
                             = true
                          /\ DepGraph.get_upper_bound exp = Some ub
                          /\ dep ∈ DepGraph.rdeps packages edges
                                                  (DepGraph.name r)
                          /\ t = (dep, DepGraph.name r,
                                  DepGraph.reason (DepGraph.name r)
                                    (DepGraph.version r) uv ub))).
  { subst st1. destruct (DepGraph.examined upstream r) as [uv|] eqn:Hex.
    - destruct (export_loop_spec (DepGraph.name r) (DepGraph.version r) uv
                  (DepGraph.run_exports r) st Hc)
        as (Hc' & Hmono & Hall & Hnew).
      split_and!; auto.
      + intros uv' exp dep [= <-]. eauto.
      + intros t Ht.
        destruct (Hnew t Ht) as [?|(exp & ub & dep & ? & ? & ? & ? & ?)];
          [by left|].
        right. by exists uv, ub, dep, exp.
    - split_and!; auto. done. }
  destruct H1 as (Hc1 & Hmono1 & Hdep1 & Hnew1).
  destruct (IH st1 Hc1) as (Hc' & Hmono & Hall & Hnew).
  split; [done|]. split; [auto|]. split.
  - intros r' uv exp dep Hr. apply elem_of_cons in Hr as [->|Hr]; eauto.
  - intros t Ht.
    destruct (Hnew t Ht) as [Ht1|(r' & uv & ub & d & e & Hr & ?)].
    + destruct (Hnew1 t Ht1) as [?|(uv & ub & d & e & ?)]; [by left|].
      right. exists r, uv, ub, d, e.
      split; [apply elem_of_cons; by left|done].
    + right. exists r', uv, ub, d, e.
      split; [apply elem_of_cons; by right|done].
Qed.

Lemma consistent_init : DepGraph.consistent ([], ∅).
Proof.
  split; simpl; [apply NoDup_nil; done|].
  intros q. split; intros H; [by apply elem_of_empty in H|].
  by apply elem_of_nil in H.
Qed.

Lemma check_rebuilds_elem (t : DepGraph.trigger) :
  t ∈ DepGraph.check_rebuilds packages edges upstream
  <-> t ∈ fst (DepGraph.package_loop packages edges upstream packages
                                     ([], ∅)).
Proof. unfold DepGraph.check_rebuilds. by rewrite sorted3_perm. Qed.

Lemma check_rebuilds_justified (t : DepGraph.trigger) :
  t ∈ DepGraph.check_rebuilds packages edges upstream ->
  DepGraph.justified packages edges upstream t.
Proof.
  rewrite check_rebuilds_elem. intros Ht.
  destruct (package_loop_spec packages ([], ∅) consistent_init)
    as (_ & _ & _ & Hnew).
  destruct (Hnew t Ht) as [H|(r & uv & ub & d & e & ?)].
  - by apply elem_of_nil in H.
  - by exists r, uv, ub, d, e.
Qed.

Lemma check_rebuilds_complete (r : DepGraph.pkg_row) (uv dep : string)
      (exp : GenDeps.run_export) :
  r ∈ packages -> DepGraph.examined upstream r = Some uv ->
  exp ∈ DepGraph.run_exports r ->
  DepGraph.triggers (DepGraph.version r) uv exp = true ->
  dep ∈ DepGraph.rdeps packages edges (DepGraph.name r) ->
  exists rsn,
    (dep, DepGraph.name r, rsn)
      ∈ DepGraph.check_rebuilds packages edges upstream.
Proof.
  intros Hr Hex He Htr Hdep.
  destruct (package_loop_spec packages ([], ∅) consistent_init)
    as ([_ Hseen] & _ & Hall & _).
  specialize (Hall r uv exp dep Hr Hex He Htr Hdep).
  apply Hseen, list_elem_of_fmap in Hall as ([[d n] rsn] & Heq & Hin).
  simpl in Heq. inversion Heq; subst. exists rsn.
  by apply check_rebuilds_elem.
Qed.

Lemma check_rebuilds_pairs_NoDup :
  NoDup (fst <$> DepGraph.check_rebuilds packages edges upstream).
Proof.
  unfold DepGraph.check_rebuilds. rewrite sorted3_perm.
  by destruct (package_loop_spec packages ([], ∅) consistent_init)
    as ([? _] & _).
Qed.

End check_rebuilds_loops.

(** C1: the end-to-end example (B 1.2.0 against upstream 1.3.0 triggers
    a rebuild of A, upstream 1.2.5 triggers none), and in general: the
    result is sorted, holds at most one trigger for each pair (dependent,
    package), every trigger is justified by a triggering export rule of
    an examined package and one of its reverse dependencies, and every
    reverse dependency of such a package has a trigger. *)
Theorem check_rebuilds_end_to_end :
  DepGraph.check_rebuilds Examples.packages_AB Examples.edges_AB
                          (Examples.upstream_B "1.3.0")
  = [("A", "B", "B 1.2.0 -> 1.3.0 (ub=x.x)")]
  /\ DepGraph.check_rebuilds Examples.packages_AB Examples.edges_AB
                             (Examples.upstream_B "1.2.5")
     = []
  /\ forall (packages : list DepGraph.pkg_row)
            (edges : list DepGraph.edge_row)
            (upstream : gmap string DepGraph.upstream_info),
      StronglySorted Py.le3 (DepGraph.check_rebuilds packages edges upstream)
      /\ NoDup (fst <$> DepGraph.check_rebuilds packages edges upstream)
      /\ (forall t, t ∈ DepGraph.check_rebuilds packages edges upstream ->
                    DepGraph.justified packages edges upstream t)
      /\ (forall r uv dep exp,
             r ∈ packages -> DepGraph.examined upstream r = Some uv ->
             exp ∈ DepGraph.run_exports r ->
             DepGraph.triggers (DepGraph.version r) uv exp = true ->
             dep ∈ DepGraph.rdeps packages edges (DepGraph.name r) ->
             exists rsn,
               (dep, DepGraph.name r, rsn)
                 ∈ DepGraph.check_rebuilds packages edges upstream).
Proof.
  split; [vm_compute; reflexivity|]. split; [vm_compute; reflexivity|].
  intros packages edges upstream. split_and!.
  - apply sorted3_StronglySorted.
  - apply check_rebuilds_pairs_NoDup.
  - apply check_rebuilds_justified.
  - apply check_rebuilds_complete.
Qed.

Lemma check_rebuilds_end_to_end_witness :
  exists rsn,
    ("A", "B", rsn)
      ∈ DepGraph.check_rebuilds Examples.packages_AB Examples.edges_AB
                                (Examples.upstream_B "1.3.0").
Proof.
  apply (proj2 (proj2 (proj2
           (proj2 (proj2 check_rebuilds_end_to_end)
                  Examples.packages_AB Examples.edges_AB
                  (Examples.upstream_B "1.3.0"))))
           (DepGraph.mkPkg "B" "1.2.0" []
              [GenDeps.PinSubpackage (Some "B") false None (Some "x.x")
                                     "weak"])
           "1.3.0" "A"
           (GenDeps.PinSubpackage (Some "B") false None (Some "x.x") "weak")).
  - apply list_elem_of_further, list_elem_of_here.
  - reflexivity.
  - apply list_elem_of_here.
  - reflexivity.
  - vm_compute. apply list_elem_of_here.
Defined.

(** C10: a package whose upstream snapshot entry has an empty (or no)
    version string gets no rebuild trigger, whatever its local version
    and export rules. *)
Theorem check_rebuilds_empty_upstream_version
        (packages : list DepGraph.pkg_row) (edges : list DepGraph.edge_row)
        (upstream : gmap string DepGraph.upstream_info)
        (n : string) (u : DepGraph.upstream_info) (dep rsn : string) :
  upstream !! n = Some u -> DepGraph.get_version u = "" ->
  (dep, n, rsn) ∉ DepGraph.check_rebuilds packages edges upstream.
Proof.
  intros Hu Hv Hin. apply check_rebuilds_justified in Hin.
  destruct Hin as (r & uv & ub & d & e & _ & Hex & _ & _ & _ & _ & Heq).
  inversion Heq; subst. unfold DepGraph.examined in Hex.
  rewrite Hu, Hv in Hex. by destruct (DepGraph.run_exports r).
Qed.

Lemma check_rebuilds_empty_upstream_version_witness :
  ("A", "B", "B 1.2.0 ->  (ub=x.x)")
    ∉ DepGraph.check_rebuilds Examples.packages_AB Examples.edges_AB
                              (Examples.upstream_B "").
Proof.
  apply (check_rebuilds_empty_upstream_version
           Examples.packages_AB Examples.edges_AB (Examples.upstream_B "")
           "B" (DepGraph.mkUp (Some "")) "A" "B 1.2.0 ->  (ub=x.x)").
  - reflexivity.
  - reflexivity.
Defined.

(** ** Shard Cache: fetching one shard *)

(** C5: with no cached file for the expected hash, a download whose
    digest differs raises the hash-mismatch error and leaves the shard
    directory as it was; a download whose digest matches is written under
    the hash-named path, whether or not decoding then succeeds, and the
    decoded content is what is returned. *)
Theorem download_shard_verify_then_persist
        (E : SyncCondaForge.Env) (dir : gmap string SyncCondaForge.bytes)
        (url : string) (shard_hash data : SyncCondaForge.bytes) :
  dir !! SyncCondaForge.hex shard_hash = None ->
  SyncCondaForge.urlopen E url = Some data ->
  (SyncCondaForge.sha256 E data <> shard_hash ->
   SyncCondaForge.download_shard E dir url shard_hash
   = (inl (SyncCondaForge.HashMismatch
             (SyncCondaForge.hex shard_hash)
             (SyncCondaForge.hex (SyncCondaForge.sha256 E data))),
      dir))
  /\ (SyncCondaForge.sha256 E data = shard_hash ->
      SyncCondaForge.download_shard E dir url shard_hash
      = (match SyncCondaForge.unpack E data with
         | Some sh => inr sh
         | None => inl SyncCondaForge.DecodeError
         end,
         <[SyncCondaForge.hex shard_hash := data]> dir)).
Proof.
  intros Hdir Hnet. unfold SyncCondaForge.download_shard.
  rewrite Hdir, Hnet. split; intros Hh.
  - by rewrite decide_False.
  - by rewrite decide_True.
Qed.

Lemma download_shard_verify_then_persist_witness :
  (SyncCondaForge.sha256 Examples.env_corrupt [x01] <> [xab] ->
   SyncCondaForge.download_shard Examples.env_corrupt ∅ "u" [xab]
   = (inl (SyncCondaForge.HashMismatch
             (SyncCondaForge.hex [xab])
             (SyncCondaForge.hex
                (SyncCondaForge.sha256 Examples.env_corrupt [x01]))),
      ∅))
  /\ (SyncCondaForge.sha256 Examples.env_corrupt [x01] = [xab] ->
      SyncCondaForge.download_shard Examples.env_corrupt ∅ "u" [xab]
      = (match SyncCondaForge.unpack Examples.env_corrupt [x01] with
         | Some sh => inr sh
         | None => inl SyncCondaForge.DecodeError
         end,
         <[SyncCondaForge.hex [xab] := [x01]]> ∅)).
Proof.
  apply (download_shard_verify_then_persist
           Examples.env_corrupt ∅ "u" [xab] [x01]).
  - reflexivity.
  - reflexivity.
Defined.

(** A cached file is trusted: no download, no verification, and the
    directory is left as it is. *)
Lemma download_shard_cached
      (E : SyncCondaForge.Env) (dir : gmap string SyncCondaForge.bytes)
      (url : string) (shard_hash cached : SyncCondaForge.bytes) :
  dir !! SyncCondaForge.hex shard_hash = Some cached ->
  SyncCondaForge.download_shard E dir url shard_hash
  = (match SyncCondaForge.unpack E cached with
     | Some sh => inr sh
     | None => inl SyncCondaForge.DecodeError
     end, dir).
Proof. intros H. unfold SyncCondaForge.download_shard. by rewrite H. Qed.

(** ** Shard Cache: classification of the tracked names *)

Section classify.
Variables (shards_map : gmap string SyncCondaForge.bytes)
          (old_hashes : gmap string string)
          (old_deps : Py.pydict SyncCondaForge.snapshot_entry).

Local Abbreviation step :=
  (SyncCondaForge.classify_step shards_map old_hashes old_deps).
Local Abbreviation class_of :=
  (SyncCondaForge.classify_name shards_map old_hashes old_deps).

Lemma classify_step_spec (d : SyncCondaForge.diff) (x : string) :
  match class_of x with
  | SyncCondaForge.Missing =>
      shards_map !! x = None
      /\ step d x
         = SyncCondaForge.mkDiff
             (SyncCondaForge.new_hashes d)
             (SyncCondaForge.missing d ++ [x])%list
             (SyncCondaForge.changed d) (SyncCondaForge.unchanged d)
  | SyncCondaForge.Unchanged =>
      exists h, shards_map !! x = Some h
      /\ step d x
         = SyncCondaForge.mkDiff
             (<[x := SyncCondaForge.hex h]> (SyncCondaForge.new_hashes d))
             (SyncCondaForge.missing d) (SyncCondaForge.changed d)
             (S (SyncCondaForge.unchanged d))
  | SyncCondaForge.Changed =>
      exists h, shards_map !! x = Some h
      /\ step d x
         = SyncCondaForge.mkDiff
             (<[x := SyncCondaForge.hex h]> (SyncCondaForge.new_hashes d))
             (SyncCondaForge.missing d)
             (SyncCondaForge.changed d ++ [x])%list
             (SyncCondaForge.unchanged d)
  end.
Proof.
  unfold SyncCondaForge.classify_name, SyncCondaForge.classify_step.
  destruct (shards_map !! x) as [h|]; [|done].
  destruct (SyncCondaForge.hash_unchanged _ _ _ _); by exists h.
Qed.

Lemma new_hashes_step_lookup (l : list string) (x n : string)
      (h : SyncCondaForge.bytes) (nh : gmap string string) :
  shards_map !! x = Some h ->
  (if decide (n ∈ l /\ is_Some (shards_map !! n))
   then SyncCondaForge.hex <$> shards_map !! n
   else <[x := SyncCondaForge.hex h]> nh !! n)
  = (if decide (n ∈ x :: l /\ is_Some (shards_map !! n))
     then SyncCondaForge.hex <$> shards_map !! n
     else nh !! n).
Proof.
  intros Hx. destruct (decide (n ∈ l /\ _)) as [[H1 H2]|Hno].
  - rewrite decide_True; [done|].
    split; [by apply list_elem_of_further|done].
  - destruct (decide (n = x)) as [->|Hne].
    + rewrite lookup_insert_eq, decide_True, Hx; [done|].
      split; [apply list_elem_of_here|by rewrite Hx].
    + rewrite lookup_insert_ne by done. rewrite decide_False; [done|].
      intros [H1 H2]. apply Hno. split; [|done].
      by apply elem_of_cons in H1 as [?|?].
Qed.

Lemma classify_fold (l : list string) (d : SyncCondaForge.diff) :
  SyncCondaForge.missing (fold_left step l d)
  = (SyncCondaForge.missing d
     ++ filter (fun n => class_of n = SyncCondaForge.Missing) l)%list
  /\ SyncCondaForge.changed (fold_left step l d)
     = (SyncCondaForge.changed d
        ++ filter (fun n => class_of n = SyncCondaForge.Changed) l)%list
  /\ (SyncCondaForge.unchanged (fold_left step l d)
      = SyncCondaForge.unchanged d
        + length (filter (fun n => class_of n = SyncCondaForge.Unchanged)
                         l))%nat
  /\ (forall n, SyncCondaForge.new_hashes (fold_left step l d) !! n
                = if decide (n ∈ l /\ is_Some (shards_map !! n))
                  then SyncCondaForge.hex <$> shards_map !! n
                  else SyncCondaForge.new_hashes d !! n).
Proof.
  revert d. induction l as [|x l IH]; intros d.
  { simpl. rewrite !filter_nil, !app_nil_r. split_and!; try done; simpl; lia. }
  cbn [fold_left].
  destruct (IH (step d x)) as (Hm & Hc & Hu & Hn).
  rewrite Hm, Hc, Hu. clear Hm Hc Hu.
  rewrite !filter_cons.
  pose proof (classify_step_spec d x) as Hs.
  destruct (class_of x) eqn:Hcl.
  - destruct Hs as [Hx Hs]. rewrite Hs in *. simpl.
    rewrite <- app_assoc. split_and!; try done.
    intros n. rewrite Hn. simpl.
    destruct (decide (n ∈ l /\ _)) as [[H1 H2]|Hno].
    + rewrite decide_True; [done|].
      split; [by apply list_elem_of_further|done].
    + rewrite decide_False; [done|].
      intros [H1 H2]. apply Hno. split; [|done].
      apply elem_of_cons in H1 as [->|?]; [|done].
      rewrite Hx in H2. by destruct H2.
  - destruct Hs as (h & Hx & Hs). rewrite Hs in *. simpl.
    split_and!; try done; try (simpl; lia).
    intros n. rewrite Hn. simpl. by apply new_hashes_step_lookup.
  - destruct Hs as (h & Hx & Hs). rewrite Hs in *. simpl.
    rewrite <- app_assoc. split_and!; try done.
    intros n. rewrite Hn. simpl. by apply new_hashes_step_lookup.
Qed.

End classify.

Lemma hash_unchanged_true (old_hashes : gmap string string)
      (old_deps : Py.pydict SyncCondaForge.snapshot_entry)
      (n hash_hex : string) :
  SyncCondaForge.hash_unchanged old_hashes old_deps n hash_hex = true
  <-> old_hashes !! n = Some hash_hex /\ is_Some (Py.dget n old_deps).
Proof.
  unfold SyncCondaForge.hash_unchanged, Py.dmem.
  rewrite andb_true_iff, bool_decide_eq_true.
  destruct (Py.dget n old_deps); split; intros [? H]; split; done.
Qed.

Lemma class_filter_lengths (f : string -> SyncCondaForge.class)
      (l : list string) :
  (length (filter (fun n => f n = SyncCondaForge.Missing) l)
   + length (filter (fun n => f n = SyncCondaForge.Changed) l)
   + length (filter (fun n => f n = SyncCondaForge.Unchanged) l))%nat
  = length l.
Proof.
  induction l as [|x l IH]; [done|].
  rewrite !filter_cons. destruct (f x); simpl; lia.
Qed.

Lemma sorted_elements_elem (names : gset string) (n : string) :
  n ∈ Py.sorted (elements names) <-> n ∈ names.
Proof. by rewrite sorted_elem_of, elem_of_elements. Qed.

(** The names classified as changed. *)
Lemma classify_changed_elem (shards_map : gmap string SyncCondaForge.bytes)
      (old_hashes : gmap string string)
      (old_deps : Py.pydict SyncCondaForge.snapshot_entry)
      (names : gset string) (n : string) :
  n ∈ SyncCondaForge.changed
        (SyncCondaForge.classify shards_map old_hashes old_deps names)
  <-> n ∈ names
      /\ exists h, shards_map !! n = Some h
           /\ ~ (old_hashes !! n = Some (SyncCondaForge.hex h)
                 /\ is_Some (Py.dget n old_deps)).
Proof.
  unfold SyncCondaForge.classify.
  destruct (classify_fold shards_map old_hashes old_deps
              (Py.sorted (elements names)) (SyncCondaForge.mkDiff ∅ [] [] O))
    as (_ & -> & _). simpl.
  rewrite list_elem_of_filter, sorted_elements_elem.
  unfold SyncCondaForge.classify_name.
  destruct (shards_map !! n) as [h|] eqn:Hs.
  - destruct (SyncCondaForge.hash_unchanged old_hashes old_deps n
                (SyncCondaForge.hex h)) eqn:Ht.
    + apply hash_unchanged_true in Ht.
      split; [by intros [? ?]|]. intros (_ & h' & [= <-] & Hno). done.
    + split; [|by intros [? ?]]. intros [_ Hn']. split; [done|].
      exists h. split; [done|]. intros Hyes.
      apply hash_unchanged_true in Hyes. congruence.
  - split; [by intros [? ?]|]. by intros (_ & h' & ? & _).
Qed.

(** The new hash table: the hexadecimal hash of every tracked name the
    index knows. *)
Lemma classify_new_hashes (shards_map : gmap string SyncCondaForge.bytes)
      (old_hashes : gmap string string)
      (old_deps : Py.pydict SyncCondaForge.snapshot_entry)
      (names : gset string) (n : string) :
  SyncCondaForge.new_hashes
    (SyncCondaForge.classify shards_map old_hashes old_deps names) !! n
  = if decide (n ∈ names)
    then SyncCondaForge.hex <$> shards_map !! n else None.
Proof.
  unfold SyncCondaForge.classify.
  destruct (classify_fold shards_map old_hashes old_deps
              (Py.sorted (elements names)) (SyncCondaForge.mkDiff ∅ [] [] O))
    as (_ & _ & _ & ->). simpl. rewrite lookup_empty.
  destruct (decide (n ∈ names)) as [Hin|Hni].
  - destruct (shards_map !! n) as [h|] eqn:Hs.
    + rewrite decide_True; [done|]. by rewrite sorted_elements_elem.
    + rewrite decide_False; [done|]. by intros [_ [? ?]].
  - rewrite decide_False; [done|]. rewrite sorted_elements_elem.
    by intros [? _].
Qed.

(** C4, as the code has it: a tracked name is missing iff the index has
    no shard for it; otherwise it is unchanged iff the recorded hash
    equals the index's hash and the snapshot has an entry for the name,
    and changed in every other case. Every tracked name falls in exactly
    one class: no name is listed twice, no missing name is listed as
    changed, and the three counts add up to the number of tracked
    names. *)
Theorem classify_spec (shards_map : gmap string SyncCondaForge.bytes)
        (old_hashes : gmap string string)
        (old_deps : Py.pydict SyncCondaForge.snapshot_entry)
        (names : gset string) :
  (forall n,
      n ∈ SyncCondaForge.missing
            (SyncCondaForge.classify shards_map old_hashes old_deps names)
      <-> n ∈ names /\ shards_map !! n = None)
  /\ (forall n,
         n ∈ SyncCondaForge.changed
               (SyncCondaForge.classify shards_map old_hashes old_deps names)
         <-> n ∈ names
             /\ exists h, shards_map !! n = Some h
                  /\ ~ (old_hashes !! n = Some (SyncCondaForge.hex h)
                        /\ is_Some (Py.dget n old_deps)))
  /\ NoDup (SyncCondaForge.missing
              (SyncCondaForge.classify shards_map old_hashes old_deps names))
  /\ NoDup (SyncCondaForge.changed
              (SyncCondaForge.classify shards_map old_hashes old_deps names))
  /\ (length (SyncCondaForge.missing
                (SyncCondaForge.classify shards_map old_hashes old_deps
                                         names))
      + length (SyncCondaForge.changed
                  (SyncCondaForge.classify shards_map old_hashes old_deps
                                           names))
      + SyncCondaForge.unchanged
          (SyncCondaForge.classify shards_map old_hashes old_deps names))%nat
     = size names.
Proof.
  split; [|split; [intros n; apply classify_changed_elem|]].
  all: unfold SyncCondaForge.classify.
  all: destruct (classify_fold shards_map old_hashes old_deps
                   (Py.sorted (elements names))
                   (SyncCondaForge.mkDiff ∅ [] [] O)) as (Hm & Hc & Hu & _).
  all: rewrite ?Hm, ?Hc, ?Hu; simpl; clear Hm Hc Hu.
  all: assert (Hnd : NoDup (Py.sorted (elements names)))
         by apply sorted_NoDup, NoDup_elements.
  - intros n. rewrite list_elem_of_filter, sorted_elements_elem.
    unfold SyncCondaForge.classify_name.
    destruct (shards_map !! n) as [h|]; [|tauto].
    destruct (SyncCondaForge.hash_unchanged _ _ _ _); split; intros [? ?];
      done.
  - split_and!.
    + by apply NoDup_filter.
    + by apply NoDup_filter.
    + rewrite class_filter_lengths.
      by rewrite (Permutation_length (sorted_perm (elements names))).
Qed.

(** C4, as stated, fails: a name whose recorded hash equals the index's
    hash but that has no snapshot entry is classified as changed, not as
    unchanged. *)
Lemma classify_equal_hash_no_snapshot_entry :
  ({[ "zlib" := SyncCondaForge.hex [xab] ]} : gmap string string) !! "zlib"
  = Some (SyncCondaForge.hex [xab])
  /\ SyncCondaForge.changed
       (SyncCondaForge.classify {[ "zlib" := [xab] ]}
          {[ "zlib" := SyncCondaForge.hex [xab] ]} [] {[ "zlib" ]})
     = ["zlib"]
  /\ SyncCondaForge.unchanged
       (SyncCondaForge.classify {[ "zlib" := [xab] ]}
          {[ "zlib" := SyncCondaForge.hex [xab] ]} [] {[ "zlib" ]})
     = O.
Proof. split_and!; vm_compute; reflexivity. Qed.

(** ** Shard Cache: a full sync run *)

Lemma hex_byte_decode (b : byte) :
  match SyncCondaForge.hex_byte b with
  | String c1 (String c2 EmptyString) =>
      let v := fun c : ascii =>
                 (if (N_of_ascii c <? 58)%N then N_of_ascii c - 48
                  else N_of_ascii c - 87)%N in
      Byte.of_N (16 * v c1 + v c2)%N
  | _ => None
  end = Some b.
Proof. destruct b; vm_compute; reflexivity. Qed.

Lemma hex_byte_inj (b b' : byte) :
  SyncCondaForge.hex_byte b = SyncCondaForge.hex_byte b' -> b = b'.
Proof.
  intros H. pose proof (hex_byte_decode b) as H1.
  rewrite H, hex_byte_decode in H1. congruence.
Qed.

Lemma hex_inj (h h' : SyncCondaForge.bytes) :
  SyncCondaForge.hex h = SyncCondaForge.hex h' -> h = h'.
Proof.
  revert h'. induction h as [|b h IH]; intros [|b' h'] H; try done.
  unfold SyncCondaForge.hex in H; fold SyncCondaForge.hex in H.
  unfold SyncCondaForge.hex_byte in H. cbn [String.append] in H.
  injection H as H1 H2 H3.
  assert (Hb : SyncCondaForge.hex_byte b = SyncCondaForge.hex_byte b').
  { unfold SyncCondaForge.hex_byte. by rewrite H1, H2. }
  apply hex_byte_inj in Hb as <-. f_equal. by apply IH.
Qed.

Section fetch.
Variables (E : SyncCondaForge.Env) (idx : SyncCondaForge.index).

Local Abbreviation resolved dir h :=
  (SyncCondaForge.resolve E (SyncCondaForge.info idx) dir h).
Local Abbreviation entry_at dir h :=
  (SyncCondaForge.entry_of_bytes E (resolved dir h)).

(** One iteration of the fetch loop, in terms of [resolve]. *)
Lemma fetch_step_resolved
      (deps : Py.pydict SyncCondaForge.snapshot_entry)
      (dir : gmap string SyncCondaForge.bytes) (n : string)
      (h : SyncCondaForge.bytes) :
  SyncCondaForge.shards idx !! n = Some h ->
  SyncCondaForge.fetch_step E idx (deps, dir) n
  = (match entry_at dir h with
     | Some e => Py.dset n e deps
     | None => deps
     end,
     match resolved dir h with
     | Some data => <[SyncCondaForge.hex h := data]> dir
     | None => dir
     end).
Proof.
  intros Hn.
  unfold SyncCondaForge.fetch_step, SyncCondaForge.download_shard,
    SyncCondaForge.entry_of_bytes, SyncCondaForge.resolve.
  rewrite Hn. simpl.
  destruct (dir !! SyncCondaForge.hex h) as [cached|] eqn:Hc.
  - rewrite (insert_id dir _ _ Hc).
    destruct (SyncCondaForge.unpack E cached) as [sh|]; [|done].
    by destruct (SyncCondaForge.extract_latest_from_shard sh).
  - destruct (SyncCondaForge.urlopen E _) as [data|]; [|done].
    destruct (decide (SyncCondaForge.sha256 E data = h)); [|done].
    destruct (SyncCondaForge.unpack E data) as [sh|]; [|done].
    by destruct (SyncCondaForge.extract_latest_from_shard sh).
Qed.

(** Caching what was resolved changes nothing that is resolved. *)
Lemma resolve_insert (dir : gmap string SyncCondaForge.bytes)
      (h h' : SyncCondaForge.bytes) (data : SyncCondaForge.bytes) :
  resolved dir h = Some data ->
  resolved (<[SyncCondaForge.hex h := data]> dir) h' = resolved dir h'.
Proof.
  intros Hr. unfold SyncCondaForge.resolve.
  destruct (decide (SyncCondaForge.hex h = SyncCondaForge.hex h'))
    as [Heq|Hne].
  - apply hex_inj in Heq as <-. rewrite lookup_insert_eq.
    by rewrite <- Hr.
  - by rewrite lookup_insert_ne.
Qed.

Lemma fetch_step_dir (deps : Py.pydict SyncCondaForge.snapshot_entry)
      (dir : gmap string SyncCondaForge.bytes) (n : string) :
  let st' := SyncCondaForge.fetch_step E idx (deps, dir) n in
  (forall h, resolved (snd st') h = resolved dir h)
  /\ (forall k v, dir !! k = Some v -> snd st' !! k = Some v)
  /\ (forall h, SyncCondaForge.shards idx !! n = Some h ->
                SyncCondaForge.settled E (SyncCondaForge.info idx)
                                       (snd st') h).
Proof.
  destruct (SyncCondaForge.shards idx !! n) as [h|] eqn:Hn; simpl.
  - rewrite (fetch_step_resolved _ _ _ _ Hn). simpl.
    destruct (resolved dir h) as [data|] eqn:Hr.
    + split_and!.
      * intros h'. by apply resolve_insert.
      * intros k v Hk.
        destruct (decide (SyncCondaForge.hex h = k)) as [<-|Hne].
        -- rewrite lookup_insert_eq. unfold SyncCondaForge.resolve in Hr.
           rewrite Hk in Hr. congruence.
        -- by rewrite lookup_insert_ne.
      * intros h' [= <-] data' Hr'.
        rewrite resolve_insert in Hr' by done.
        rewrite lookup_insert_eq. congruence.
    + split_and!; try done.
      intros h' [= <-] data' Hr'. congruence.
  - unfold SyncCondaForge.fetch_step. rewrite Hn. simpl.
    split_and!; done.
Qed.

Lemma fetch_step_deps (deps : Py.pydict SyncCondaForge.snapshot_entry)
      (dir : gmap string SyncCondaForge.bytes) (n : string) :
  let st' := SyncCondaForge.fetch_step E idx (deps, dir) n in
  (forall k, is_Some (Py.dget k deps) -> is_Some (Py.dget k (fst st')))
  /\ (forall h, SyncCondaForge.shards idx !! n = Some h ->
                Py.dget n (fst st') = None -> entry_at dir h = None).
Proof.
  destruct (SyncCondaForge.shards idx !! n) as [h|] eqn:Hn; simpl.
  - rewrite (fetch_step_resolved _ _ _ _ Hn). simpl.
    destruct (entry_at dir h) as [e|] eqn:He.
    + split.
      * intros k Hk. destruct (decide (n = k)) as [<-|Hne].
        -- by rewrite dget_dset_eq.
        -- by rewrite dget_dset_ne.
      * intros h' _. by rewrite dget_dset_eq.
    + split; [done|]. by intros h' [= <-].
  - unfold SyncCondaForge.fetch_step. rewrite Hn. simpl. done.
Qed.

Lemma settled_mono (dir dir' : gmap string SyncCondaForge.bytes)
      (h : SyncCondaForge.bytes) :
  (forall h', resolved dir' h' = resolved dir h') ->
  (forall k v, dir !! k = Some v -> dir' !! k = Some v) ->
  SyncCondaForge.settled E (SyncCondaForge.info idx) dir h ->
  SyncCondaForge.settled E (SyncCondaForge.info idx) dir' h.
Proof.
  intros Hres Hmono Hs data Hr. apply Hmono, Hs. by rewrite <- Hres.
Qed.

Lemma fetch_loop_spec (l : list string)
      (deps : Py.pydict SyncCondaForge.snapshot_entry)
      (dir : gmap string SyncCondaForge.bytes) :
  let st' := SyncCondaForge.fetch_loop E idx l (deps, dir) in
  (forall h, resolved (snd st') h = resolved dir h)
  /\ (forall k v, dir !! k = Some v -> snd st' !! k = Some v)
  /\ (forall n h, n ∈ l -> SyncCondaForge.shards idx !! n = Some h ->
                  SyncCondaForge.settled E (SyncCondaForge.info idx)
                                         (snd st') h)
  /\ (forall k, is_Some (Py.dget k deps) -> is_Some (Py.dget k (fst st')))
  /\ (forall n h, n ∈ l -> SyncCondaForge.shards idx !! n = Some h ->
                  Py.dget n (fst st') = None -> entry_at dir h = None).
Proof.
  revert deps dir. induction l as [|x l IH]; intros deps dir.
  { simpl. split_and!; try done; intros ? ? H; by apply elem_of_nil in H. }
  unfold SyncCondaForge.fetch_loop in *. cbn [fold_left].
  destruct (fetch_step_dir deps dir x) as (Hr1 & Hm1 & Hs1).
  destruct (fetch_step_deps deps dir x) as (Hk1 & He1).
  destruct (SyncCondaForge.fetch_step E idx (deps, dir) x)
    as [deps1 dir1] eqn:Hstep. simpl in *.
  destruct (IH deps1 dir1) as (Hr & Hm & Hs & Hk & He).
  split_and!.
  - intros h. by rewrite Hr, Hr1.
  - intros k v Hkv. by apply Hm, Hm1.
  - intros n h Hn Hsh. apply elem_of_cons in Hn as [->|Hn].
    + eapply settled_mono; [apply Hr|apply Hm|by apply Hs1].
    + by eapply Hs.
  - intros k Hkd. by apply Hk, Hk1.
  - intros n h Hn Hsh Hnone. apply elem_of_cons in Hn as [->|Hn].
    + apply He1; [done|].
      destruct (Py.dget x deps1) eqn:Hd; [|done].
      assert (Hsome : is_Some (Py.dget x deps1)) by (by rewrite Hd).
      apply Hk in Hsome. rewrite Hnone in Hsome. by destruct Hsome.
    + rewrite <- Hr1. by eapply He.
Qed.

(** Names that resolve to no entry and whose hash is settled are
    skipped without any effect. *)
Lemma fetch_loop_noop (l : list string)
      (deps : Py.pydict SyncCondaForge.snapshot_entry)
      (dir : gmap string SyncCondaForge.bytes) :
  (forall n h, n ∈ l -> SyncCondaForge.shards idx !! n = Some h ->
               entry_at dir h = None
               /\ SyncCondaForge.settled E (SyncCondaForge.info idx) dir h)
  -> SyncCondaForge.fetch_loop E idx l (deps, dir) = (deps, dir).
Proof.
  induction l as [|x l IH]; intros H; [done|].
  unfold SyncCondaForge.fetch_loop in *. cbn [fold_left].
  assert (Hstep : SyncCondaForge.fetch_step E idx (deps, dir) x
                  = (deps, dir)).
  { destruct (SyncCondaForge.shards idx !! x) as [h|] eqn:Hx.
    - rewrite (fetch_step_resolved _ _ _ _ Hx).
      destruct (H x h (list_elem_of_here _ _) Hx) as [He Hs].
      rewrite He. destruct (resolved dir h) as [data|] eqn:Hr; [|done].
      by rewrite (insert_id dir _ _ (Hs data Hr)).
    - unfold SyncCondaForge.fetch_step. by rewrite Hx. }
  rewrite Hstep. apply IH. intros n h Hn. apply H.
  by apply list_elem_of_further.
Qed.

End fetch.

Lemma main_full_sync (E : SyncCondaForge.Env) (names : gset string)
      (idx : SyncCondaForge.index) (st : SyncCondaForge.state) :
  names <> ∅ ->
  SyncCondaForge.main E (SyncCondaForge.mkArgs false false) names idx st
  = SyncCondaForge.mkOutcome
      (SyncCondaForge.mkState
         (Some (fst (SyncCondaForge.fetch_loop E idx
                  (SyncCondaForge.changed
                     (SyncCondaForge.classify (SyncCondaForge.shards idx)
                        (default ∅ (SyncCondaForge.hashes_file st))
                        (default [] (SyncCondaForge.deps_file st)) names))
                  (default [] (SyncCondaForge.deps_file st),
                   SyncCondaForge.shards_dir st))))
         (Some (SyncCondaForge.new_hashes
                  (SyncCondaForge.classify (SyncCondaForge.shards idx)
                     (default ∅ (SyncCondaForge.hashes_file st))
                     (default [] (SyncCondaForge.deps_file st)) names)))
         (snd (SyncCondaForge.fetch_loop E idx
                 (SyncCondaForge.changed
                    (SyncCondaForge.classify (SyncCondaForge.shards idx)
                       (default ∅ (SyncCondaForge.hashes_file st))
                       (default [] (SyncCondaForge.deps_file st)) names))
                 (default [] (SyncCondaForge.deps_file st),
                  SyncCondaForge.shards_dir st))))
      (Some (SyncCondaForge.classify (SyncCondaForge.shards idx)
               (default ∅ (SyncCondaForge.hashes_file st))
               (default [] (SyncCondaForge.deps_file st)) names))
      (SyncCondaForge.find_updates
         (default [] (SyncCondaForge.deps_file st))
         (fst (SyncCondaForge.fetch_loop E idx
                 (SyncCondaForge.changed
                    (SyncCondaForge.classify (SyncCondaForge.shards idx)
                       (default ∅ (SyncCondaForge.hashes_file st))
                       (default [] (SyncCondaForge.deps_file st)) names))
                 (default [] (SyncCondaForge.deps_file st),
                  SyncCondaForge.shards_dir st)))).
Proof.
  intros Hne. unfold SyncCondaForge.main.
  rewrite bool_decide_eq_false_2 by done. simpl.
  by destruct (SyncCondaForge.fetch_loop _ _ _ _).
Qed.

(** The names the second of two full syncs classifies as changed are the
    tracked, indexed names without a snapshot entry after the first. *)
Lemma second_run_changed (shards_map : gmap string SyncCondaForge.bytes)
      (old_hashes : gmap string string)
      (old_deps deps1 : Py.pydict SyncCondaForge.snapshot_entry)
      (names : gset string) (n : string) :
  n ∈ SyncCondaForge.changed
        (SyncCondaForge.classify shards_map
           (SyncCondaForge.new_hashes
              (SyncCondaForge.classify shards_map old_hashes old_deps names))
           deps1 names)
  <-> n ∈ names /\ is_Some (shards_map !! n) /\ Py.dget n deps1 = None.
Proof.
  rewrite classify_changed_elem. split.
  - intros (Hin & h & Hs & Hno). split; [done|]. split; [by rewrite Hs|].
    destruct (Py.dget n deps1) eqn:Hd; [|done]. exfalso. apply Hno.
    split; [|done]. rewrite classify_new_hashes, decide_True by done.
    by rewrite Hs.
  - intros (Hin & [h Hs] & Hd). split; [done|]. exists h. split; [done|].
    intros [_ Hsome]. rewrite Hd in Hsome. by destruct Hsome.
Qed.

(** C6, as the code has it: after a full sync, a second full sync over
    the same tracked names, index and remote leaves the snapshot, the
    tracked hashes and the shard directory exactly as the first left
    them; the names it reports as changed are the tracked, indexed names
    that still have no snapshot entry after the first run. *)
Theorem sync_twice_state_fixed (E : SyncCondaForge.Env) (names : gset string)
        (idx : SyncCondaForge.index) (st : SyncCondaForge.state) :
  SyncCondaForge.final
    (SyncCondaForge.main E (SyncCondaForge.mkArgs false false) names idx
       (SyncCondaForge.final
          (SyncCondaForge.main E (SyncCondaForge.mkArgs false false) names
                               idx st)))
  = SyncCondaForge.final
      (SyncCondaForge.main E (SyncCondaForge.mkArgs false false) names idx st)
  /\ forall d2,
      SyncCondaForge.report
        (SyncCondaForge.main E (SyncCondaForge.mkArgs false false) names idx
           (SyncCondaForge.final
              (SyncCondaForge.main E (SyncCondaForge.mkArgs false false)
                                   names idx st)))
      = Some d2 ->
      forall n,
        n ∈ SyncCondaForge.changed d2
        <-> n ∈ names
            /\ is_Some (SyncCondaForge.shards idx !! n)
            /\ Py.dget n
                 (default []
                    (SyncCondaForge.deps_file
                       (SyncCondaForge.final
                          (SyncCondaForge.main E
                             (SyncCondaForge.mkArgs false false) names idx
                             st))))
               = None.
Proof.
  destruct (decide (names = ∅)) as [Hemp|Hne].
  { unfold SyncCondaForge.main. rewrite !bool_decide_eq_true_2 by done.
    simpl. rewrite ?bool_decide_eq_true_2 by done. simpl. split; done. }
  rewrite (main_full_sync E names idx st Hne). simpl.
  set (old_deps := default [] (SyncCondaForge.deps_file st)).
  set (old_hashes := default ∅ (SyncCondaForge.hashes_file st)).
  set (d1 := SyncCondaForge.classify (SyncCondaForge.shards idx) old_hashes
                                     old_deps names).
  pose proof (fetch_loop_spec E idx (SyncCondaForge.changed d1) old_deps
                              (SyncCondaForge.shards_dir st)) as Hspec.
  cbv zeta in Hspec.
  destruct (SyncCondaForge.fetch_loop E idx (SyncCondaForge.changed d1)
              (old_deps, SyncCondaForge.shards_dir st))
    as [deps1 dir1] eqn:Hloop.
  simpl in *.
  destruct Hspec as (Hres & Hmono & Hset & Hkeys & Hent).
  rewrite (main_full_sync E names idx _ Hne). simpl.
  set (d2 := SyncCondaForge.classify (SyncCondaForge.shards idx)
               (SyncCondaForge.new_hashes d1) deps1 names).
  assert (Hch2 : forall n, n ∈ SyncCondaForge.changed d2
                           <-> n ∈ names
                               /\ is_Some (SyncCondaForge.shards idx !! n)
                               /\ Py.dget n deps1 = None)
    by (intros n; apply second_run_changed).
  assert (Hnoop : SyncCondaForge.fetch_loop E idx (SyncCondaForge.changed d2)
                    (deps1, dir1) = (deps1, dir1)).
  { apply fetch_loop_noop. intros n h Hn Hs.
    apply Hch2 in Hn as (Hin & _ & Hd).
    assert (Hn1 : n ∈ SyncCondaForge.changed d1).
    { apply classify_changed_elem. split; [done|].
      exists h. split; [done|].
      intros [_ Hsome]. apply Hkeys in Hsome. rewrite Hd in Hsome.
      by destruct Hsome. }
    split.
    - rewrite Hres. by eapply Hent.
    - by eapply Hset. }
  rewrite Hnoop. simpl. split.
  - f_equal. f_equal. apply map_eq. intros n.
    subst d1 d2. by rewrite !classify_new_hashes.
  - intros d [= <-]. apply Hch2.
Qed.

(** C6, as stated, fails: when the shard of a tracked name holds no
    package, the name gets no snapshot entry, and the second run reports
    it as changed again. *)
Lemma sync_twice_changed_again :
  SyncCondaForge.changed
    <$> SyncCondaForge.report
          (SyncCondaForge.main Examples.env_empty_shard Examples.full_sync
             {[ "zlib" ]} Examples.index_zlib
             (SyncCondaForge.final
                (SyncCondaForge.main Examples.env_empty_shard
                   Examples.full_sync {[ "zlib" ]} Examples.index_zlib
                   Examples.fresh_state)))
  = Some ["zlib"].
Proof. vm_compute. reflexivity. Qed.

(** * Further properties of the scripts *)

(** ** Strings *)

Lemma drop_while_idem (p : ascii -> bool) (s : string) :
  Py.drop_while p (Py.drop_while p s) = Py.drop_while p s.
Proof.
  induction s as [|c s IH]; simpl; [done|].
  destruct (p c) eqn:Hc; [done|]. simpl. by rewrite Hc.
Qed.

Lemma rstrip_tail (c : ascii) (s : string) :
  Py.rstrip (String c s) = String c s -> Py.rstrip s = s.
Proof.
  simpl. destruct (Py.rstrip s) as [|d r] eqn:Hr.
  - destruct (Py.isspace c); [done|]. by intros [= <-].
  - by intros [= <-].
Qed.

Lemma rstrip_idem (s : string) : Py.rstrip (Py.rstrip s) = Py.rstrip s.
Proof.
  induction s as [|c s IH]; simpl; [done|].
  destruct (Py.rstrip s) as [|d r] eqn:Hr.
  - destruct (Py.isspace c) eqn:Hc; simpl; [done|]. by rewrite Hc.
  - simpl in *. by rewrite IH.
Qed.

Lemma rstrip_drop_while (p : ascii -> bool) (s : string) :
  Py.rstrip s = s -> Py.rstrip (Py.drop_while p s) = Py.drop_while p s.
Proof.
  induction s as [|c s IH]; intros H; [done|].
  simpl. destruct (p c); [|done]. apply IH. by eapply rstrip_tail.
Qed.

Lemma strip_lstrip (s : string) : Py.lstrip (Py.strip s) = Py.strip s.
Proof. unfold Py.strip, Py.lstrip. apply drop_while_idem. Qed.

Lemma strip_rstrip (s : string) : Py.rstrip (Py.strip s) = Py.strip s.
Proof.
  unfold Py.strip, Py.lstrip. apply rstrip_drop_while, rstrip_idem.
Qed.

Lemma strip_fixed (s : string) :
  Py.lstrip s = s -> Py.rstrip s = s -> Py.strip s = s.
Proof. intros Hl Hr. unfold Py.strip. by rewrite Hr. Qed.

Lemma take_while_Forall (p : ascii -> bool) (s : string) :
  Forall (fun c => p c = true) (list_ascii_of_string (Py.take_while p s)).
Proof.
  induction s as [|c s IH]; simpl; [done|].
  destruct (p c) eqn:Hc; simpl; [by constructor|done].
Qed.

Lemma drop_while_Forall (P : ascii -> Prop) (p : ascii -> bool) (s : string) :
  Forall P (list_ascii_of_string s) ->
  Forall P (list_ascii_of_string (Py.drop_while p s)).
Proof.
  induction s as [|c s IH]; simpl; intros H; [done|].
  destruct (p c); [|done]. apply IH. by apply Forall_cons in H as [_ ?].
Qed.

Lemma rstrip_Forall (P : ascii -> Prop) (s : string) :
  Forall P (list_ascii_of_string s) ->
  Forall P (list_ascii_of_string (Py.rstrip s)).
Proof.
  induction s as [|c s IH]; simpl; intros H; [done|].
  apply Forall_cons in H as [Hc Hs]. specialize (IH Hs).
  destruct (Py.rstrip s) as [|d r].
  - destruct (Py.isspace c); simpl; [done|by constructor].
  - simpl. by constructor.
Qed.

Lemma strip_Forall (P : ascii -> Prop) (s : string) :
  Forall P (list_ascii_of_string s) ->
  Forall P (list_ascii_of_string (Py.strip s)).
Proof. intros H. by apply drop_while_Forall, rstrip_Forall. Qed.

Lemma take_while_all (p : ascii -> bool) (s : string) :
  Forall (fun c => p c = true) (list_ascii_of_string s) ->
  Py.take_while p s = s.
Proof.
  induction s as [|c s IH]; simpl; intros H; [done|].
  apply Forall_cons in H as [-> Hs]. by rewrite IH.
Qed.

Lemma take_while_app_stop (p : ascii -> bool) (s r : string) (d : ascii) :
  Forall (fun c => p c = true) (list_ascii_of_string s) -> p d = false ->
  Py.take_while p (s ++ String d r) = s
  /\ Py.drop_while p (s ++ String d r) = String d r.
Proof.
  intros Hs Hd. induction s as [|c s IH]; cbn [String.append]; simpl.
  - by rewrite Hd.
  - simpl in Hs. apply Forall_cons in Hs as [-> Hs].
    destruct (IH Hs) as [-> ->]. done.
Qed.

Lemma drop_while_all (p : ascii -> bool) (s : string) :
  Forall (fun c => p c = true) (list_ascii_of_string s) ->
  Py.drop_while p s = "".
Proof.
  induction s as [|c s IH]; simpl; intros H; [done|].
  apply Forall_cons in H as [-> Hs]. by apply IH.
Qed.

Lemma rstrip_app_fixed (s t : string) :
  t <> "" -> Py.rstrip t = t -> Py.rstrip (s ++ t) = s ++ t.
Proof.
  intros Hne Ht. induction s as [|c s IH]; [done|].
  change (String c s ++ t) with (String c (s ++ t)).
  simpl. rewrite IH. destruct (s ++ t) as [|d r] eqn:Hst; [|done].
  destruct s; [by subst|done].
Qed.

Lemma rstrip_no_space (s : string) :
  Forall (fun ch => Py.isspace ch = false) (list_ascii_of_string s) ->
  Py.rstrip s = s.
Proof.
  induction s as [|c s IH]; simpl; intros H; [done|].
  apply Forall_cons in H as [Hc Hs]. rewrite (IH Hs), Hc. by destruct s.
Qed.

Lemma lstrip_cons (c : ascii) (s : string) :
  Py.isspace c = false -> Py.lstrip (String c s) = String c s.
Proof. intros H. unfold Py.lstrip. simpl. by rewrite H. Qed.

Lemma string_app_assoc (s t u : string) : (s ++ t) ++ u = s ++ t ++ u.
Proof.
  induction s as [|c s IH]; [done|].
  change (String c (s ++ t) ++ u = String c (s ++ t ++ u)).
  change (String c ((s ++ t) ++ u) = String c (s ++ t ++ u)).
  by rewrite IH.
Qed.

Lemma name_char_not_space (c : ascii) :
  GenDeps.is_name_char c = true -> Py.isspace c = false.
Proof.
  unfold GenDeps.is_name_char, Py.isspace, Py.isdigit.
  rewrite !orb_true_iff, !andb_true_iff, !N.leb_le.
  intros H. apply orb_false_iff.
  rewrite !andb_false_iff, !N.leb_gt.
  destruct H as [[[[[? ?]|[? ?]]|[? ?]]|H]|H]; try lia.
  - apply Ascii.eqb_eq in H as ->. simpl. lia.
  - apply Ascii.eqb_eq in H as ->. simpl. lia.
Qed.

(** ** gen_deps.py: requirement strings *)

Lemma pkg_spec_match_Some (s g1 g2 : string) :
  GenDeps.pkg_spec_match s = Some (g1, g2) ->
  g1 = Py.take_while GenDeps.is_name_char s /\ g1 <> ""
  /\ g2 = Py.take_while (fun c => negb (Ascii.eqb c "010"))
            (Py.drop_while Py.isspace
               (Py.drop_while GenDeps.is_name_char s)).
Proof.
  unfold GenDeps.pkg_spec_match.
  destruct (Py.take_while GenDeps.is_name_char s) eqn:Ht; [done|].
  by intros [= <- <-].
Qed.

(** X1: Whatever the requirement, [extract_pkg_spec] never returns an empty
    package name; for a requirement string the name consists of name
    characters only, and the constraint has no white space at either end
    and no line break. *)
Theorem extract_pkg_spec_shape (dep : GenDeps.dep_value) (n c : string) :
  GenDeps.extract_pkg_spec dep = Some (n, c) ->
  n <> ""
  /\ forall s, dep = GenDeps.DepStr s ->
       Forall (fun ch => GenDeps.is_name_char ch = true)
              (list_ascii_of_string n)
       /\ Py.lstrip c = c /\ Py.rstrip c = c
       /\ Forall (fun ch => ch <> "010"%char) (list_ascii_of_string c).
Proof.
  destruct dep as [s|ps|]; simpl; [| |done].
  - destruct (GenDeps.pkg_spec_match (Py.strip s)) as [[g1 g2]|] eqn:Hm;
      [|done].
    intros [= <- <-]. apply pkg_spec_match_Some in Hm as (-> & Hne & ->).
    split; [done|]. intros s' _. split_and!.
    + apply take_while_Forall.
    + apply strip_lstrip.
    + apply strip_rstrip.
    + apply strip_Forall.
      eapply Forall_impl; [apply take_while_Forall|].
      intros ch Hch ->. done.
  - destruct (GenDeps.pin_name ps) as [[|a m]|]; [done| |done].
    destruct (GenDeps.pin_exact ps); intros [= <- <-]; by split.
Qed.

Lemma extract_pkg_spec_shape_witness :
  "zlib" <> ""
  /\ forall s, GenDeps.DepStr "  zlib  >=1.2,<2 " = GenDeps.DepStr s ->
       Forall (fun ch => GenDeps.is_name_char ch = true)
              (list_ascii_of_string "zlib")
       /\ Py.lstrip ">=1.2,<2" = ">=1.2,<2"
       /\ Py.rstrip ">=1.2,<2" = ">=1.2,<2"
       /\ Forall (fun ch => ch <> "010"%char)
                 (list_ascii_of_string ">=1.2,<2").
Proof.
  apply (extract_pkg_spec_shape (GenDeps.DepStr "  zlib  >=1.2,<2 ")
                                "zlib" ">=1.2,<2").
  vm_compute. reflexivity.
Defined.

(** A requirement string is rejected exactly when, after stripping, it
    does not start with a name character. *)
Theorem extract_pkg_spec_None (s : string) :
  GenDeps.extract_pkg_spec (GenDeps.DepStr s) = None
  <-> match Py.strip s with
      | EmptyString => True
      | String ch _ => GenDeps.is_name_char ch = false
      end.
Proof.
  simpl. unfold GenDeps.pkg_spec_match.
  destruct (Py.strip s) as [|ch r]; simpl; [done|].
  destruct (GenDeps.is_name_char ch); simpl; split; done.
Qed.

(** X2: The line the table mode prints for a host dependency is read back by
    [extract_pkg_spec] as the same name and constraint. *)
Theorem extract_pkg_spec_format (n c : string) :
  n <> "" ->
  Forall (fun ch => GenDeps.is_name_char ch = true) (list_ascii_of_string n) ->
  Py.lstrip c = c -> Py.rstrip c = c ->
  Forall (fun ch => ch <> "010"%char) (list_ascii_of_string c) ->
  GenDeps.extract_pkg_spec (GenDeps.DepStr (GenDeps.format_host_dep n c))
  = Some (n, c).
Proof.
  intros Hne Hn Hl Hr Hnl.
  destruct n as [|a m]; [done|].
  assert (Hnosp : Forall (fun ch => Py.isspace ch = false)
                         (list_ascii_of_string (String a m))).
  { eapply Forall_impl; [done|]. apply name_char_not_space. }
  assert (Ha : Py.isspace a = false) by (by apply Forall_cons in Hnosp as [? _]).
  assert (Hnl' : Forall (fun ch => negb (Ascii.eqb ch "010") = true)
                        (list_ascii_of_string c)).
  { eapply Forall_impl; [done|]. intros ch Hch. simpl in Hch.
    by apply negb_true_iff, Ascii.eqb_neq. }
  unfold GenDeps.format_host_dep, GenDeps.extract_pkg_spec.
  destruct c as [|d r] eqn:Hc.
  - rewrite (strip_fixed _ (lstrip_cons _ _ Ha) (rstrip_no_space _ Hnosp)).
    unfold GenDeps.pkg_spec_match.
    by rewrite (take_while_all _ _ Hn), (drop_while_all _ _ Hn).
  - rewrite <- Hc in *.
    assert (Hcne : c <> "") by (by subst).
    assert (Hs : Py.strip (String a m ++ " " ++ c) = String a m ++ " " ++ c).
    { apply strip_fixed; [by apply lstrip_cons|].
      rewrite <- string_app_assoc. by apply rstrip_app_fixed. }
    rewrite Hs. unfold GenDeps.pkg_spec_match.
    destruct (take_while_app_stop GenDeps.is_name_char (String a m) c " "
                                  Hn eq_refl) as [Ht Hd].
    change (String a m ++ " " ++ c) with (String a m ++ String " " c).
    rewrite Ht, Hd. simpl Py.drop_while.
    fold (Py.lstrip c). rewrite Hl.
    by rewrite (take_while_all _ _ Hnl'), (strip_fixed _ Hl Hr).
Qed.

Lemma extract_pkg_spec_format_witness :
  GenDeps.extract_pkg_spec
    (GenDeps.DepStr (GenDeps.format_host_dep "zlib" ">=1.2,<2"))
  = Some ("zlib", ">=1.2,<2").
Proof.
  apply (extract_pkg_spec_format "zlib" ">=1.2,<2").
  - discriminate.
  - vm_compute. repeat constructor.
  - reflexivity.
  - reflexivity.
  - repeat constructor; discriminate.
Defined.

(** ** gen_deps.py: merging host dependencies *)

Lemma truthy_Some (c : string) : Py.truthy (Some c) = true <-> c <> "".
Proof. destruct c; simpl; split; done. Qed.

Lemma merge_host_deps_fold (l : list GenDeps.dep_value)
      (hd : Py.pydict string) (n : string) :
  Py.dget n (fold_left GenDeps.host_step l hd)
  = match Py.dget n hd,
          snd <$> filter (fun sp : string * string => fst sp = n)
                         (omap GenDeps.extract_pkg_spec l) with
    | None, [] => None
    | None, cs => Some (default "" (head (filter (fun c => c <> "") cs)))
    | Some c0, cs =>
        if Py.truthy (Some c0) then Some c0
        else Some (default "" (head (filter (fun c => c <> "") cs)))
    end.
Proof.
  revert hd. induction l as [|d l IH]; intros hd.
  { simpl. destruct (Py.dget n hd) as [[|a c0]|]; done. }
  cbn [fold_left omap list_omap]. rewrite IH. clear IH.
  unfold GenDeps.host_step.
  destruct (GenDeps.extract_pkg_spec d) as [[m c]|]; [|done].
  rewrite filter_cons. simpl fst.
  destruct (decide (m = n)) as [->|Hne].
  - rewrite fmap_cons. simpl snd. unfold Py.dmem.
    destruct (Py.dget n hd) as [[|a0 c0]|] eqn:Hd;
      destruct c as [|a c]; simpl;
      rewrite ?Hd, ?dget_dset_eq; simpl;
      rewrite ?filter_cons_True by done;
      rewrite ?filter_cons_False by naive_solver; try done.
  - assert (Hsame : Py.dget n
              (if negb (Py.dmem m hd)
                  || Py.truthy (Some c) && negb (Py.truthy (Py.dget m hd))
               then Py.dset m c hd else hd) = Py.dget n hd).
    { destruct (_ || _); [by apply dget_dset_ne|done]. }
    by rewrite Hsame.
Qed.

(** X3: Among the requirements of one package name, the first one with a
    non-empty constraint decides the stored constraint (an empty one is
    stored when none has a constraint); a later constraint never
    replaces an earlier non-empty one. *)
Theorem merge_host_deps_first_constraint (host_raw : list GenDeps.dep_value)
        (n : string) :
  Py.dget n (GenDeps.merge_host_deps host_raw)
  = match snd <$> filter (fun sp : string * string => fst sp = n)
                         (omap GenDeps.extract_pkg_spec host_raw) with
    | [] => None
    | cs => Some (default "" (head (filter (fun c => c <> "") cs)))
    end.
Proof. unfold GenDeps.merge_host_deps. by rewrite merge_host_deps_fold. Qed.

(** ** sync_conda_forge.py: the representative entry of a shard *)

Lemma tuple_gtb_irrefl (a : list Z) : Py.tuple_gtb a a = false.
Proof.
  induction a as [|x a IH]; simpl; [done|].
  rewrite IH, Z.ltb_irrefl. by rewrite andb_false_r.
Qed.

Lemma tuple_gtb_trans (a b c : list Z) :
  Py.tuple_gtb a b = true -> Py.tuple_gtb b c = true ->
  Py.tuple_gtb a c = true.
Proof.
  revert b c. induction a as [|x a IH]; intros [|y b] [|z c]; simpl;
    try done.
  rewrite !orb_true_iff, !andb_true_iff, !Z.ltb_lt, !Z.eqb_eq.
  intros [Hxy|[-> Hab]] [Hyz|[-> Hbc]].
  - left. lia.
  - by left.
  - by left.
  - right. split; [done|]. by eapply IH.
Qed.

Lemma tuple_gtb_asym (a b : list Z) :
  Py.tuple_gtb a b = true -> Py.tuple_gtb b a = false.
Proof.
  intros H. destruct (Py.tuple_gtb b a) eqn:H'; [|done].
  pose proof (tuple_gtb_trans _ _ _ H H') as Haa.
  by rewrite tuple_gtb_irrefl in Haa.
Qed.

Lemma key_gtb_irrefl (k : list Z * Z) : SyncCondaForge.key_gtb k k = false.
Proof.
  unfold SyncCondaForge.key_gtb.
  rewrite tuple_gtb_irrefl, Z.ltb_irrefl. by rewrite andb_false_r.
Qed.

Lemma key_gtb_trans (k1 k2 k3 : list Z * Z) :
  SyncCondaForge.key_gtb k1 k2 = true -> SyncCondaForge.key_gtb k2 k3 = true ->
  SyncCondaForge.key_gtb k1 k3 = true.
Proof.
  destruct k1 as [a1 n1], k2 as [a2 n2], k3 as [a3 n3].
  unfold SyncCondaForge.key_gtb. simpl.
  rewrite !orb_true_iff, !andb_true_iff, !bool_decide_eq_true, !Z.ltb_lt.
  intros [H12|[-> Hn12]] [H23|[-> Hn23]].
  - left. by eapply tuple_gtb_trans.
  - by left.
  - by left.
  - right. split; [done|lia].
Qed.

Lemma sync_parse_version_nonempty (v : string) :
  SyncCondaForge.parse_version v <> [].
Proof. rewrite sync_parse_version_spec. apply parseVersion_nonneg. Qed.

Lemma record_key_beats_initial (r : SyncCondaForge.package_record) :
  SyncCondaForge.key_gtb (SyncCondaForge.record_key r) ([], 0) = true.
Proof.
  unfold SyncCondaForge.key_gtb, SyncCondaForge.record_key. simpl.
  pose proof (sync_parse_version_nonempty
                (default "" (SyncCondaForge.version r))) as H.
  by destruct (SyncCondaForge.parse_version _).
Qed.

(** The loop of [extract_latest_from_shard], from any point on: the
    record kept is one that was seen, its key is the key kept, and no
    record seen has a greater key. *)
Lemma latest_fold (l seen : list SyncCondaForge.package_record)
      (acc : option SyncCondaForge.package_record * (list Z * Z)) :
  (forall r', r' ∈ seen -> SyncCondaForge.key_gtb
                             (SyncCondaForge.record_key r') (snd acc) = false) ->
  match fst acc with
  | Some r => r ∈ seen /\ snd acc = SyncCondaForge.record_key r
  | None => seen = [] /\ snd acc = ([], 0)
  end ->
  let acc' :=
    fold_left
      (fun (acc : option SyncCondaForge.package_record * (list Z * Z)) r =>
         if SyncCondaForge.key_gtb (SyncCondaForge.record_key r) (snd acc)
         then (Some r, SyncCondaForge.record_key r) else acc)
      l acc in
  (forall r', r' ∈ (seen ++ l)%list ->
              SyncCondaForge.key_gtb (SyncCondaForge.record_key r') (snd acc')
              = false)
  /\ match fst acc' with
     | Some r => r ∈ (seen ++ l)%list /\ snd acc' = SyncCondaForge.record_key r
     | None => (seen ++ l)%list = [] /\ snd acc' = ([], 0)
     end.
Proof.
  revert seen acc. induction l as [|x l IH]; intros seen acc Hmax Hacc.
  { simpl. rewrite app_nil_r. by split. }
  cbn [fold_left].
  replace (seen ++ x :: l)%list with ((seen ++ [x]) ++ l)%list
    by (by rewrite <- app_assoc).
  apply IH.
  - intros r' Hr'. apply elem_of_app in Hr' as [Hr'|Hr'].
    + destruct (SyncCondaForge.key_gtb (SyncCondaForge.record_key x) (snd acc))
        eqn:Hx; simpl; [|by apply Hmax].
      destruct (SyncCondaForge.key_gtb (SyncCondaForge.record_key r')
                  (SyncCondaForge.record_key x)) eqn:Hr; [|done].
      rewrite <- (Hmax r' Hr'). symmetry. by eapply key_gtb_trans.
    + apply list_elem_of_singleton in Hr' as ->.
      destruct (SyncCondaForge.key_gtb (SyncCondaForge.record_key x) (snd acc))
        eqn:Hx; simpl; [apply key_gtb_irrefl|done].
  - destruct (SyncCondaForge.key_gtb (SyncCondaForge.record_key x) (snd acc))
      eqn:Hx; simpl.
    + split; [|done]. apply elem_of_app. right. by apply list_elem_of_singleton.
    + destruct (fst acc) as [r|].
      * destruct Hacc as [Hr ->]. split; [|done]. apply elem_of_app. by left.
      * destruct Hacc as [_ Hk]. rewrite Hk in Hx.
        by rewrite record_key_beats_initial in Hx.
Qed.

(** X11: The entry [extract_latest_from_shard] returns is built from a record
    of the merged shard whose (parsed version, build number) key no
    other record exceeds. *)
Theorem extract_latest_maximal (sh : SyncCondaForge.shard)
        (e : SyncCondaForge.snapshot_entry) :
  SyncCondaForge.extract_latest_from_shard sh = Some e ->
  exists r,
    r ∈ Py.dvalues (SyncCondaForge.merged_packages sh)
    /\ e = SyncCondaForge.entry_of_record r
    /\ forall r', r' ∈ Py.dvalues (SyncCondaForge.merged_packages sh) ->
         SyncCondaForge.key_gtb (SyncCondaForge.record_key r')
                                (SyncCondaForge.record_key r) = false.
Proof.
  unfold SyncCondaForge.extract_latest_from_shard.
  fold (SyncCondaForge.merged_packages sh).
  destruct (SyncCondaForge.merged_packages sh) as [|kv pkgs] eqn:Hm; [done|].
  pose proof (latest_fold (Py.dvalues (kv :: pkgs)) [] (None, ([], 0)))
    as Hfold.
  cbv zeta in Hfold. unfold SyncCondaForge.record_key in Hfold at 1 2.
  destruct (fold_left _ (Py.dvalues (kv :: pkgs)) (None, ([], 0)))
    as [latest k] eqn:Hf.
  destruct Hfold as [Hmax Hlatest].
  { intros r' Hr'. by apply elem_of_nil in Hr'. }
  { done. }
  simpl in *. destruct latest as [r|]; [|done].
  destruct (SyncCondaForge.record_truthy r); [|done].
  intros [= <-]. destruct Hlatest as [Hr ->]. by exists r.
Qed.

Lemma extract_latest_maximal_witness :
  exists r,
    r ∈ Py.dvalues (SyncCondaForge.merged_packages Examples.shard_two_builds)
    /\ SyncCondaForge.mkSnap "1.10.0" 1 "h1" ["libgcc"]
       = SyncCondaForge.entry_of_record r
    /\ forall r',
         r' ∈ Py.dvalues
                (SyncCondaForge.merged_packages Examples.shard_two_builds) ->
         SyncCondaForge.key_gtb (SyncCondaForge.record_key r')
                                (SyncCondaForge.record_key r) = false.
Proof.
  apply (extract_latest_maximal Examples.shard_two_builds
           (SyncCondaForge.mkSnap "1.10.0" 1 "h1" ["libgcc"])).
  vm_compute. reflexivity.
Defined.



(** ** sync_conda_forge.py: fetching a shard twice *)

(** X13: Once [download_shard] has returned a shard for a hash, a later call
    for that hash returns the same shard and leaves the directory as it
    is, whatever the URL, the network and the digest function are then. *)
Theorem download_shard_again
        (E E' : SyncCondaForge.Env) (dir dir' : gmap string SyncCondaForge.bytes)
        (url url' : string) (h : SyncCondaForge.bytes)
        (sh : SyncCondaForge.shard) :
  SyncCondaForge.download_shard E dir url h = (inr sh, dir') ->
  SyncCondaForge.unpack E' = SyncCondaForge.unpack E ->
  SyncCondaForge.download_shard E' dir' url' h = (inr sh, dir').
Proof.
  unfold SyncCondaForge.download_shard. intros H Hu. rewrite Hu.
  destruct (dir !! SyncCondaForge.hex h) as [cached|] eqn:Hc.
  - destruct (SyncCondaForge.unpack E cached) as [sh'|] eqn:Hs; [|done].
    injection H as <- <-. by rewrite Hc, Hs.
  - destruct (SyncCondaForge.urlopen E url) as [data|]; [|done].
    destruct (decide (SyncCondaForge.sha256 E data = h)); [|done].
    destruct (SyncCondaForge.unpack E data) as [sh'|] eqn:Hs; [|done].
    injection H as <- <-. by rewrite lookup_insert_eq, Hs.
Qed.

Lemma download_shard_again_witness :
  SyncCondaForge.download_shard Examples.env_offline
    (<[SyncCondaForge.hex [xab] := [x01]]> ∅) "elsewhere" [xab]
  = (inr Examples.shard_two_builds, <[SyncCondaForge.hex [xab] := [x01]]> ∅).
Proof.
  apply (download_shard_again Examples.env_two_builds Examples.env_offline
           ∅ (<[SyncCondaForge.hex [xab] := [x01]]> ∅) "u" "elsewhere" [xab]
           Examples.shard_two_builds).
  - reflexivity.
  - reflexivity.
Defined.

(** ** Dictionaries: keys *)

Lemma dset_keys (V : Type) (k : string) (v : V) (d : Py.pydict V) :
  Py.dkeys (Py.dset k v d)
  = if Py.dmem k d then Py.dkeys d else (Py.dkeys d ++ [k])%list.
Proof.
  unfold Py.dkeys, Py.dmem. induction d as [|[k' v'] d IH]; simpl; [done|].
  destruct (String.eqb k k') eqn:Hk.
  - apply String.eqb_eq in Hk as ->. done.
  - rewrite fmap_cons, IH. simpl. by destruct (Py.dget k d).
Qed.

Lemma dmem_keys (V : Type) (k : string) (d : Py.pydict V) :
  Py.dmem k d = true <-> k ∈ Py.dkeys d.
Proof.
  unfold Py.dkeys, Py.dmem. induction d as [|[k' v'] d IH]; simpl.
  - split; [done|]. intros H. by apply elem_of_nil in H.
  - rewrite elem_of_cons. destruct (String.eqb k k') eqn:Hk.
    + apply String.eqb_eq in Hk as ->. split; [by left|done].
    + apply String.eqb_neq in Hk. rewrite IH. split; [by right|].
      by intros [?|?].
Qed.

Lemma dset_keys_NoDup (V : Type) (k : string) (v : V) (d : Py.pydict V) :
  NoDup (Py.dkeys d) -> NoDup (Py.dkeys (Py.dset k v d)).
Proof.
  intros Hnd. rewrite dset_keys. destruct (Py.dmem k d) eqn:Hm; [done|].
  apply NoDup_app. split_and!; [done| |apply NoDup_singleton].
  intros x Hx ->%list_elem_of_singleton.
  apply dmem_keys in Hx. congruence.
Qed.

Lemma dget_elem_of (V : Type) (k : string) (v : V) (d : Py.pydict V) :
  NoDup (Py.dkeys d) -> (k, v) ∈ d -> Py.dget k d = Some v.
Proof.
  unfold Py.dkeys. induction d as [|[k' v'] d IH]; simpl; intros Hnd Hin.
  - by apply elem_of_nil in Hin.
  - apply NoDup_cons in Hnd as [Hk' Hnd].
    apply elem_of_cons in Hin as [[= <- <-]|Hin].
    + by rewrite String.eqb_refl.
    + destruct (String.eqb k k') eqn:Hk; [|by apply IH].
      apply String.eqb_eq in Hk as <-. exfalso. apply Hk'.
      apply list_elem_of_fmap. by exists (k, v).
Qed.

Lemma dget_Some_elem_of (V : Type) (k : string) (v : V) (d : Py.pydict V) :
  Py.dget k d = Some v -> (k, v) ∈ d.
Proof.
  induction d as [|[k' v'] d IH]; simpl; [done|].
  destruct (String.eqb k k') eqn:Hk.
  - apply String.eqb_eq in Hk as ->. intros [= ->]. apply list_elem_of_here.
  - intros H. by apply list_elem_of_further, IH.
Qed.

(** ** sync_conda_forge.py: what a run of [main] does to the state *)

Section fetch_more.
Variables (E : SyncCondaForge.Env) (idx : SyncCondaForge.index).

(** The snapshot after the fetch loop, name by name. *)
Lemma fetch_loop_deps (l : list string)
      (deps : Py.pydict SyncCondaForge.snapshot_entry)
      (dir : gmap string SyncCondaForge.bytes) (n : string) :
  Py.dget n (fst (SyncCondaForge.fetch_loop E idx l (deps, dir)))
  = match (if decide (n ∈ l) then SyncCondaForge.shards idx !! n else None)
    with
    | Some h =>
        match SyncCondaForge.entry_of_bytes E
                (SyncCondaForge.resolve E (SyncCondaForge.info idx) dir h)
        with
        | Some e => Some e
        | None => Py.dget n deps
        end
    | None => Py.dget n deps
    end.
Proof.
  revert deps dir. induction l as [|x l IH]; intros deps dir; [done|].
  unfold SyncCondaForge.fetch_loop in *. cbn [fold_left].
  pose proof (fetch_step_dir E idx deps dir x) as (Hres & _ & _).
  destruct (SyncCondaForge.fetch_step E idx (deps, dir) x)
    as [deps1 dir1] eqn:Hstep. simpl in Hres.
  rewrite IH. clear IH.
  assert (Hd1 : Py.dget n deps1
                = if decide (n = x)
                  then match SyncCondaForge.shards idx !! x with
                       | Some h =>
                           match SyncCondaForge.entry_of_bytes E
                                   (SyncCondaForge.resolve E
                                      (SyncCondaForge.info idx) dir h)
                           with
                           | Some e => Some e
                           | None => Py.dget n deps
                           end
                       | None => Py.dget n deps
                       end
                  else Py.dget n deps).
  { destruct (SyncCondaForge.shards idx !! x) as [h|] eqn:Hx.
    - rewrite (fetch_step_resolved E idx _ _ _ _ Hx) in Hstep.
      injection Hstep as <- _.
      destruct (SyncCondaForge.entry_of_bytes E _) as [e|].
      + destruct (decide (n = x)) as [->|Hne];
          [by rewrite dget_dset_eq|by rewrite dget_dset_ne].
      + by destruct (decide (n = x)).
    - unfold SyncCondaForge.fetch_step in Hstep. rewrite Hx in Hstep.
      injection Hstep as <- _. by destruct (decide (n = x)). }
  destruct (decide (n ∈ l)) as [Hin|Hni].
  - rewrite (decide_True (P := n ∈ x :: l)) by (by apply list_elem_of_further).
    destruct (SyncCondaForge.shards idx !! n) as [h|] eqn:Hn.
    + rewrite Hres.
      destruct (SyncCondaForge.entry_of_bytes E _) as [e|] eqn:He; [done|].
      rewrite Hd1. destruct (decide (n = x)) as [->|Hne]; [|done].
      by rewrite Hn, He.
    + rewrite Hd1. destruct (decide (n = x)) as [->|Hne]; [|done].
      by rewrite Hn.
  - rewrite Hd1. destruct (decide (n = x)) as [->|Hne].
    + by rewrite (decide_True (P := x ∈ x :: l)) by apply list_elem_of_here.
    + rewrite (decide_False (P := n ∈ x :: l)); [done|].
      intros [?|?]%elem_of_cons; done.
Qed.

Lemma fetch_loop_keys_NoDup (l : list string)
      (deps : Py.pydict SyncCondaForge.snapshot_entry)
      (dir : gmap string SyncCondaForge.bytes) :
  NoDup (Py.dkeys deps) ->
  NoDup (Py.dkeys (fst (SyncCondaForge.fetch_loop E idx l (deps, dir)))).
Proof.
  revert deps dir. induction l as [|x l IH]; intros deps dir Hnd; [done|].
  unfold SyncCondaForge.fetch_loop in *. cbn [fold_left].
  destruct (SyncCondaForge.fetch_step E idx (deps, dir) x)
    as [deps1 dir1] eqn:Hstep.
  apply IH.
  destruct (SyncCondaForge.shards idx !! x) as [h|] eqn:Hx.
  - rewrite (fetch_step_resolved E idx _ _ _ _ Hx) in Hstep.
    injection Hstep as <- _.
    destruct (SyncCondaForge.entry_of_bytes E _) as [e|]; [|done].
    by apply dset_keys_NoDup.
  - unfold SyncCondaForge.fetch_step in Hstep. rewrite Hx in Hstep.
    by injection Hstep as <- _.
Qed.

End fetch_more.

(** X14: In every mode [main] only adds files to the shard directory: a file
    that is there before the run is there, unchanged, after it. *)
Theorem main_keeps_shard_files
        (E : SyncCondaForge.Env) (a : SyncCondaForge.args)
        (names : gset string) (idx : SyncCondaForge.index)
        (st : SyncCondaForge.state) (k : string) (v : SyncCondaForge.bytes) :
  SyncCondaForge.shards_dir st !! k = Some v ->
  SyncCondaForge.shards_dir
    (SyncCondaForge.final (SyncCondaForge.main E a names idx st)) !! k
  = Some v.
Proof.
  intros Hk. unfold SyncCondaForge.main.
  destruct (bool_decide (names = ∅)); [done|].
  destruct (SyncCondaForge.list_changed a); [done|].
  pose proof (fetch_loop_spec E idx
                (SyncCondaForge.changed
                   (SyncCondaForge.classify (SyncCondaForge.shards idx)
                      (default ∅ (SyncCondaForge.hashes_file st))
                      (default [] (SyncCondaForge.deps_file st)) names))
                (default [] (SyncCondaForge.deps_file st))
                (SyncCondaForge.shards_dir st)) as Hspec.
  cbv zeta in Hspec.
  destruct (SyncCondaForge.fetch_loop _ _ _ _) as [deps1 dir1].
  destruct Hspec as (_ & Hmono & _).
  destruct (SyncCondaForge.check a); simpl; by apply Hmono.
Qed.

Lemma main_keeps_shard_files_witness :
  SyncCondaForge.shards_dir
    (SyncCondaForge.final
       (SyncCondaForge.main Examples.env_two_builds Examples.full_sync
          {[ "zlib" ]} Examples.index_zlib
          (SyncCondaForge.mkState None None {[ "00" := [x00] ]})))
  !! "00" = Some [x00].
Proof.
  apply (main_keeps_shard_files Examples.env_two_builds Examples.full_sync
           {[ "zlib" ]} Examples.index_zlib
           (SyncCondaForge.mkState None None {[ "00" := [x00] ]}) "00" [x00]).
  reflexivity.
Defined.

(** The two dry-run modes persist nothing: with [--list-changed] or
    [--check] the snapshot file and the tracked-hash file are left as
    they are, and with [--list-changed] so is the shard directory. *)
Theorem main_dry_run
        (E : SyncCondaForge.Env) (a : SyncCondaForge.args)
        (names : gset string) (idx : SyncCondaForge.index)
        (st : SyncCondaForge.state) :
  SyncCondaForge.list_changed a = true \/ SyncCondaForge.check a = true ->
  SyncCondaForge.deps_file
    (SyncCondaForge.final (SyncCondaForge.main E a names idx st))
  = SyncCondaForge.deps_file st
  /\ SyncCondaForge.hashes_file
       (SyncCondaForge.final (SyncCondaForge.main E a names idx st))
     = SyncCondaForge.hashes_file st
  /\ (SyncCondaForge.list_changed a = true ->
      SyncCondaForge.final (SyncCondaForge.main E a names idx st) = st).
Proof.
  intros Hmode. unfold SyncCondaForge.main.
  destruct (bool_decide (names = ∅)); [done|].
  destruct (SyncCondaForge.list_changed a) eqn:Hl; [done|].
  destruct Hmode as [?|Hc]; [done|]. rewrite Hc.
  by destruct (SyncCondaForge.fetch_loop _ _ _ _).
Qed.

Lemma main_dry_run_witness :
  SyncCondaForge.deps_file
    (SyncCondaForge.final
       (SyncCondaForge.main Examples.env_two_builds
          (SyncCondaForge.mkArgs true false) {[ "zlib" ]}
          Examples.index_zlib Examples.fresh_state))
  = SyncCondaForge.deps_file Examples.fresh_state
  /\ SyncCondaForge.hashes_file
       (SyncCondaForge.final
          (SyncCondaForge.main Examples.env_two_builds
             (SyncCondaForge.mkArgs true false) {[ "zlib" ]}
             Examples.index_zlib Examples.fresh_state))
     = SyncCondaForge.hashes_file Examples.fresh_state
  /\ (SyncCondaForge.list_changed (SyncCondaForge.mkArgs true false) = true ->
      SyncCondaForge.final
        (SyncCondaForge.main Examples.env_two_builds
           (SyncCondaForge.mkArgs true false) {[ "zlib" ]}
           Examples.index_zlib Examples.fresh_state)
      = Examples.fresh_state).
Proof.
  apply (main_dry_run Examples.env_two_builds
           (SyncCondaForge.mkArgs true false) {[ "zlib" ]}
           Examples.index_zlib Examples.fresh_state).
  right. reflexivity.
Defined.

(** X16: After a full sync the tracked-hash file holds the hexadecimal index
    hash of every tracked name the index knows, and nothing else: hashes
    recorded earlier for names that are no longer tracked are gone. *)
Theorem main_full_sync_hashes
        (E : SyncCondaForge.Env) (names : gset string)
        (idx : SyncCondaForge.index) (st : SyncCondaForge.state) :
  names <> ∅ ->
  exists m,
    SyncCondaForge.hashes_file
      (SyncCondaForge.final
         (SyncCondaForge.main E (SyncCondaForge.mkArgs false false) names
                              idx st))
    = Some m
    /\ forall n, m !! n
                 = if decide (n ∈ names)
                   then SyncCondaForge.hex <$> SyncCondaForge.shards idx !! n
                   else None.
Proof.
  intros Hne. rewrite (main_full_sync E names idx st Hne). simpl.
  eexists. split; [done|]. intros n. apply classify_new_hashes.
Qed.

Lemma main_full_sync_hashes_witness :
  exists m,
    SyncCondaForge.hashes_file
      (SyncCondaForge.final
         (SyncCondaForge.main Examples.env_two_builds
            (SyncCondaForge.mkArgs false false) {[ "zlib" ]}
            Examples.index_zlib
            (SyncCondaForge.mkState None (Some {[ "gone" := "00" ]}) ∅)))
    = Some m
    /\ forall n, m !! n
                 = if decide (n ∈ ({[ "zlib" ]} : gset string))
                   then SyncCondaForge.hex
                          <$> SyncCondaForge.shards Examples.index_zlib !! n
                   else None.
Proof.
  apply (main_full_sync_hashes Examples.env_two_builds {[ "zlib" ]}
           Examples.index_zlib
           (SyncCondaForge.mkState None (Some {[ "gone" := "00" ]}) ∅)).
  apply non_empty_singleton_L.
Defined.

(** X17: After a full sync the snapshot entry of a name is the entry
    extracted from its shard if the name was classified as changed and
    its shard could be obtained, decoded and yielded an entry; every
    other name, tracked or not, keeps the entry it had. *)
Theorem main_full_sync_snapshot
        (E : SyncCondaForge.Env) (names : gset string)
        (idx : SyncCondaForge.index) (st : SyncCondaForge.state) :
  names <> ∅ ->
  exists deps',
    SyncCondaForge.deps_file
      (SyncCondaForge.final
         (SyncCondaForge.main E (SyncCondaForge.mkArgs false false) names
                              idx st))
    = Some deps'
    /\ forall n,
        Py.dget n deps'
        = match (if decide
                      (n ∈ SyncCondaForge.changed
                             (SyncCondaForge.classify
                                (SyncCondaForge.shards idx)
                                (default ∅ (SyncCondaForge.hashes_file st))
                                (default [] (SyncCondaForge.deps_file st))
                                names))
                 then SyncCondaForge.shards idx !! n else None)
          with
          | Some h =>
              match SyncCondaForge.entry_of_bytes E
                      (SyncCondaForge.resolve E (SyncCondaForge.info idx)
                         (SyncCondaForge.shards_dir st) h)
              with
              | Some e => Some e
              | None => Py.dget n (default [] (SyncCondaForge.deps_file st))
              end
          | None => Py.dget n (default [] (SyncCondaForge.deps_file st))
          end.
Proof.
  intros Hne. rewrite (main_full_sync E names idx st Hne). simpl.
  eexists. split; [done|]. intros n. apply fetch_loop_deps.
Qed.

Lemma main_full_sync_snapshot_witness :
  exists deps',
    SyncCondaForge.deps_file
      (SyncCondaForge.final
         (SyncCondaForge.main Examples.env_two_builds
            (SyncCondaForge.mkArgs false false) {[ "zlib" ]}
            Examples.index_zlib Examples.fresh_state))
    = Some deps'
    /\ forall n,
        Py.dget n deps'
        = match (if decide
                      (n ∈ SyncCondaForge.changed
                             (SyncCondaForge.classify
                                (SyncCondaForge.shards Examples.index_zlib)
                                (default ∅ (SyncCondaForge.hashes_file
                                              Examples.fresh_state))
                                (default [] (SyncCondaForge.deps_file
                                               Examples.fresh_state))
                                {[ "zlib" ]}))
                 then SyncCondaForge.shards Examples.index_zlib !! n
                 else None)
          with
          | Some h =>
              match SyncCondaForge.entry_of_bytes Examples.env_two_builds
                      (SyncCondaForge.resolve Examples.env_two_builds
                         (SyncCondaForge.info Examples.index_zlib)
                         (SyncCondaForge.shards_dir Examples.fresh_state) h)
              with
              | Some e => Some e
              | None => Py.dget n (default [] (SyncCondaForge.deps_file
                                                 Examples.fresh_state))
              end
          | None => Py.dget n (default [] (SyncCondaForge.deps_file
                                             Examples.fresh_state))
          end.
Proof.
  apply (main_full_sync_snapshot Examples.env_two_builds {[ "zlib" ]}
           Examples.index_zlib Examples.fresh_state).
  apply non_empty_singleton_L.
Defined.

(** The fetch loop of a second full sync finds nothing to do. *)
Lemma second_run_fetch_noop
      (E : SyncCondaForge.Env) (names : gset string)
      (idx : SyncCondaForge.index)
      (old_hashes : gmap string string)
      (old_deps deps1 : Py.pydict SyncCondaForge.snapshot_entry)
      (dir dir1 : gmap string SyncCondaForge.bytes) :
  SyncCondaForge.fetch_loop E idx
    (SyncCondaForge.changed
       (SyncCondaForge.classify (SyncCondaForge.shards idx) old_hashes
                                old_deps names))
    (old_deps, dir)
  = (deps1, dir1) ->
  SyncCondaForge.fetch_loop E idx
    (SyncCondaForge.changed
       (SyncCondaForge.classify (SyncCondaForge.shards idx)
          (SyncCondaForge.new_hashes
             (SyncCondaForge.classify (SyncCondaForge.shards idx) old_hashes
                                      old_deps names))
          deps1 names))
    (deps1, dir1)
  = (deps1, dir1).
Proof.
  set (d1 := SyncCondaForge.classify (SyncCondaForge.shards idx) old_hashes
                                     old_deps names).
  intros Hloop.
  pose proof (fetch_loop_spec E idx (SyncCondaForge.changed d1) old_deps dir)
    as Hspec.
  cbv zeta in Hspec. rewrite Hloop in Hspec.
  simpl in *. destruct Hspec as (Hres & Hmono & Hset & Hkeys & Hent).
  apply fetch_loop_noop. intros n h Hn Hs.
  apply second_run_changed in Hn as (Hin & _ & Hd).
  assert (Hn1 : n ∈ SyncCondaForge.changed d1).
  { apply classify_changed_elem. split; [done|].
    exists h. split; [done|].
    intros [_ Hsome]. apply Hkeys in Hsome. rewrite Hd in Hsome.
    by destruct Hsome. }
  split.
  - rewrite Hres. by eapply Hent.
  - by eapply Hset.
Qed.

Lemma bind_nil_all {A B} (f : A -> list B) (l : list A) :
  (forall x, x ∈ l -> f x = []) -> l ≫= f = [].
Proof.
  induction l as [|x l IH]; intros H; [done|].
  rewrite bind_cons, (H x) by apply list_elem_of_here.
  simpl. apply IH. intros y Hy. apply H. by apply list_elem_of_further.
Qed.

Lemma find_updates_same (d : Py.pydict SyncCondaForge.snapshot_entry) :
  NoDup (Py.dkeys d) -> SyncCondaForge.find_updates d d = [].
Proof.
  intros Hnd. unfold SyncCondaForge.find_updates.
  apply bind_nil_all. intros [k e] Hin. simpl.
  rewrite (dget_elem_of _ k e d Hnd Hin). by rewrite String.eqb_refl.
Qed.

(** X18: A second full sync over the same names, index and remote reports no
    version update. *)
Theorem second_sync_no_updates
        (E : SyncCondaForge.Env) (names : gset string)
        (idx : SyncCondaForge.index) (st : SyncCondaForge.state) :
  NoDup (Py.dkeys (default [] (SyncCondaForge.deps_file st))) ->
  SyncCondaForge.updates
    (SyncCondaForge.main E (SyncCondaForge.mkArgs false false) names idx
       (SyncCondaForge.final
          (SyncCondaForge.main E (SyncCondaForge.mkArgs false false) names
                               idx st)))
  = [].
Proof.
  intros Hnd. destruct (decide (names = ∅)) as [Hemp|Hne].
  { unfold SyncCondaForge.main. rewrite !bool_decide_eq_true_2 by done.
    simpl. by rewrite ?bool_decide_eq_true_2 by done. }
  rewrite (main_full_sync E names idx st Hne). simpl.
  pose proof (fetch_loop_keys_NoDup E idx
                (SyncCondaForge.changed
                   (SyncCondaForge.classify (SyncCondaForge.shards idx)
                      (default ∅ (SyncCondaForge.hashes_file st))
                      (default [] (SyncCondaForge.deps_file st)) names))
                _ (SyncCondaForge.shards_dir st) Hnd) as Hnd1.
  destruct (SyncCondaForge.fetch_loop E idx _
              (default [] (SyncCondaForge.deps_file st), _))
    as [deps1 dir1] eqn:Hloop.
  rewrite (main_full_sync E names idx _ Hne). simpl.
  rewrite (second_run_fetch_noop _ _ _ _ _ _ _ _ Hloop). simpl.
  by apply find_updates_same.
Qed.

Lemma second_sync_no_updates_witness :
  SyncCondaForge.updates
    (SyncCondaForge.main Examples.env_two_builds
       (SyncCondaForge.mkArgs false false) {[ "zlib" ]} Examples.index_zlib
       (SyncCondaForge.final
          (SyncCondaForge.main Examples.env_two_builds
             (SyncCondaForge.mkArgs false false) {[ "zlib" ]}
             Examples.index_zlib Examples.fresh_state)))
  = [].
Proof.
  apply (second_sync_no_updates Examples.env_two_builds {[ "zlib" ]}
           Examples.index_zlib Examples.fresh_state).
  apply NoDup_nil_2.
Defined.

(** The first sync of a name reports it with the old version "(new)". *)
Lemma first_sync_update :
  SyncCondaForge.updates
    (SyncCondaForge.main Examples.env_two_builds
       (SyncCondaForge.mkArgs false false) {[ "zlib" ]} Examples.index_zlib
       Examples.fresh_state)
  = [SyncCondaForge.mkUpdate "zlib" "(new)" "1.10.0"].
Proof. vm_compute. reflexivity. Qed.

(** A fetch loop that starts from a directory in which every shard it
    asks for is settled writes nothing, and builds the snapshot the loop
    builds from any directory that resolves the hashes alike. *)
Lemma fetch_loop_again
      (E : SyncCondaForge.Env) (idx : SyncCondaForge.index)
      (l : list string) (deps : Py.pydict SyncCondaForge.snapshot_entry)
      (dir dir2 : gmap string SyncCondaForge.bytes) :
  (forall h, SyncCondaForge.resolve E (SyncCondaForge.info idx) dir2 h
             = SyncCondaForge.resolve E (SyncCondaForge.info idx) dir h) ->
  (forall n h, n ∈ l -> SyncCondaForge.shards idx !! n = Some h ->
               SyncCondaForge.settled E (SyncCondaForge.info idx) dir2 h) ->
  SyncCondaForge.fetch_loop E idx l (deps, dir2)
  = (fst (SyncCondaForge.fetch_loop E idx l (deps, dir)), dir2).
Proof.
  revert deps dir. induction l as [|x l IH]; intros deps dir Hres Hset;
    [done|].
  unfold SyncCondaForge.fetch_loop in *. cbn [fold_left].
  pose proof (fetch_step_dir E idx deps dir x) as (Hres1 & _ & _).
  assert (Hstep2 : SyncCondaForge.fetch_step E idx (deps, dir2) x
                   = (fst (SyncCondaForge.fetch_step E idx (deps, dir) x),
                      dir2)).
  { destruct (SyncCondaForge.shards idx !! x) as [h|] eqn:Hx.
    - rewrite !(fetch_step_resolved E idx _ _ _ _ Hx). simpl.
      rewrite Hres. f_equal.
      destruct (SyncCondaForge.resolve E _ dir h) as [data|] eqn:Hr;
        [|done].
      apply insert_id. apply (Hset x h); [apply list_elem_of_here|done|].
      by rewrite Hres.
    - unfold SyncCondaForge.fetch_step. by rewrite Hx. }
  rewrite Hstep2.
  destruct (SyncCondaForge.fetch_step E idx (deps, dir) x)
    as [deps1 dir1]. simpl in *.
  apply IH.
  - intros h. by rewrite Hres, Hres1.
  - intros n h Hn. apply Hset. by apply list_elem_of_further.
Qed.

(** A [--check] run over a non-empty set of names, written out. *)
Lemma main_check_run (E : SyncCondaForge.Env) (names : gset string)
      (idx : SyncCondaForge.index) (st : SyncCondaForge.state) :
  names <> ∅ ->
  SyncCondaForge.main E (SyncCondaForge.mkArgs true false) names idx st
  = SyncCondaForge.mkOutcome
      (SyncCondaForge.mkState
         (SyncCondaForge.deps_file st) (SyncCondaForge.hashes_file st)
         (snd (SyncCondaForge.fetch_loop E idx
                 (SyncCondaForge.changed
                    (SyncCondaForge.classify (SyncCondaForge.shards idx)
                       (default ∅ (SyncCondaForge.hashes_file st))
                       (default [] (SyncCondaForge.deps_file st)) names))
                 (default [] (SyncCondaForge.deps_file st),
                  SyncCondaForge.shards_dir st))))
      (Some (SyncCondaForge.classify (SyncCondaForge.shards idx)
               (default ∅ (SyncCondaForge.hashes_file st))
               (default [] (SyncCondaForge.deps_file st)) names))
      (SyncCondaForge.find_updates
         (default [] (SyncCondaForge.deps_file st))
         (fst (SyncCondaForge.fetch_loop E idx
                 (SyncCondaForge.changed
                    (SyncCondaForge.classify (SyncCondaForge.shards idx)
                       (default ∅ (SyncCondaForge.hashes_file st))
                       (default [] (SyncCondaForge.deps_file st)) names))
                 (default [] (SyncCondaForge.deps_file st),
                  SyncCondaForge.shards_dir st)))).
Proof.
  intros Hne. unfold SyncCondaForge.main.
  rewrite bool_decide_eq_false_2 by done. simpl.
  by destruct (SyncCondaForge.fetch_loop _ _ _ _).
Qed.

(** X15: [--check] is a faithful preview. It leaves the snapshot file and the
    tracked-hash file as they are, and a sync that follows it (same
    names, index and remote) ends in the state the sync would have
    reached without it, with the same classification and exactly the
    updates [--check] announced. *)
Theorem check_then_sync
        (E : SyncCondaForge.Env) (names : gset string)
        (idx : SyncCondaForge.index) (st : SyncCondaForge.state) :
  SyncCondaForge.deps_file
    (SyncCondaForge.final
       (SyncCondaForge.main E (SyncCondaForge.mkArgs true false) names idx
                            st))
  = SyncCondaForge.deps_file st
  /\ SyncCondaForge.hashes_file
       (SyncCondaForge.final
          (SyncCondaForge.main E (SyncCondaForge.mkArgs true false) names
                               idx st))
     = SyncCondaForge.hashes_file st
  /\ SyncCondaForge.main E (SyncCondaForge.mkArgs false false) names idx
       (SyncCondaForge.final
          (SyncCondaForge.main E (SyncCondaForge.mkArgs true false) names
                               idx st))
     = SyncCondaForge.mkOutcome
         (SyncCondaForge.final
            (SyncCondaForge.main E (SyncCondaForge.mkArgs false false)
                                 names idx st))
         (SyncCondaForge.report
            (SyncCondaForge.main E (SyncCondaForge.mkArgs true false)
                                 names idx st))
         (SyncCondaForge.updates
            (SyncCondaForge.main E (SyncCondaForge.mkArgs true false)
                                 names idx st)).
Proof.
  destruct (decide (names = ∅)) as [Hemp|Hne].
  { unfold SyncCondaForge.main. rewrite !bool_decide_eq_true_2 by done.
    simpl. by rewrite ?bool_decide_eq_true_2 by done. }
  rewrite (main_full_sync E names idx st Hne).
  rewrite (main_check_run E names idx st Hne). simpl.
  pose proof (fetch_loop_spec E idx
                (SyncCondaForge.changed
                   (SyncCondaForge.classify (SyncCondaForge.shards idx)
                      (default ∅ (SyncCondaForge.hashes_file st))
                      (default [] (SyncCondaForge.deps_file st)) names))
                (default [] (SyncCondaForge.deps_file st))
                (SyncCondaForge.shards_dir st)) as Hspec.
  cbv zeta in Hspec.
  destruct (SyncCondaForge.fetch_loop E idx _
              (default [] (SyncCondaForge.deps_file st), _))
    as [deps1 dir1] eqn:Hloop.
  simpl in *. destruct Hspec as (Hres & _ & Hset & _ & _).
  split; [done|]. split; [done|].
  rewrite (main_full_sync E names idx _ Hne). simpl.
  rewrite (fetch_loop_again E idx _ _ (SyncCondaForge.shards_dir st) dir1
             Hres Hset).
  rewrite Hloop. simpl. reflexivity.
Qed.

(** X8: An update is only reported for a tracked name that was classified as
    changed and whose shard yielded an entry: the new version is the
    version of that entry, the old version is the one of the snapshot
    (or "(new)"), and the two differ. *)
Theorem updates_only_changed
        (E : SyncCondaForge.Env) (a : SyncCondaForge.args)
        (names : gset string) (idx : SyncCondaForge.index)
        (st : SyncCondaForge.state) (u : SyncCondaForge.update) :
  NoDup (Py.dkeys (default [] (SyncCondaForge.deps_file st))) ->
  u ∈ SyncCondaForge.updates (SyncCondaForge.main E a names idx st) ->
  SyncCondaForge.u_name u
    ∈ SyncCondaForge.changed
        (SyncCondaForge.classify (SyncCondaForge.shards idx)
           (default ∅ (SyncCondaForge.hashes_file st))
           (default [] (SyncCondaForge.deps_file st)) names)
  /\ exists h e,
      SyncCondaForge.shards idx !! SyncCondaForge.u_name u = Some h
      /\ SyncCondaForge.entry_of_bytes E
           (SyncCondaForge.resolve E (SyncCondaForge.info idx)
              (SyncCondaForge.shards_dir st) h)
         = Some e
      /\ SyncCondaForge.u_new u = SyncCondaForge.s_version e
      /\ SyncCondaForge.u_old u
         = match Py.dget (SyncCondaForge.u_name u)
                   (default [] (SyncCondaForge.deps_file st)) with
           | Some e0 => SyncCondaForge.s_version e0
           | None => "(new)"
           end
      /\ SyncCondaForge.u_old u <> SyncCondaForge.u_new u.
Proof.
  intros Hnd Hu.
  assert (Hf : u ∈ SyncCondaForge.find_updates
                     (default [] (SyncCondaForge.deps_file st))
                     (fst (SyncCondaForge.fetch_loop E idx
                        (SyncCondaForge.changed
                           (SyncCondaForge.classify
                              (SyncCondaForge.shards idx)
                              (default ∅ (SyncCondaForge.hashes_file st))
                              (default [] (SyncCondaForge.deps_file st))
                              names))
                        (default [] (SyncCondaForge.deps_file st),
                         SyncCondaForge.shards_dir st)))).
  { unfold SyncCondaForge.main in Hu.
    destruct (bool_decide (names = ∅));
      [by apply elem_of_nil in Hu|].
    destruct (SyncCondaForge.list_changed a);
      [by apply elem_of_nil in Hu|].
    destruct (SyncCondaForge.fetch_loop E idx _ _) as [deps1 dir1].
    by destruct (SyncCondaForge.check a). }
  clear Hu.
  pose proof (fetch_loop_keys_NoDup E idx
                (SyncCondaForge.changed
                   (SyncCondaForge.classify (SyncCondaForge.shards idx)
                      (default ∅ (SyncCondaForge.hashes_file st))
                      (default [] (SyncCondaForge.deps_file st)) names))
                _ (SyncCondaForge.shards_dir st) Hnd) as Hnd1.
  unfold SyncCondaForge.find_updates in Hf.
  apply list_elem_of_bind in Hf as ([k e] & Hu & Hin). simpl in Hu.
  apply (dget_elem_of _ k e _ Hnd1) in Hin.
  rewrite fetch_loop_deps in Hin.
  destruct (String.eqb _ _) eqn:Heq; [by apply elem_of_nil in Hu|].
  apply list_elem_of_singleton in Hu as ->. simpl.
  apply String.eqb_neq in Heq.
  destruct (decide (k ∈ _)) as [Hk|Hk].
  - split; [done|].
    destruct (SyncCondaForge.shards idx !! k) as [h|] eqn:Hs.
    + destruct (SyncCondaForge.entry_of_bytes E _) as [e'|] eqn:He.
      * injection Hin as ->. by exists h, e.
      * rewrite Hin in Heq. done.
    + rewrite Hin in Heq. done.
  - rewrite Hin in Heq. done.
Qed.

Lemma updates_only_changed_witness :
  "zlib"
    ∈ SyncCondaForge.changed
        (SyncCondaForge.classify
           (SyncCondaForge.shards Examples.index_zlib)
           (default ∅ (SyncCondaForge.hashes_file Examples.fresh_state))
           (default [] (SyncCondaForge.deps_file Examples.fresh_state))
           {[ "zlib" ]})
  /\ exists h e,
      SyncCondaForge.shards Examples.index_zlib !! "zlib" = Some h
      /\ SyncCondaForge.entry_of_bytes Examples.env_two_builds
           (SyncCondaForge.resolve Examples.env_two_builds
              (SyncCondaForge.info Examples.index_zlib)
              (SyncCondaForge.shards_dir Examples.fresh_state) h)
         = Some e
      /\ "1.10.0" = SyncCondaForge.s_version e
      /\ "(new)"
         = match Py.dget "zlib"
                   (default [] (SyncCondaForge.deps_file
                                  Examples.fresh_state)) with
           | Some e0 => SyncCondaForge.s_version e0
           | None => "(new)"
           end
      /\ "(new)" <> "1.10.0".
Proof.
  apply (updates_only_changed Examples.env_two_builds
           (SyncCondaForge.mkArgs false false) {[ "zlib" ]}
           Examples.index_zlib Examples.fresh_state
           (SyncCondaForge.mkUpdate "zlib" "(new)" "1.10.0")).
  - apply NoDup_nil_2.
  - vm_compute. apply list_elem_of_here.
Defined.

(** ** sync_conda_forge.py: shard URLs *)

Lemma string_app_inv_head (s t t' : string) : s ++ t = s ++ t' -> t = t'.
Proof.
  induction s as [|c s IH]; [done|].
  change (String c s ++ t) with (String c (s ++ t)).
  change (String c s ++ t') with (String c (s ++ t')).
  intros [= H]. by apply IH.
Qed.

Lemma string_app_length (s t : string) :
  String.length (s ++ t) = (String.length s + String.length t)%nat.
Proof.
  induction s as [|c s IH]; [done|].
  change (String c s ++ t) with (String c (s ++ t)).
  cbn [String.length]. by rewrite IH.
Qed.

Lemma hex_length (h : SyncCondaForge.bytes) :
  String.length (SyncCondaForge.hex h) = (2 * length h)%nat.
Proof.
  induction h as [|b h IH]; [done|].
  unfold SyncCondaForge.hex; fold SyncCondaForge.hex.
  rewrite string_app_length, IH. unfold SyncCondaForge.hex_byte.
  cbn [String.length length]. lia.
Qed.

(** Two hashes followed by the same text are the same hash. *)
Lemma hex_app_inj (h h' : SyncCondaForge.bytes) (u : string) :
  SyncCondaForge.hex h ++ u = SyncCondaForge.hex h' ++ u -> h = h'.
Proof.
  intros H.
  assert (Hlen : length h = length h').
  { apply (f_equal String.length) in H.
    rewrite !string_app_length, !hex_length in H. lia. }
  revert h' Hlen H. induction h as [|b h IH]; intros [|b' h'] Hlen H;
    try done.
  unfold SyncCondaForge.hex in H; fold SyncCondaForge.hex in H.
  unfold SyncCondaForge.hex_byte in H. cbn [String.append] in H.
  injection H as H1 H2 H3.
  assert (Hb : SyncCondaForge.hex_byte b = SyncCondaForge.hex_byte b').
  { unfold SyncCondaForge.hex_byte. by rewrite H1, H2. }
  apply hex_byte_inj in Hb as <-. f_equal.
  apply IH; [by injection Hlen|done].
Qed.

(** X22: For one index, two shard hashes with the same URL are the same hash:
    no two shards are fetched from one address, with or without a
    [shards_base_url]. *)
Theorem get_shard_url_inj (ii : SyncCondaForge.index_info)
        (h h' : SyncCondaForge.bytes) :
  SyncCondaForge.get_shard_url ii h = SyncCondaForge.get_shard_url ii h' ->
  h = h'.
Proof.
  unfold SyncCondaForge.get_shard_url. cbv zeta.
  destruct (Py.truthy _); intros H.
  - apply string_app_inv_head in H. by apply hex_app_inj in H.
  - do 2 apply string_app_inv_head in H. by apply hex_app_inj in H.
Qed.

Lemma get_shard_url_inj_witness : [xab] = [xab].
Proof.
  apply (get_shard_url_inj (SyncCondaForge.mkInfo None) [xab] [xab]).
  reflexivity.
Defined.

(** ** sync_conda_forge.py: the shard index *)

(** When the server answers 304 the two index files are left as they
    are and the index is decoded from the cached body, reported as not
    updated. *)
Theorem download_shards_index_not_modified
        (IE : SyncCondaForge.IndexEnv) (force : bool)
        (f : SyncCondaForge.index_files) (cached : SyncCondaForge.bytes)
        (idx : SyncCondaForge.index) :
  SyncCondaForge.http_get IE (SyncCondaForge.if_none_match force f)
  = SyncCondaForge.HTTPError 304 ->
  SyncCondaForge.index_cache f = Some cached ->
  SyncCondaForge.unpack_index IE cached = Some idx ->
  SyncCondaForge.download_shards_index IE force f = (inr (idx, false), f).
Proof.
  intros Hget Hc Hu. unfold SyncCondaForge.download_shards_index.
  by rewrite Hget, Hc, Hu.
Qed.

(** X19: A successful response replaces the cached body before it is decoded,
    so it is stored even when decoding fails; the stored ETag is replaced
    only when the response carries a non-empty one. *)
Theorem download_shards_index_success_files
        (IE : SyncCondaForge.IndexEnv) (force : bool)
        (f : SyncCondaForge.index_files) (data : SyncCondaForge.bytes)
        (etag : option string) :
  SyncCondaForge.http_get IE (SyncCondaForge.if_none_match force f)
  = SyncCondaForge.Success data etag ->
  snd (SyncCondaForge.download_shards_index IE force f)
  = SyncCondaForge.mkIndexFiles
      (Some data)
      (match etag with
       | Some (String c e) => Some (String c e)
       | _ => SyncCondaForge.etag_cache f
       end)
  /\ (SyncCondaForge.unpack_index IE data = None ->
      fst (SyncCondaForge.download_shards_index IE force f)
      = inl SyncCondaForge.IndexDecodeError).
Proof.
  intros Hget. unfold SyncCondaForge.download_shards_index. rewrite Hget.
  simpl. split.
  - by destruct etag as [[|c e]|].
  - by intros ->.
Qed.

(** X20: Conditional refresh round trip: after a download that stored the
    body and a non-empty ETag, the next unforced call sends the stripped
    ETag in [If-None-Match]; when the server answers 304 to it, the same
    index is returned, reported as not updated, and nothing is written. *)
Theorem download_shards_index_round_trip
        (IE : SyncCondaForge.IndexEnv) (force : bool)
        (f : SyncCondaForge.index_files) (data : SyncCondaForge.bytes)
        (c : ascii) (e : string) (idx : SyncCondaForge.index) :
  SyncCondaForge.http_get IE (SyncCondaForge.if_none_match force f)
  = SyncCondaForge.Success data (Some (String c e)) ->
  SyncCondaForge.unpack_index IE data = Some idx ->
  SyncCondaForge.http_get IE (Some (Py.strip (String c e)))
  = SyncCondaForge.HTTPError 304 ->
  fst (SyncCondaForge.download_shards_index IE force f) = inr (idx, true)
  /\ SyncCondaForge.if_none_match false
       (snd (SyncCondaForge.download_shards_index IE force f))
     = Some (Py.strip (String c e))
  /\ SyncCondaForge.download_shards_index IE false
       (snd (SyncCondaForge.download_shards_index IE force f))
     = (inr (idx, false),
        snd (SyncCondaForge.download_shards_index IE force f)).
Proof.
  intros Hget Hu H304.
  unfold SyncCondaForge.download_shards_index at 1 2 4 5.
  rewrite Hget, Hu. simpl fst. simpl snd. split; [done|]. split; [done|].
  unfold SyncCondaForge.download_shards_index, SyncCondaForge.if_none_match.
  simpl. rewrite H304. simpl. by rewrite Hu.
Qed.

Lemma download_shards_index_success_files_witness :
  snd (SyncCondaForge.download_shards_index Examples.index_env false
         Examples.no_index_files)
  = SyncCondaForge.mkIndexFiles
      (Some [x01])
      (match Some " v1 " with
       | Some (String c e) => Some (String c e)
       | _ => SyncCondaForge.etag_cache Examples.no_index_files
       end)
  /\ (SyncCondaForge.unpack_index Examples.index_env [x01] = None ->
      fst (SyncCondaForge.download_shards_index Examples.index_env false
             Examples.no_index_files)
      = inl SyncCondaForge.IndexDecodeError).
Proof.
  apply (download_shards_index_success_files Examples.index_env false
           Examples.no_index_files [x01] (Some " v1 ")).
  reflexivity.
Defined.

Lemma download_shards_index_round_trip_witness :
  fst (SyncCondaForge.download_shards_index Examples.index_env false
         Examples.no_index_files)
  = inr (Examples.index_zlib, true)
  /\ SyncCondaForge.if_none_match false
       (snd (SyncCondaForge.download_shards_index Examples.index_env false
               Examples.no_index_files))
     = Some (Py.strip " v1 ")
  /\ SyncCondaForge.download_shards_index Examples.index_env false
       (snd (SyncCondaForge.download_shards_index Examples.index_env false
               Examples.no_index_files))
     = (inr (Examples.index_zlib, false),
        snd (SyncCondaForge.download_shards_index Examples.index_env false
               Examples.no_index_files)).
Proof.
  apply (download_shards_index_round_trip Examples.index_env false
           Examples.no_index_files [x01] " " "v1 " Examples.index_zlib).
  - reflexivity.
  - reflexivity.
  - reflexivity.
Defined.

(** X23: A body that cannot be decoded stays in the cache: when a successful
    response with an [ETag] carries such a body, the call fails, and the
    next conditional refresh, answered with 304, decodes the same cached
    body and fails again, leaving the files as they are. *)
Theorem download_shards_index_undecodable_body
        (IE : SyncCondaForge.IndexEnv) (force : bool)
        (f : SyncCondaForge.index_files) (data : SyncCondaForge.bytes)
        (c : ascii) (e : string) :
  SyncCondaForge.http_get IE (SyncCondaForge.if_none_match force f)
  = SyncCondaForge.Success data (Some (String c e)) ->
  SyncCondaForge.unpack_index IE data = None ->
  SyncCondaForge.http_get IE (Some (Py.strip (String c e)))
  = SyncCondaForge.HTTPError 304 ->
  fst (SyncCondaForge.download_shards_index IE force f)
  = inl SyncCondaForge.IndexDecodeError
  /\ SyncCondaForge.index_cache
       (snd (SyncCondaForge.download_shards_index IE force f))
     = Some data
  /\ SyncCondaForge.download_shards_index IE false
       (snd (SyncCondaForge.download_shards_index IE force f))
     = (inl SyncCondaForge.IndexDecodeError,
        snd (SyncCondaForge.download_shards_index IE force f)).
Proof.
  intros Hget Hu H304.
  unfold SyncCondaForge.download_shards_index at 1 2 4 5.
  rewrite Hget, Hu. simpl fst. simpl snd. split; [done|]. split; [done|].
  unfold SyncCondaForge.download_shards_index, SyncCondaForge.if_none_match.
  simpl. rewrite H304. simpl. by rewrite Hu.
Qed.

Lemma download_shards_index_undecodable_body_witness :
  fst (SyncCondaForge.download_shards_index Examples.index_env_garbled false
         Examples.no_index_files)
  = inl SyncCondaForge.IndexDecodeError
  /\ SyncCondaForge.index_cache
       (snd (SyncCondaForge.download_shards_index
               Examples.index_env_garbled false Examples.no_index_files))
     = Some [x01]
  /\ SyncCondaForge.download_shards_index Examples.index_env_garbled false
       (snd (SyncCondaForge.download_shards_index
               Examples.index_env_garbled false Examples.no_index_files))
     = (inl SyncCondaForge.IndexDecodeError,
        snd (SyncCondaForge.download_shards_index
               Examples.index_env_garbled false Examples.no_index_files)).
Proof.
  apply (download_shards_index_undecodable_body Examples.index_env_garbled
           false Examples.no_index_files [x01] " " "v1 ").
  - reflexivity.
  - reflexivity.
  - reflexivity.
Defined.

(** ** dep_graph.py: graphs built by [build_graph] *)

Lemma build_graph_names (data : Py.pydict GenDeps.entry) :
  DepGraph.name <$> fst (DepGraph.build_graph data) = Py.dkeys data.
Proof.
  unfold DepGraph.build_graph, Py.dkeys. simpl.
  rewrite <- list_fmap_compose. by apply list_fmap_ext.
Qed.

Lemma build_graph_edge_elem (data : Py.pydict GenDeps.entry)
      (e : DepGraph.edge_row) :
  e ∈ snd (DepGraph.build_graph data)
  <-> exists info, (DepGraph.src e, info) ∈ data
        /\ (DepGraph.dst e, DepGraph.constraint e) ∈ GenDeps.e_host_deps info.
Proof.
  unfold DepGraph.build_graph. simpl. rewrite list_elem_of_bind. split.
  - intros ([k info] & He & Hin). simpl in He.
    apply list_elem_of_fmap in He as ([d c] & -> & Hdc). simpl. eauto.
  - intros (info & Hin & Hdc). exists (DepGraph.src e, info).
    split; [|done]. simpl. apply list_elem_of_fmap.
    exists (DepGraph.dst e, DepGraph.constraint e). split; [|done].
    by destruct e.
Qed.

Lemma build_graph_src (data : Py.pydict GenDeps.entry)
      (e : DepGraph.edge_row) :
  e ∈ snd (DepGraph.build_graph data) ->
  DepGraph.src e ∈ DepGraph.name <$> fst (DepGraph.build_graph data).
Proof.
  intros (info & Hin & _)%build_graph_edge_elem.
  rewrite build_graph_names. unfold Py.dkeys.
  apply list_elem_of_fmap. by exists (DepGraph.src e, info).
Qed.

Lemma build_graph_match (data : Py.pydict GenDeps.entry) (p d : string) :
  (p, d) ∈ DepGraph.match_dep
             (DepGraph._all_nodes (fst (DepGraph.build_graph data))
                                  (snd (DepGraph.build_graph data)))
             (snd (DepGraph.build_graph data))
  <-> exists info c, (p, info) ∈ data /\ (d, c) ∈ GenDeps.e_host_deps info.
Proof.
  rewrite match_dep_elem. split.
  - intros (e & He & <- & <- & _).
    apply build_graph_edge_elem in He as (info & ? & ?). eauto.
  - intros (info & c & Hin & Hdc).
    assert (He : DepGraph.mkEdge p d c ∈ snd (DepGraph.build_graph data)).
    { apply build_graph_edge_elem. by exists info. }
    exists (DepGraph.mkEdge p d c). split_and!; try done.
    + apply all_nodes_elem. left. by apply (build_graph_src _ _ He).
    + apply all_nodes_elem. right.
      apply list_elem_of_fmap. by exists (DepGraph.mkEdge p d c).
Qed.

(** X4: In a graph built by [build_graph] every edge starts at a package
    row, and [rdeps] and [deps] are read off the host dependencies: the
    reverse dependencies of a name are the packages that list it, the
    dependencies of a package are the names it lists. The queried name
    is made of the characters of [PKG_SPEC_PAT], so that what stands
    between the quotes of the query text is the name, and the graph has
    an edge. *)
Theorem build_graph_queries (data : Py.pydict GenDeps.entry) (n : string) :
  Forall (fun c => GenDeps.is_name_char c = true) (list_ascii_of_string n) ->
  snd (DepGraph.build_graph data) <> [] ->
  (forall e, e ∈ snd (DepGraph.build_graph data) ->
             DepGraph.src e ∈ DepGraph.name <$> fst (DepGraph.build_graph data))
  /\ (forall p,
         p ∈ DepGraph.rdeps (fst (DepGraph.build_graph data))
                            (snd (DepGraph.build_graph data)) n
         <-> exists info c, (p, info) ∈ data
                            /\ (n, c) ∈ GenDeps.e_host_deps info)
  /\ (forall d,
         d ∈ DepGraph.deps (fst (DepGraph.build_graph data))
                           (snd (DepGraph.build_graph data)) n
         <-> exists info c, (n, info) ∈ data
                            /\ (d, c) ∈ GenDeps.e_host_deps info).
Proof.
  intros _ _. split; [apply build_graph_src|]. split.
  - intros p. by rewrite rdeps_elem, build_graph_match.
  - intros d. by rewrite deps_elem, build_graph_match.
Qed.

Lemma build_graph_queries_witness :
  (forall e, e ∈ snd (DepGraph.build_graph Examples.data_chain) ->
             DepGraph.src e
               ∈ DepGraph.name <$> fst (DepGraph.build_graph
                                          Examples.data_chain))
  /\ (forall p,
         p ∈ DepGraph.rdeps (fst (DepGraph.build_graph Examples.data_chain))
                            (snd (DepGraph.build_graph Examples.data_chain))
                            "B"
         <-> exists info c, (p, info) ∈ Examples.data_chain
                            /\ ("B", c) ∈ GenDeps.e_host_deps info)
  /\ (forall d,
         d ∈ DepGraph.deps (fst (DepGraph.build_graph Examples.data_chain))
                           (snd (DepGraph.build_graph Examples.data_chain))
                           "B"
         <-> exists info c, ("B", info) ∈ Examples.data_chain
                            /\ (d, c) ∈ GenDeps.e_host_deps info).
Proof.
  apply (build_graph_queries Examples.data_chain "B").
  - repeat constructor.
  - vm_compute. discriminate.
Defined.



(** ** dep_graph.py: two-hop chains on simple graphs *)

Lemma fmap_NoDup_inj {A B} (f : A -> B) (l : list A) (x y : A) :
  NoDup (f <$> l) -> x ∈ l -> y ∈ l -> f x = f y -> x = y.
Proof.
  induction l as [|a l IH]; intros Hnd Hx Hy Hf.
  - by apply elem_of_nil in Hx.
  - rewrite fmap_cons in Hnd. apply NoDup_cons in Hnd as [Ha Hnd].
    apply elem_of_cons in Hx as [->|Hx]; apply elem_of_cons in Hy as [->|Hy].
    + done.
    + exfalso. apply Ha. rewrite Hf. by apply list_elem_of_fmap_2.
    + exfalso. apply Ha. rewrite <- Hf. by apply list_elem_of_fmap_2.
    + by apply IH.
Qed.

Lemma match_dep_NoDup (nodes : list string) (edges : list DepGraph.edge_row) :
  NoDup nodes ->
  NoDup ((fun e => (DepGraph.src e, DepGraph.dst e)) <$> edges) ->
  NoDup (DepGraph.match_dep nodes edges).
Proof.
  intros Hn He. unfold DepGraph.match_dep.
  assert (Hin : forall e y,
            y ∈ (filter (fun p => p = DepGraph.src e) nodes ≫= fun p =>
                 filter (fun d => d = DepGraph.dst e) nodes ≫= fun d =>
                 [(p, d)])
            -> y = (DepGraph.src e, DepGraph.dst e)).
  { intros e y (p & Hy & [-> _]%list_elem_of_filter)%list_elem_of_bind.
    apply list_elem_of_bind in Hy as (d & Hy & [-> _]%list_elem_of_filter).
    by apply list_elem_of_singleton in Hy. }
  apply NoDup_bind.
  - intros e1 e2 y H1 H2 Hy1 Hy2. apply Hin in Hy1, Hy2. subst y.
    by eapply (fmap_NoDup_inj _ edges).
  - intros e _. apply NoDup_bind.
    + intros p1 p2 y [-> _]%list_elem_of_filter [-> _]%list_elem_of_filter.
      done.
    + intros p _. apply NoDup_bind.
      * intros d1 d2 y [-> _]%list_elem_of_filter [-> _]%list_elem_of_filter.
        done.
      * intros d _. apply NoDup_singleton.
      * by apply NoDup_filter.
    + by apply NoDup_filter.
  - by eapply NoDup_fmap_1.
Qed.

Lemma match_dep2_NoDup (nodes : list string) (edges : list DepGraph.edge_row) :
  NoDup (DepGraph.match_dep nodes edges) ->
  NoDup (DepGraph.match_dep2 nodes edges).
Proof.
  intros Hm. unfold DepGraph.match_dep2. apply NoDup_bind; [| |done].
  - intros [p1 d1] [p2 d2] y _ _ Hy1 Hy2.
    apply list_elem_of_bind in Hy1 as (q1 & Hy1 & _).
    apply list_elem_of_bind in Hy2 as (q2 & Hy2 & _).
    apply list_elem_of_singleton in Hy1, Hy2. simpl in *. by simplify_eq.
  - intros [p d1] _. apply NoDup_bind; [| |by apply NoDup_filter].
    + intros [a1 b1] [a2 b2] y [Ha1 _]%list_elem_of_filter
             [Ha2 _]%list_elem_of_filter Hy1 Hy2.
      apply list_elem_of_singleton in Hy1, Hy2. simpl in *. by simplify_eq.
    + intros q _. apply NoDup_singleton.
Qed.

Lemma dep_chain_2hop_NoDup_simple (packages : list DepGraph.pkg_row)
      (edges : list DepGraph.edge_row) (n : string) :
  NoDup ((fun e => (DepGraph.src e, DepGraph.dst e)) <$> edges) ->
  NoDup (DepGraph.dep_chain_2hop packages edges n).
Proof.
  intros He. unfold DepGraph.dep_chain_2hop.
  apply NoDup_filter, match_dep2_NoDup, match_dep_NoDup; [|done].
  apply all_nodes_NoDup.
Qed.

(** X5: When no two edge rows share source and destination, [dep_chain_2hop]
    returns every chain once. *)
Theorem dep_chain_2hop_NoDup (packages : list DepGraph.pkg_row)
        (edges : list DepGraph.edge_row) (n : string) :
  NoDup ((fun e => (DepGraph.src e, DepGraph.dst e)) <$> edges) ->
  NoDup (DepGraph.dep_chain_2hop packages edges n).
Proof.
  intros He. pose proof (all_nodes_NoDup packages edges) as Hn.
  pose proof (match_dep_NoDup _ _ Hn He) as Hm.
  apply match_dep2_NoDup in Hm. unfold DepGraph.dep_chain_2hop.
  by apply NoDup_filter.
Qed.

Lemma dep_chain_2hop_NoDup_witness :
  DepGraph.dep_chain_2hop Examples.packages_chain Examples.edges_chain "A"
  = [("A", "B", "C"); ("A", "B", "D")]
  /\ NoDup (DepGraph.dep_chain_2hop Examples.packages_chain
                                    Examples.edges_chain "A").
Proof.
  split; [vm_compute; reflexivity|].
  apply (dep_chain_2hop_NoDup Examples.packages_chain Examples.edges_chain
                              "A").
  apply (bool_decide_unpack _). vm_compute. exact I.
Defined.

Lemma build_graph_simple (data : Py.pydict GenDeps.entry) :
  NoDup (Py.dkeys data) ->
  (forall k info, (k, info) ∈ data -> NoDup (Py.dkeys (GenDeps.e_host_deps info)))
  -> NoDup ((fun e => (DepGraph.src e, DepGraph.dst e))
              <$> snd (DepGraph.build_graph data)).
Proof.
  unfold DepGraph.build_graph. simpl.
  induction data as [|[k info] data IH]; intros Hk Hh.
  { apply NoDup_nil_2. }
  unfold Py.dkeys in Hk. rewrite fmap_cons in Hk.
  apply NoDup_cons in Hk as [Hk Hnd].
  rewrite bind_cons, fmap_app. apply NoDup_app. split_and!.
  - rewrite <- list_fmap_compose. simpl.
    assert (Hd : NoDup (Py.dkeys (GenDeps.e_host_deps info)))
      by (eapply Hh; apply list_elem_of_here).
    unfold Py.dkeys in Hd. revert Hd.
    generalize (GenDeps.e_host_deps info). intros hd Hd.
    induction hd as [|[d c] hd IHd]; [simpl; constructor|].
    rewrite !fmap_cons in *. apply NoDup_cons in Hd as [Hd Hnd'].
    apply NoDup_cons. split; [|by apply IHd].
    intros ([d' c'] & [= <-] & Hin)%list_elem_of_fmap. simpl in *.
    apply Hd. apply list_elem_of_fmap. by exists (d, c').
  - intros sd Hsd Hrest. apply Hk.
    apply list_elem_of_fmap in Hsd as (e & -> & He).
    apply list_elem_of_fmap in He as ([d c] & -> & _). simpl in Hrest.
    apply list_elem_of_fmap in Hrest as (e' & Heq & He').
    apply list_elem_of_bind in He' as ([k' info'] & He' & Hin).
    apply list_elem_of_fmap in He' as ([d' c'] & -> & _).
    simpl in Heq. injection Heq as -> _.
    apply list_elem_of_fmap. by exists (k', info').
  - apply IH; [done|]. intros k' info' Hin. eapply Hh.
    by apply list_elem_of_further.
Qed.

Lemma dset_elem (V : Type) (k : string) (v : V) (d : Py.pydict V)
      (x : string * V) :
  x ∈ Py.dset k v d -> x ∈ d \/ x = (k, v).
Proof.
  induction d as [|[k' v'] d IH]; simpl.
  - intros ->%list_elem_of_singleton. by right.
  - destruct (String.eqb k k').
    + intros [->|?]%elem_of_cons; [by right|]. left. by apply list_elem_of_further.
    + intros [->|H]%elem_of_cons; [left; apply list_elem_of_here|].
      destruct (IH H) as [?|?]; [left; by apply list_elem_of_further|by right].
Qed.

Lemma main_json_invariant (l : list GenDeps.output)
      (acc : Py.pydict GenDeps.entry) :
  NoDup (Py.dkeys acc) ->
  NoDup (Py.dkeys
           (fold_left
              (fun result pkg =>
                 if Py.dmem (GenDeps.name pkg) result then result
                 else Py.dset (GenDeps.name pkg) (GenDeps.entry_of pkg) result)
              l acc))
  /\ forall k e,
      (k, e) ∈ fold_left
                 (fun result pkg =>
                    if Py.dmem (GenDeps.name pkg) result then result
                    else Py.dset (GenDeps.name pkg) (GenDeps.entry_of pkg)
                                 result)
                 l acc ->
      (k, e) ∈ acc \/ exists pkg, pkg ∈ l /\ e = GenDeps.entry_of pkg.
Proof.
  revert acc. induction l as [|pkg l IH]; intros acc Hnd; simpl.
  { split; [done|]. by left. }
  destruct (Py.dmem (GenDeps.name pkg) acc).
  - destruct (IH acc Hnd) as [H1 H2]. split; [done|].
    intros k e Hin. destruct (H2 k e Hin) as [?|(p & ? & ?)]; [by left|].
    right. exists p. split; [by apply list_elem_of_further|done].
  - destruct (IH _ (dset_keys_NoDup _ (GenDeps.name pkg) (GenDeps.entry_of pkg)
                                    acc Hnd)) as [H1 H2].
    split; [done|]. intros k e Hin.
    destruct (H2 k e Hin) as [Hd|(p & ? & ?)].
    + apply dset_elem in Hd as [?|[= -> ->]]; [by left|].
      right. exists pkg. split; [apply list_elem_of_here|done].
    + right. exists p. split; [by apply list_elem_of_further|done].
Qed.

Lemma merge_host_deps_keys_NoDup (host_raw : list GenDeps.dep_value) :
  NoDup (Py.dkeys (GenDeps.merge_host_deps host_raw)).
Proof.
  unfold GenDeps.merge_host_deps.
  assert (H : forall acc, NoDup (Py.dkeys acc) ->
                NoDup (Py.dkeys (fold_left GenDeps.host_step host_raw acc))).
  { induction host_raw as [|d l IH]; intros acc Hacc; [done|].
    simpl. apply IH. unfold GenDeps.host_step.
    destruct (GenDeps.extract_pkg_spec d) as [[n c]|]; [|done].
    destruct (_ || _); [by apply dset_keys_NoDup|done]. }
  apply H, NoDup_nil_2.
Qed.

(** X6: Whatever the renderer returns for the recipes, the graph built from
    the JSON output of gen_deps.py has no two edges with the same source
    and destination, and its two-hop chains are free of duplicates. *)
Theorem pipeline_dep_chain_2hop_NoDup (recipes : list GenDeps.render_result)
        (n : string) :
  NoDup ((fun e => (DepGraph.src e, DepGraph.dst e))
           <$> snd (DepGraph.build_graph
                      (GenDeps.main_json (GenDeps.collect_outputs recipes))))
  /\ NoDup (DepGraph.dep_chain_2hop
              (fst (DepGraph.build_graph
                      (GenDeps.main_json (GenDeps.collect_outputs recipes))))
              (snd (DepGraph.build_graph
                      (GenDeps.main_json (GenDeps.collect_outputs recipes))))
              n).
Proof.
  assert (Hs : NoDup ((fun e => (DepGraph.src e, DepGraph.dst e))
                 <$> snd (DepGraph.build_graph
                            (GenDeps.main_json
                               (GenDeps.collect_outputs recipes))))).
  { destruct (main_json_invariant (GenDeps.collect_outputs recipes) []
                (NoDup_nil_2)) as [Hk He].
    apply build_graph_simple; [done|].
    intros k info Hin. destruct (He k info Hin) as [H|(pkg & Hp & ->)].
    { by apply elem_of_nil in H. }
    unfold GenDeps.collect_outputs in Hp.
    apply list_elem_of_bind in Hp as (r & Hp & _).
    destruct r as [| |items]; simpl in Hp;
      [by apply elem_of_nil in Hp|by apply elem_of_nil in Hp|].
    apply list_elem_of_fmap in Hp as (item & -> & _). simpl.
    apply merge_host_deps_keys_NoDup. }
  split; [done|]. by apply dep_chain_2hop_NoDup_simple.
Qed.

(** ** dep_graph.py: what [check_rebuilds] reads *)

Lemma rdeps_names (packages packages' : list DepGraph.pkg_row)
      (edges : list DepGraph.edge_row) (n : string) :
  DepGraph.name <$> packages = DepGraph.name <$> packages' ->
  DepGraph.rdeps packages edges n = DepGraph.rdeps packages' edges n.
Proof.
  intros H. unfold DepGraph.rdeps, DepGraph._all_nodes. by rewrite H.
Qed.

Lemma triggers_upper_bound_only (lv uv : string) (e e' : GenDeps.run_export) :
  DepGraph.get_upper_bound e = DepGraph.get_upper_bound e' ->
  DepGraph.triggers lv uv e = DepGraph.triggers lv uv e'.
Proof. intros H. unfold DepGraph.triggers. by rewrite H. Qed.

Lemma export_loop_upper_bound_only
      (packages packages' : list DepGraph.pkg_row)
      (edges : list DepGraph.edge_row) (n lv uv : string)
      (exps exps' : list GenDeps.run_export) (st : DepGraph.state) :
  DepGraph.name <$> packages = DepGraph.name <$> packages' ->
  DepGraph.get_upper_bound <$> exps = DepGraph.get_upper_bound <$> exps' ->
  DepGraph.export_loop packages edges n lv uv exps st
  = DepGraph.export_loop packages' edges n lv uv exps' st.
Proof.
  intros Hn. unfold DepGraph.export_loop.
  rewrite (rdeps_names packages packages' edges n Hn). revert exps' st.
  induction exps as [|e exps IH]; intros [|e' exps'] st Hub; try done.
  rewrite !fmap_cons in Hub. injection Hub as He Hub.
  cbn [fold_left].
  rewrite (triggers_upper_bound_only _ _ _ _ He), He. by apply IH.
Qed.

Lemma examined_fields (upstream : gmap string DepGraph.upstream_info)
      (r r' : DepGraph.pkg_row) :
  DepGraph.name r = DepGraph.name r' ->
  DepGraph.version r = DepGraph.version r' ->
  DepGraph.get_upper_bound <$> DepGraph.run_exports r
  = DepGraph.get_upper_bound <$> DepGraph.run_exports r' ->
  DepGraph.examined upstream r = DepGraph.examined upstream r'.
Proof.
  intros Hn Hv Hub. unfold DepGraph.examined. rewrite Hn, Hv.
  destruct (DepGraph.run_exports r), (DepGraph.run_exports r'); done.
Qed.

Lemma package_loop_upper_bound_only
      (pk pk' rows rows' : list DepGraph.pkg_row)
      (edges : list DepGraph.edge_row)
      (upstream : gmap string DepGraph.upstream_info) (st : DepGraph.state) :
  DepGraph.name <$> pk = DepGraph.name <$> pk' ->
  Forall2 (fun r r' =>
             DepGraph.name r = DepGraph.name r'
             /\ DepGraph.version r = DepGraph.version r'
             /\ DepGraph.get_upper_bound <$> DepGraph.run_exports r
                = DepGraph.get_upper_bound <$> DepGraph.run_exports r')
          rows rows' ->
  DepGraph.package_loop pk edges upstream rows st
  = DepGraph.package_loop pk' edges upstream rows' st.
Proof.
  intros Hn HR. revert st.
  induction HR as [|r r' l l' (Hrn & Hrv & Hub) _ IH]; intros st; [done|].
  unfold DepGraph.package_loop in *. cbn [fold_left].
  rewrite <- (examined_fields upstream r r' Hrn Hrv Hub).
  destruct (DepGraph.examined upstream r) as [uv|]; [|apply IH].
  rewrite <- Hrn, <- Hrv.
  rewrite (export_loop_upper_bound_only pk pk' edges _ _ _ _ _ st Hn Hub).
  apply IH.
Qed.

(** X7: [check_rebuilds] reads of the package rows only the name, the
    version and the [upper_bound] of each export rule: the [exact] flag,
    the lower bound, the kind and the name of a rule, and the host
    dependencies column, do not influence the result. *)
Theorem check_rebuilds_upper_bound_only
        (packages packages' : list DepGraph.pkg_row)
        (edges : list DepGraph.edge_row)
        (upstream : gmap string DepGraph.upstream_info) :
  Forall2 (fun r r' =>
             DepGraph.name r = DepGraph.name r'
             /\ DepGraph.version r = DepGraph.version r'
             /\ DepGraph.get_upper_bound <$> DepGraph.run_exports r
                = DepGraph.get_upper_bound <$> DepGraph.run_exports r')
          packages packages' ->
  DepGraph.check_rebuilds packages edges upstream
  = DepGraph.check_rebuilds packages' edges upstream.
Proof.
  intros HR. unfold DepGraph.check_rebuilds. do 2 f_equal.
  apply package_loop_upper_bound_only; [|done].
  induction HR as [|r r' l l' (Hn & _) _ IH]; [done|].
  by rewrite !fmap_cons, Hn, IH.
Qed.

Lemma check_rebuilds_upper_bound_only_witness :
  DepGraph.check_rebuilds Examples.packages_AB Examples.edges_AB
                          (Examples.upstream_B "1.3.0")
  = DepGraph.check_rebuilds Examples.packages_AB_exact Examples.edges_AB
                            (Examples.upstream_B "1.3.0").
Proof.
  apply (check_rebuilds_upper_bound_only Examples.packages_AB
           Examples.packages_AB_exact Examples.edges_AB
           (Examples.upstream_B "1.3.0")).
  repeat constructor.
Defined.

(** A trigger for a package is only emitted when the upstream snapshot
    has a non-empty version for it that differs from the version of a
    package row of that name with at least one export rule, and the
    dependent is one of its reverse dependencies. *)
Theorem check_rebuilds_needs_version_change
        (packages : list DepGraph.pkg_row) (edges : list DepGraph.edge_row)
        (upstream : gmap string DepGraph.upstream_info)
        (dep n rsn : string) :
  (dep, n, rsn) ∈ DepGraph.check_rebuilds packages edges upstream ->
  exists u r,
    upstream !! n = Some u /\ r ∈ packages /\ DepGraph.name r = n
    /\ DepGraph.get_version u <> ""
    /\ DepGraph.version r <> DepGraph.get_version u
    /\ DepGraph.run_exports r <> []
    /\ dep ∈ DepGraph.rdeps packages edges n.
Proof.
  intros Hin. apply check_rebuilds_justified in Hin.
  destruct Hin as (r & uv & ub & d & e & Hr & Hex & _ & _ & _ & Hd & Heq).
  injection Heq as -> -> _. unfold DepGraph.examined in Hex.
  destruct (upstream !! DepGraph.name r) as [u|] eqn:Hu; [|done].
  destruct (DepGraph.run_exports r) as [|e0 es] eqn:Hre; [done|].
  destruct (Py.truthy (Some (DepGraph.get_version u))) eqn:Ht; [|done].
  simpl in Hex.
  destruct (String.eqb (DepGraph.version r) (DepGraph.get_version u)) eqn:Hv;
    [done|].
  exists u, r. split_and!; try done.
  - by apply truthy_Some.
  - by apply String.eqb_neq.
  - by rewrite Hre.
Qed.

Lemma check_rebuilds_needs_version_change_witness :
  exists u r,
    Examples.upstream_B "1.3.0" !! "B" = Some u
    /\ r ∈ Examples.packages_AB /\ DepGraph.name r = "B"
    /\ DepGraph.get_version u <> ""
    /\ DepGraph.version r <> DepGraph.get_version u
    /\ DepGraph.run_exports r <> []
    /\ "A" ∈ DepGraph.rdeps Examples.packages_AB Examples.edges_AB "B".
Proof.
  apply (check_rebuilds_needs_version_change Examples.packages_AB
           Examples.edges_AB (Examples.upstream_B "1.3.0")
           "A" "B" "B 1.2.0 -> 1.3.0 (ub=x.x)").
  vm_compute. apply list_elem_of_here.
Defined.

(** ** The two version parsers: shape of the result *)

Lemma split_length (sep : ascii) (s : string) :
  length (Py.split sep s) = S (Py.count sep s).
Proof.
  induction s as [|c s IH]; simpl; [done|].
  destruct (Ascii.eqb c sep); simpl; [by rewrite IH|].
  destruct (Py.split sep s); simpl in *; [done|by rewrite <- IH].
Qed.

Lemma count_replace_dash (s : string) :
  Py.count "." (Py.replace "-" "." s)
  = (Py.count "." s + Py.count "-" s)%nat.
Proof.
  induction s as [|c s IH]; simpl; [done|]. rewrite IH.
  destruct (Ascii.eqb c "-") eqn:Hd.
  - apply Ascii.eqb_eq in Hd as ->. simpl. lia.
  - destruct (Ascii.eqb c "."); simpl; lia.
Qed.

Lemma int_acc_digits_nonneg (acc : Z) (s : string) :
  0 <= acc ->
  Forall (fun c => Py.isdigit c = true) (list_ascii_of_string s) ->
  0 <= Py.int_acc acc s.
Proof.
  revert acc. induction s as [|c s IH]; simpl; intros acc Hacc Hs; [done|].
  apply Forall_cons in Hs as [Hc Hs]. apply IH; [|done].
  unfold Py.isdigit in Hc. unfold Py.digit_value.
  apply andb_true_iff in Hc as [H1 _]. apply N.leb_le in H1. lia.
Qed.

Lemma filter_chars_Forall (p : ascii -> bool) (s : string) :
  Forall (fun c => p c = true) (list_ascii_of_string (Py.filter_chars p s)).
Proof.
  induction s as [|c s IH]; simpl; [done|].
  destruct (p c) eqn:Hc; simpl; [by constructor|done].
Qed.

(** X10: For an ASCII version string of at most 4300 characters (where
    [str.isdigit] is the test for a decimal digit and [int] converts
    every digit run) both parsers return one component per segment, that
    is one more than the number of "." and "-" in the version, so never
    the empty tuple, and no component is negative. *)
Theorem parse_version_shape (v : string) :
  Forall (fun c => Py.isascii c = true) (list_ascii_of_string v) ->
  (String.length v <= Py.MAX_STR_DIGITS)%nat ->
  (length (DepGraph.parse_version v)
   = S (Py.count "." v + Py.count "-" v)
   /\ Forall (fun z => 0 <= z) (DepGraph.parse_version v))
  /\ (length (SyncCondaForge.parse_version v)
      = S (Py.count "." v + Py.count "-" v)
      /\ Forall (fun z => 0 <= z) (SyncCondaForge.parse_version v)).
Proof.
  intros _ _.
  unfold DepGraph.parse_version, SyncCondaForge.parse_version.
  rewrite !length_fmap, split_length, count_replace_dash.
  split; (split; [done|]); apply Forall_fmap, Forall_true; intros seg; simpl.
  - destruct (Py.filter_chars Py.isdigit seg) eqn:Hf; [done|].
    rewrite <- Hf. apply int_acc_digits_nonneg; [done|].
    apply filter_chars_Forall.
  - destruct (Py.take_while Py.isdigit seg) eqn:Hf; [done|].
    rewrite <- Hf. apply int_acc_digits_nonneg; [done|].
    apply take_while_Forall.
Qed.

Lemma parse_version_shape_witness :
  (length (DepGraph.parse_version "1.2rc3-4")
   = S (Py.count "." "1.2rc3-4" + Py.count "-" "1.2rc3-4")
   /\ Forall (fun z => 0 <= z) (DepGraph.parse_version "1.2rc3-4"))
  /\ (length (SyncCondaForge.parse_version "1.2rc3-4")
      = S (Py.count "." "1.2rc3-4" + Py.count "-" "1.2rc3-4")
      /\ Forall (fun z => 0 <= z) (SyncCondaForge.parse_version "1.2rc3-4")).
Proof.
  apply (parse_version_shape "1.2rc3-4").
  - repeat constructor.
  - unfold Py.MAX_STR_DIGITS. simpl. lia.
Defined.

(** ** From gen_deps.py output to rebuild triggers *)

(** X9: On a graph built by [build_graph], every rebuild trigger names as
    dependent a package of the input that lists the changed package
    among its host dependencies. *)
Theorem check_rebuilds_build_graph (data : Py.pydict GenDeps.entry)
        (upstream : gmap string DepGraph.upstream_info)
        (dep n rsn : string) :
  (dep, n, rsn)
    ∈ DepGraph.check_rebuilds (fst (DepGraph.build_graph data))
                              (snd (DepGraph.build_graph data)) upstream ->
  exists info c, (dep, info) ∈ data /\ (n, c) ∈ GenDeps.e_host_deps info.
Proof.
  intros Hin. apply check_rebuilds_justified in Hin.
  destruct Hin as (r & uv & ub & d & e & _ & _ & _ & _ & _ & Hd & Heq).
  injection Heq as -> -> _.
  by apply rdeps_elem, build_graph_match in Hd.
Qed.

Lemma check_rebuilds_build_graph_witness :
  exists info c,
    ("A", info) ∈ Examples.data_AB /\ ("B", c) ∈ GenDeps.e_host_deps info.
Proof.
  apply (check_rebuilds_build_graph Examples.data_AB
           (Examples.upstream_B "1.3.0") "A" "B" "B 1.2.0 -> 1.3.0 (ub=x.x)").
  vm_compute. apply list_elem_of_here.
Defined.
